(** * StudyAI backend: provider fallback, study-group model, controllers

    A shallow embedding of the parts of the StudyAI backend that carry its
    stated properties:
    - [AIService] (services/aiService.js): the Groq / Gemini / template
      generation chain and the synthesized fallback content;
    - [StudyGroup] (models/StudyGroup.js): chat history and session
      attendance;
    - [StudyGroupController], [AIController]: the request handlers and
      their error boundary;
    - [UserStore]: the user schema and the unique indexes it declares;
    - [Auth] (middleware/auth.js) and [StudyGroupRoutes]
      (routes/studyGroups.js): the authentication middleware and the
      study-group handlers as they run behind it. *)

From Stdlib Require Import ZArith List String Ascii Bool Lia QArith DecimalString.
From Equations Require Import Equations.
Import ListNotations.
Close Scope Q_scope.
Open Scope list_scope.
Open Scope bool_scope.

(** ** JavaScript values and helpers used by the embedded code *)

Module JS.

Definition nl : string := String (ascii_of_nat 10) EmptyString.

(** The values that reach the string templates: [undefined], an integer
    number, or a string. *)
Inductive value : Type :=
| VUndefined
| VNum (n : Z)
| VStr (s : string).

(** Decimal rendering of an integer number, as template interpolation
    prints it. *)
Definition decimal (n : Z) : string := NilZero.string_of_int (Z.to_int n).

(** [`${v}`] *)
Definition toString (v : value) : string :=
  match v with
  | VUndefined => "undefined"
  | VNum n => decimal n
  | VStr s => s
  end.

(** [s.includes(sub)] *)
Fixpoint includes (s sub : string) : bool :=
  prefix sub s ||
  match s with
  | EmptyString => false
  | String _ rest => includes rest sub
  end.

(** [s.startsWith(p)] *)
Definition startsWith (s p : string) : bool := prefix p s.

(** Truthiness of a possibly-undefined string: [undefined] and [''] are
    falsy. *)
Definition truthy (o : option string) : bool :=
  match o with
  | Some s => negb (String.eqb s "")
  | None => false
  end.

(** [a || b] on possibly-undefined strings. *)
Definition or_else (a b : option string) : option string :=
  if truthy a then a else b.

(** Thrown errors: [error.message] and, for HTTP client errors, the
    optional [error.response.data.error.message]. *)
Record Error : Type := mkError {
  message : string;
  response_message : option string
}.

Definition TypeError (msg : string) : Error := mkError msg None.

(** Outcome of an operation that may throw (or of a promise that may
    reject). *)
Inductive Exc (A : Type) : Type :=
| Return (a : A)
| Throw (e : Error).
Arguments Return {A} a.
Arguments Throw {A} e.

(** [arr.slice(-k)]: the last [k] elements, the whole array when it is
    shorter. *)
Definition slice_last {A : Type} (k : nat) (l : list A) : list A :=
  skipn (List.length l - k) l.

End JS.
Import JS.

(** ** services/aiService.js *)

Module AIService.

(** *** Data exchanged with the providers *)

Record Options : Type := mkOptions {
  temperature : option Q;
  maxTokens : option Z;
  topP : option Q;
  topK : option Z
}.

Definition noOptions : Options := mkOptions None None None None.

(** [x || d] for an optional number: [undefined] and [0] are falsy. *)
Definition defaultQ (x : option Q) (d : Q) : Q :=
  match x with
  | Some q => if Qeq_bool q 0 then d else q
  | None => d
  end.

Definition defaultZ (x : option Z) (d : Z) : Z :=
  match x with
  | Some z => if Z.eqb z 0 then d else z
  | None => d
  end.

Record GroqClient : Type := mkGroq { groqApiKey : string }.

Record GroqRequest : Type := mkGroqRequest {
  gr_content : string;
  gr_model : string;
  gr_temperature : Q;
  gr_max_tokens : Z;
  gr_top_p : Q;
  gr_stream : bool
}.

Record Message : Type := mkMessage { msg_content : option string }.

Record Choice : Type := mkChoice {
  choice_message : option Message;
  choice_text : option string
}.

Definition Usage : Type := Z.

Record ChatCompletion : Type := mkChatCompletion {
  choices : option (list Choice);
  cc_usage : option Usage
}.

Record GeminiRequest : Type := mkGeminiRequest {
  gm_text : string;
  gm_temperature : Q;
  gm_maxOutputTokens : Z;
  gm_topP : Q;
  gm_topK : Z
}.

Record Part : Type := mkPart { part_text : option string }.
Record CandContent : Type := mkCandContent { parts : option (list Part) }.
Record Candidate : Type := mkCandidate { cand_content : option CandContent }.

Record GeminiData : Type := mkGeminiData {
  candidates : option (list Candidate);
  usageMetadata : option Usage
}.

(** *** Synthesized content *)

Record Resource : Type := mkResource {
  res_type : string;
  res_title : string
}.

Record DayPlan : Type := mkDayPlan {
  day : Z;
  title : string;
  objectives : list string;
  overview : string;
  keyPoints : list string;
  examples : list string;
  exercises : list string;
  resources : list Resource;
  totalTime : Z
}.

Record Question : Type := mkQuestion {
  question : string;
  options : list string;
  correct : Z;
  explanation : string
}.

(** The [content] field of a result: provider text (possibly
    [undefined]), or synthesized text, plan or quiz. *)
Inductive Content : Type :=
| CUndefined
| CText (s : string)
| CPlan (plan : list DayPlan)
| CQuiz (questions : list Question).

Record Result : Type := mkResult {
  success : bool;
  content : Content;
  error : option string;
  usage : option Usage;
  fallback : bool
}.

Definition failure (msg : string) : Result :=
  mkResult false CUndefined (Some msg) None false.

(** *** The service object and its surroundings *)

Record GeminiConfig : Type := mkGeminiConfig {
  baseURL : string;
  apiKey : option string;
  model : string
}.

(** [this]: the fields set by the constructor. *)
Record Service : Type := mkService {
  groq : option GroqClient;
  geminiConfig : option GeminiConfig;
  initialized : bool
}.

Definition constructor : Service := mkService None None false.

(** Everything outside the service: the process environment, the Groq
    SDK and the HTTP client. *)
Record World : Type := mkWorld {
  GROQ_API_KEY : option string;
  GEMINI_API_KEY : option string;
  groq_new : string -> Exc GroqClient;
  groq_create : GroqClient -> GroqRequest -> Exc ChatCompletion;
  axios_post : string -> GeminiRequest -> Exc GeminiData
}.

Inductive Provider : Type := Groq | Gemini.

Inductive Level : Type := Info | Warn | Err.

(** What a run leaves behind, in order: log lines, provider methods
    entered, and the synthesis of the local template. *)
Inductive Event : Type :=
| Log (l : Level) (msg : string)
| Attempt (p : Provider)
| Template.

(** Methods run on [this] and emit events. *)
Definition M (A : Type) : Type := Service -> A * Service * list Event.

Definition ret {A : Type} (a : A) : M A := fun s => (a, s, []).

Definition bind {A B : Type} (m : M A) (k : A -> M B) : M B :=
  fun s =>
    let '(a, s1, t1) := m s in
    let '(b, s2, t2) := k a s1 in
    (b, s2, t1 ++ t2).

Definition get : M Service := fun s => (s, s, []).
Definition put (s : Service) : M unit := fun _ => (tt, s, []).
Definition emit (e : Event) : M unit := fun s => (tt, s, [e]).
Definition logger (l : Level) (msg : string) : M unit := emit (Log l msg).

Declare Scope svc_scope.
Delimit Scope svc_scope with svc.
Notation "x <- m ;; k" := (bind m (fun x => k))
  (at level 61, m at next level, right associativity) : svc_scope.
Notation "m ;;; k" := (bind m (fun _ => k))
  (at level 61, right associativity) : svc_scope.

Definition result_of {A : Type} (r : A * Service * list Event) : A := fst (fst r).
Definition state_of {A : Type} (r : A * Service * list Event) : Service := snd (fst r).
Definition trace_of {A : Type} (r : A * Service * list Event) : list Event := snd r.

(** The provider methods entered and the template synthesis, without the
    log lines. *)
Fixpoint steps (t : list Event) : list Event :=
  match t with
  | [] => []
  | Log _ _ :: rest => steps rest
  | e :: rest => e :: steps rest
  end.

(** *** Pure helpers: the fallback generators *)

(** [day <= durationInDays / 3 ? 'Basic' : day <= (durationInDays * 2) / 3 ?
    'Intermediate' : 'Advanced'], with the quotients taken in the rationals;
    on integers below 2^52 the doubles of the runtime compare the same way. *)
Definition difficulty (durationInDays d : Z) : string :=
  if Qle_bool (inject_Z d) (inject_Z durationInDays / 3)%Q then "Basic"
  else if Qle_bool (inject_Z d) (inject_Z (durationInDays * 2) / 3)%Q then "Intermediate"
  else "Advanced".

(** The object literal pushed for one day. *)
Definition dayEntry (subject level learningStyle : value) (diff : string) (d : Z)
  : DayPlan :=
  let D := decimal d in
  let S := toString subject in
  {| day := d;
     title := "Day " ++ D ++ ": " ++ S ++ " - " ++ diff ++ " Concepts";
     objectives :=
       [ "Master fundamentals for Day " ++ D;
         "Apply " ++ diff ++ " " ++ S ++ " concepts";
         "Do practical exercises";
         "Prepare for next stage" ]%string;
     overview := "Day " ++ D ++ " focuses on " ++ diff ++ " " ++ S
                 ++ " concepts at " ++ toString level ++ " level with "
                 ++ toString learningStyle ++ " learning approach.";
     keyPoints := [ "Concept " ++ D ++ "-1"; "Concept " ++ D ++ "-2" ]%string;
     examples := [ "Example " ++ D ++ "-1"; "Example " ++ D ++ "-2" ]%string;
     exercises := [ "Exercise " ++ D ++ "-1"; "Exercise " ++ D ++ "-2" ]%string;
     resources := [ mkResource "article" (S ++ " Guide Day " ++ D) ];
     totalTime := 120 |}%string.

(** [for (let day = 1; day <= durationInDays; day++) plan.push(...)], from
    the current [day] and the array built so far. *)
Equations? planLoop (subject level learningStyle : value) (durationInDays d : Z)
  (plan : list DayPlan) : list DayPlan
  by wf (Z.to_nat (durationInDays + 1 - d)) lt :=
  planLoop subject level learningStyle durationInDays d plan
    with Z_le_gt_dec d durationInDays => {
    | left _ =>
        planLoop subject level learningStyle durationInDays (d + 1)
          (plan ++ [dayEntry subject level learningStyle
                      (difficulty durationInDays d) d]);
    | right _ => plan }.
Proof. lia. Qed.

(** [durationInDays] is [None] when the argument is omitted: the loop
    condition [1 <= undefined] is false and the plan stays empty. *)
Definition generateFallbackStudyPlan (subject level : value)
  (durationInDays : option Z) (learningStyle : value) : list DayPlan :=
  match durationInDays with
  | Some n => planLoop subject level learningStyle n 1 []
  | None => []
  end.

Definition quizEntry (topic difficulty : value) (i : Z) : Question :=
  let T := toString topic in
  let Df := toString difficulty in
  {| question := "What is a key " ++ T ++ " concept at " ++ Df ++ " level?";
     options :=
       [ "Correct " ++ T ++ " concept " ++ decimal i;
         "Wrong option A"; "Wrong option B"; "Wrong option C" ]%string;
     correct := 0;
     explanation := "This represents a fundamental " ++ T ++ " " ++ Df
                    ++ " concept." |}%string.

Equations? quizLoop (topic difficulty : value) (count i : Z)
  (questions : list Question) : list Question
  by wf (Z.to_nat (count + 1 - i)) lt :=
  quizLoop topic difficulty count i questions with Z_le_gt_dec i count => {
    | left _ =>
        quizLoop topic difficulty count (i + 1)
          (questions ++ [quizEntry topic difficulty i]);
    | right _ => questions }.
Proof. lia. Qed.

Definition generateFallbackQuiz (topic difficulty : value) (count : option Z)
  : list Question :=
  match count with
  | Some n => quizLoop topic difficulty n 1 []
  | None => []
  end.

Definition generateFallbackExplanation (concept level : value) : string :=
  let C := toString concept in
  let L := toString level in
  ("# Understanding " ++ C ++ " (" ++ L ++ ")" ++ nl
   ++ nl
   ++ "## Overview" ++ nl
   ++ C ++ " is an important idea in its domain. At " ++ L
   ++ " level, you need both theory and applications." ++ nl
   ++ nl
   ++ "## Key Principles" ++ nl
   ++ "- Definition and meaning" ++ nl
   ++ "- Applications" ++ nl
   ++ "- Importance" ++ nl
   ++ "- Practical use" ++ nl
   ++ nl
   ++ "## Real-World Examples" ++ nl
   ++ "- Simple applications" ++ nl
   ++ "- Advanced use" ++ nl
   ++ "- Industry cases" ++ nl
   ++ "- Problem solving" ++ nl
   ++ nl
   ++ "## Misconceptions" ++ nl
   ++ "- It's not only theory" ++ nl
   ++ "- Practical relevance matters" ++ nl
   ++ "- Builds on basics" ++ nl
   ++ "- Requires practice" ++ nl
   ++ nl
   ++ "## Next Steps" ++ nl
   ++ "- Do exercises" ++ nl
   ++ "- Explore related ideas" ++ nl
   ++ "- Apply in projects" ++ nl
   ++ "- Review regularly")%string.

Definition genericFallback : string :=
  ("Based on your request, here's a structured fallback response:" ++ nl
   ++ "        " ++ nl
   ++ "- Focus on understanding fundamental concepts" ++ nl
   ++ "- Apply learning practically" ++ nl
   ++ "- Practice and review consistently" ++ nl
   ++ "- Break down complex topics into smaller parts")%string.

(** The generators are called with the prompt as their only argument;
    the remaining parameters are [undefined]. *)
Definition generateStructuredFallback (prompt : string) : Content :=
  if includes prompt "study plan" then
    CPlan (generateFallbackStudyPlan (VStr prompt) VUndefined None VUndefined)
  else if includes prompt "quiz" then
    CQuiz (generateFallbackQuiz (VStr prompt) VUndefined None)
  else if includes prompt "explain" || includes prompt "concept" then
    CText (generateFallbackExplanation (VStr prompt) VUndefined)
  else CText genericFallback.


(** *** Methods of the service *)

Section Methods.

Variable w : World.

(** Builtins of the runtime that the helpers rely on. *)
Variable parseInt : string -> option Z.
Variable toLowerCase : string -> string.

Local Open Scope string_scope.
Local Open Scope svc_scope.

Definition show (o : option string) : string :=
  match o with
  | Some s => s
  | None => "undefined"
  end.

Definition validGroqKey (k : string) : bool :=
  negb (k =? "")%string && negb (k =? "undefined")%string
  && negb (k =? "placeholder-key")%string && startsWith k "gsk_".

Definition validGeminiKey (k : option string) : bool :=
  match k with
  | Some s =>
      negb (s =? "")%string && negb (s =? "placeholder-key")%string
      && negb (s =? "undefined")%string && startsWith s "AIza"
  | None => false
  end.

Definition setGroq (c : option GroqClient) : M unit :=
  this <- get ;;
  put {| groq := c; geminiConfig := geminiConfig this;
         initialized := initialized this |}.

Definition initializeServices : M unit :=
  this <- get ;;
  if initialized this then ret tt
  else
    match GROQ_API_KEY w with
    | Some groqKey =>
        if validGroqKey groqKey then
          match groq_new w groqKey with
          | Return c =>
              setGroq (Some c) ;;;
              logger Info "Groq SDK initialized successfully"
          | Throw e =>
              logger Err ("Failed to initialize Groq SDK: " ++ message e) ;;;
              setGroq None
          end
        else logger Warn "Groq API key not found or invalid"
    | None => logger Warn "Groq API key not found or invalid"
    end ;;;
    this <- get ;;
    put {| groq := groq this;
           geminiConfig :=
             Some {| baseURL := "https://generativelanguage.googleapis.com/v1beta/models/";
                     apiKey := GEMINI_API_KEY w;
                     model := "gemini-2.0-flash" |};
           initialized := true |} ;;;
    logger Info
      ("AI Service initialized: groq "
       ++ (match groq this with Some _ => "configured" | None => "missing" end)
       ++ ", gemini "
       ++ (match GEMINI_API_KEY w with
           | Some k => if (negb (k =? "") && startsWith k "AIza")%string
                       then "configured" else "missing"
           | None => "missing"
           end)).

(** [choices?.[0]] *)
Definition firstChoice (cc : ChatCompletion) : option Choice :=
  match choices cc with
  | Some (c :: _) => Some c
  | _ => None
  end.

(** [choices?.[0]?.message?.content] *)
Definition messageContent (cc : ChatCompletion) : option string :=
  match firstChoice cc with
  | Some c => match choice_message c with
              | Some m => msg_content m
              | None => None
              end
  | None => None
  end.

(** [choices?.[0]?.text] *)
Definition choiceText (cc : ChatCompletion) : option string :=
  match firstChoice cc with
  | Some c => choice_text c
  | None => None
  end.

(** [choices?.[0]?.message?.content || choices?.[0]?.text || ''] *)
Definition groqContent (cc : ChatCompletion) : string :=
  match or_else (or_else (messageContent cc) (choiceText cc)) (Some "") with
  | Some s => s
  | None => ""
  end.

Definition groqRequest (prompt : string) (options : Options) : GroqRequest :=
  {| gr_content := prompt;
     gr_model := "llama-3.1-8b-instant";
     gr_temperature := defaultQ (temperature options) (7 # 10);
     gr_max_tokens := defaultZ (maxTokens options) 2000;
     gr_top_p := defaultQ (topP options) (9 # 10);
     gr_stream := false |}.

Definition generateWithGroq (prompt : string) (options : Options) : M Result :=
  emit (Attempt Groq) ;;;
  initializeServices ;;;
  this <- get ;;
  match groq this with
  | None => ret (failure "Groq SDK not initialized")
  | Some client =>
      match groq_create w client (groqRequest prompt options) with
      | Return chatCompletion =>
          ret {| success := true;
                 content := CText (groqContent chatCompletion);
                 error := None;
                 usage := cc_usage chatCompletion;
                 fallback := false |}
      | Throw e =>
          logger Err ("Groq SDK error: " ++ message e) ;;;
          ret (failure (message e))
      end
  end.

(** [error.response?.data?.error?.message || error.message] *)
Definition geminiErrorMessage (e : Error) : string :=
  show (or_else (response_message e) (Some (message e))).

(** The [try] block of [generateWithGemini] once the key is accepted.  The
    log line for a response without candidates is kept without the JSON
    rendering of the response. *)
Definition geminiTry (cfg : GeminiConfig) (prompt : string) (options : Options)
  : M (Exc Result) :=
  let model := "gemini-1.5-flash" in
  let url := (baseURL cfg ++ model ++ ":generateContent?key=" ++ show (apiKey cfg))%string in
  logger Info ("Calling Gemini API with model: " ++ model) ;;;
  match axios_post w url
          {| gm_text := prompt;
             gm_temperature := defaultQ (temperature options) (7 # 10);
             gm_maxOutputTokens := defaultZ (maxTokens options) 2000;
             gm_topP := defaultQ (topP options) (8 # 10);
             gm_topK := defaultZ (topK options) 40 |} with
  | Throw e => ret (Throw e)
  | Return data =>
      match candidates data with
      | Some (c :: _) =>
          logger Info "Gemini API response successful" ;;;
          match cand_content c with
          | None => ret (Throw (TypeError "Cannot read properties of undefined (reading 'parts')"))
          | Some cc =>
              match parts cc with
              | None => ret (Throw (TypeError "Cannot read properties of undefined (reading '0')"))
              | Some [] => ret (Throw (TypeError "Cannot read properties of undefined (reading 'text')"))
              | Some (p :: _) =>
                  ret (Return {| success := true;
                                 content := match part_text p with
                                            | Some s => CText s
                                            | None => CUndefined
                                            end;
                                 error := None;
                                 usage := usageMetadata data;
                                 fallback := false |})
              end
          end
      | _ =>
          logger Err "No candidates returned from Gemini API" ;;;
          ret (Throw (mkError "No candidates returned from Gemini API" None))
      end
  end.

Definition generateWithGemini (prompt : string) (options : Options) : M Result :=
  emit (Attempt Gemini) ;;;
  initializeServices ;;;
  this <- get ;;
  let key := match geminiConfig this with
             | Some cfg => apiKey cfg
             | None => None
             end in
  match geminiConfig this with
  | Some cfg =>
      if validGeminiKey key then
        r <- geminiTry cfg prompt options ;;
        match r with
        | Return res => ret res
        | Throw e =>
            logger Err ("Gemini API error: " ++ geminiErrorMessage e) ;;;
            ret (failure (geminiErrorMessage e))
        end
      else
        logger Err ("Gemini API key not configured or invalid: " ++ show key) ;;;
        ret (failure "Gemini API key not configured or invalid")
  | None =>
      logger Err ("Gemini API key not configured or invalid: " ++ show key) ;;;
      ret (failure "Gemini API key not configured or invalid")
  end.

(** One guarded provider block of [generate]: [Some result] stands for
    the early [return result]. *)
Definition tryProvider (enabled : bool) (name : string)
  (call : M Result) : M (option Result) :=
  if enabled then
    logger Info ("Attempting " ++ name ++ " generation...") ;;;
    result <- call ;;
    if success result then
      logger Info (name ++ " generation successful") ;;;
      ret (Some result)
    else
      logger Warn (name ++ " generation failed: " ++ show (error result)) ;;;
      ret None
  else ret None.

(** [async generate(prompt, provider = 'groq', options = {})] *)
Definition generate (prompt : string) (provider : option string)
  (options : Options) : M Result :=
  let provider := match provider with Some p => p | None => "groq" end in
  initializeServices ;;;
  viaGroq <- tryProvider ((provider =? "groq") || (provider =? "auto"))%string
               "Groq" (generateWithGroq prompt options) ;;
  match viaGroq with
  | Some result => ret result
  | None =>
      viaGemini <- tryProvider ((provider =? "gemini") || (provider =? "auto"))%string
                     "Gemini" (generateWithGemini prompt options) ;;
      match viaGemini with
      | Some result => ret result
      | None =>
          logger Warn "All AI providers failed, using structured fallback" ;;;
          emit Template ;;;
          ret {| success := true;
                 content := generateStructuredFallback prompt;
                 error := None;
                 usage := None;
                 fallback := true |}
      end
  end.

(** *** Callers of [generate] *)

Definition dq : string := String (ascii_of_nat 34) EmptyString.

(** [parseInt(s) || d] *)
Definition parseIntOr (s : string) (d : Z) : Z :=
  match parseInt s with
  | Some n => if Z.eqb n 0 then d else n
  | None => d
  end.

Definition parseDuration (duration : option string) : Z :=
  match duration with
  | Some dur =>
      if truthy duration then
        let str := toLowerCase dur in
        if includes str "month" then (parseIntOr str 1 * 30)%Z
        else if includes str "week" then (parseIntOr str 1 * 7)%Z
        else if includes str "day" then parseIntOr str 30
        else parseIntOr dur 30
      else 30%Z
  | None => 30%Z
  end.

Definition studyPlanPrompt (durationInDays : Z) (subject level learningStyle : value)
  : string :=
  "Create a comprehensive " ++ decimal durationInDays ++ "-day study plan for " ++ toString subject ++ " at " ++ toString level ++ " level." ++ nl
  ++ "Learning style: " ++ toString learningStyle ++ nl
  ++ nl
  ++ "Return ONLY a valid JSON array with this structure:" ++ nl
  ++ "[" ++ nl
  ++ "  {" ++ nl
  ++ "    " ++ dq ++ "day" ++ dq ++ ": 1," ++ nl
  ++ "    " ++ dq ++ "title" ++ dq ++ ": " ++ dq ++ "Introduction to [Specific Topic]" ++ dq ++ "," ++ nl
  ++ "    " ++ dq ++ "objectives" ++ dq ++ ": [" ++ dq ++ "Learn basics" ++ dq ++ ", " ++ dq ++ "Understand fundamentals" ++ dq ++ ", " ++ dq ++ "Apply knowledge" ++ dq ++ "]," ++ nl
  ++ "    " ++ dq ++ "content" ++ dq ++ ": {" ++ nl
  ++ "      " ++ dq ++ "overview" ++ dq ++ ": " ++ dq ++ "Detailed overview (200+ words)" ++ dq ++ "," ++ nl
  ++ "      " ++ dq ++ "keyPoints" ++ dq ++ ": [" ++ dq ++ "Concept 1" ++ dq ++ ", " ++ dq ++ "Concept 2" ++ dq ++ "]," ++ nl
  ++ "      " ++ dq ++ "examples" ++ dq ++ ": [" ++ dq ++ "Example 1" ++ dq ++ ", " ++ dq ++ "Example 2" ++ dq ++ "]," ++ nl
  ++ "      " ++ dq ++ "exercises" ++ dq ++ ": [" ++ dq ++ "Exercise 1" ++ dq ++ ", " ++ dq ++ "Exercise 2" ++ dq ++ "]" ++ nl
  ++ "    }," ++ nl
  ++ "    " ++ dq ++ "totalTime" ++ dq ++ ": 90" ++ nl
  ++ "  }" ++ nl
  ++ "]".

Definition generateDetailedStudyPlan (subject level : value)
  (duration : option string) (learningStyle : value) : M Result :=
  let durationInDays := parseDuration duration in
  let prompt := studyPlanPrompt durationInDays subject level learningStyle in
  result <- generate prompt (Some "auto")
              (mkOptions None (Some 4000%Z) None None) ;;
  if success result && negb (fallback result) then ret result
  else
    ret {| success := true;
           content := CPlan (generateFallbackStudyPlan subject level
                               (Some durationInDays) learningStyle);
           error := None; usage := None; fallback := false |}.

Definition quizPrompt (count : Z) (difficulty topic : value) : string :=
  "Create " ++ decimal count ++ " " ++ toString difficulty ++ " multiple choice quiz questions about " ++ toString topic ++ "." ++ nl
  ++ "Return ONLY a valid JSON array with this format:" ++ nl
  ++ "[" ++ nl
  ++ "  {" ++ nl
  ++ "    " ++ dq ++ "question" ++ dq ++ ": " ++ dq ++ "What is ...?" ++ dq ++ "," ++ nl
  ++ "    " ++ dq ++ "options" ++ dq ++ ": [" ++ dq ++ "A" ++ dq ++ ", " ++ dq ++ "B" ++ dq ++ ", " ++ dq ++ "C" ++ dq ++ ", " ++ dq ++ "D" ++ dq ++ "]," ++ nl
  ++ "    " ++ dq ++ "correct" ++ dq ++ ": 0," ++ nl
  ++ "    " ++ dq ++ "explanation" ++ dq ++ ": " ++ dq ++ "Why correct" ++ dq ++ nl
  ++ "  }" ++ nl
  ++ "]".

(** [async generateQuizQuestions(topic, difficulty, count = 10)] *)
Definition generateQuizQuestions (topic difficulty : value) (count : option Z)
  : M Result :=
  let count := match count with Some c => c | None => 10%Z end in
  initializeServices ;;;
  let prompt := quizPrompt count difficulty topic in
  logger Info ("Generating " ++ decimal count ++ " " ++ toString difficulty
               ++ " quiz questions for " ++ toString topic) ;;;
  result <- generate prompt (Some "gemini")
              (mkOptions None (Some 2000%Z) None None) ;;
  if success result && negb (fallback result) then ret result
  else
    logger Info "Using fallback quiz generation" ;;;
    ret {| success := true;
           content := CQuiz (generateFallbackQuiz topic difficulty (Some count));
           error := None; usage := None; fallback := false |}.

Definition explainPrompt (concept level : value) : string :=
  "Explain " ++ dq ++ toString concept ++ dq ++ " at " ++ toString level ++ " level:" ++ nl
  ++ "1. Definition" ++ nl
  ++ "2. Key principles" ++ nl
  ++ "3. Real-world examples" ++ nl
  ++ "4. Misconceptions" ++ nl
  ++ "5. Related concepts".

(** [async explainConcept(concept, level = 'intermediate')] *)
Definition explainConcept (concept : value) (level : option value) : M Result :=
  let level := match level with Some l => l | None => VStr "intermediate" end in
  initializeServices ;;;
  let prompt := explainPrompt concept level in
  logger Info ("Explaining concept: " ++ toString concept ++ " at " ++ toString level) ;;;
  result <- generate prompt (Some "auto")
              (mkOptions None (Some 1500%Z) None None) ;;
  if success result then ret result
  else
    logger Info "Using fallback explanation" ;;;
    ret {| success := true;
           content := CText (generateFallbackExplanation concept level);
           error := None; usage := None; fallback := false |}.

Definition dailyPrompt (topic day level : value) (previousTopics : list string)
  : string :=
  "Generate content for Day " ++ toString day ++ ": " ++ toString topic ++ " at " ++ toString level ++ "." ++ nl
  ++ "Previous topics: " ++ String.concat ", " previousTopics ++ nl
  ++ nl
  ++ "Return JSON:" ++ nl
  ++ "{" ++ nl
  ++ "  " ++ dq ++ "overview" ++ dq ++ ": " ++ dq ++ "..." ++ dq ++ "," ++ nl
  ++ "  " ++ dq ++ "keyPoints" ++ dq ++ ": [" ++ dq ++ "..." ++ dq ++ "]," ++ nl
  ++ "  " ++ dq ++ "examples" ++ dq ++ ": [" ++ dq ++ "..." ++ dq ++ "]," ++ nl
  ++ "  " ++ dq ++ "exercises" ++ dq ++ ": [" ++ dq ++ "..." ++ dq ++ "]," ++ nl
  ++ "  " ++ dq ++ "resources" ++ dq ++ ": [{" ++ dq ++ "type" ++ dq ++ ": " ++ dq ++ "video" ++ dq ++ ", " ++ dq ++ "title" ++ dq ++ ": " ++ dq ++ "..." ++ dq ++ "}]" ++ nl
  ++ "}".

Definition generateDailyContent (topic day level : value)
  (previousTopics : list string) : M Result :=
  initializeServices ;;;
  let prompt := dailyPrompt topic day level previousTopics in
  logger Info ("Generating daily content for Day " ++ toString day ++ ": "
               ++ toString topic) ;;;
  generate prompt (Some "auto") (mkOptions None (Some 3000%Z) None None).

End Methods.

(** *** Vocabulary for stating the behaviour of [generate] *)

Definition providerOf (provider : option string) : string :=
  match provider with Some p => p | None => "groq"%string end.

Definition usesGroq (p : string) : bool := ((p =? "groq") || (p =? "auto"))%string.
Definition usesGemini (p : string) : bool := ((p =? "gemini") || (p =? "auto"))%string.

Definition templateResult (prompt : string) : Result :=
  {| success := true; content := generateStructuredFallback prompt;
     error := None; usage := None; fallback := true |}.

Definition only (b : bool) (p : Provider) : list Event :=
  if b then [Attempt p] else [].

(** [d], [d + 1], ... ([k] consecutive days). *)
Fixpoint daysFrom (d : Z) (k : nat) : list Z :=
  match k with
  | O => []
  | S k' => d :: daysFrom (d + 1) k'
  end.

(** The methods that [class AIService] defines. *)
Definition methodNames : list string :=
  [ "constructor"; "initializeServices"; "generateWithGroq"; "generateWithGemini";
    "generate"; "generateStructuredFallback"; "generateDetailedStudyPlan";
    "generateQuizQuestions"; "explainConcept"; "generateDailyContent";
    "parseDuration"; "generateFallbackStudyPlan"; "generateFallbackQuiz";
    "generateFallbackExplanation" ]%string.

Definition defines (name : string) : bool :=
  existsb (String.eqb name) methodNames.

(** *** Concrete surroundings used in examples *)

Definition refused : Error := mkError "connect ECONNREFUSED" None.

(** No API key is configured. *)
Definition offline : World :=
  {| GROQ_API_KEY := None;
     GEMINI_API_KEY := None;
     groq_new := fun k => Return (mkGroq k);
     groq_create := fun _ _ => Throw refused;
     axios_post := fun _ _ => Throw refused |}.

(** Both keys are configured and both providers are unreachable. *)
Definition unreachable : World :=
  {| GROQ_API_KEY := Some "gsk_test"%string;
     GEMINI_API_KEY := Some "AIzaTest"%string;
     groq_new := fun k => Return (mkGroq k);
     groq_create := fun _ _ => Throw refused;
     axios_post := fun _ _ => Throw refused |}.

(** Groq answers with a completion that has no [choices]; Gemini would
    answer properly. *)
Definition shapeless : World :=
  {| GROQ_API_KEY := Some "gsk_test"%string;
     GEMINI_API_KEY := Some "AIzaTest"%string;
     groq_new := fun k => Return (mkGroq k);
     groq_create := fun _ _ => Return (mkChatCompletion None None);
     axios_post := fun _ _ =>
       Return (mkGeminiData
                 (Some [mkCandidate
                          (Some (mkCandContent (Some [mkPart (Some "from Gemini"%string)])))])
                 None) |}.

(** An integer parser used in examples: the value of the leading decimal
    digits, [None] (not a number) when the string starts with none. *)
Fixpoint digitsValue (s : string) (acc : option Z) : option Z :=
  match s with
  | EmptyString => acc
  | String c rest =>
      let n := nat_of_ascii c in
      if ((48 <=? n) && (n <=? 57))%nat then
        digitsValue rest
          (Some (10 * (match acc with Some a => a | None => 0 end)
                 + Z.of_nat (n - 48))%Z)
      else acc
  end.

Definition leadingInt (s : string) : option Z := digitsValue s None.

(** Both keys are configured; Groq is unreachable and Gemini answers with
    the given response body. *)
Definition geminiAnswering (data : GeminiData) : World :=
  {| GROQ_API_KEY := Some "gsk_test"%string;
     GEMINI_API_KEY := Some "AIzaTest"%string;
     groq_new := fun k => Return (mkGroq k);
     groq_create := fun _ _ => Throw refused;
     axios_post := fun _ _ => Return data |}.

(** A Gemini response body from which [candidates[0].content.parts[0]] can
    be read. *)
Definition wellShaped (data : GeminiData) : bool :=
  match candidates data with
  | Some (c :: _) =>
      match cand_content c with
      | Some cc => match parts cc with
                   | Some (_ :: _) => true
                   | _ => false
                   end
      | None => false
      end
  | _ => false
  end.

End AIService.

(** ** models/StudyGroup.js *)

Module StudyGroup.

Definition ObjectId : Type := string.

(** A [Date], as milliseconds since the epoch. *)
Definition Date : Type := Z.

Record Member : Type := mkMember {
  m_user : ObjectId;
  m_role : string;
  m_joinedAt : option Date;
  m_isActive : bool
}.

Record Settings : Type := mkSettings {
  maxMembers : Z;
  isPrivate : bool;
  requireApproval : bool;
  allowMemberInvites : bool
}.

Inductive SessionStatus : Type := Scheduled | Live | Completed | Cancelled.

Definition isScheduled (st : SessionStatus) : bool :=
  match st with Scheduled => true | _ => false end.

Record Attendee : Type := mkAttendee {
  a_user : ObjectId;
  a_joinedAt : option Date;
  a_leftAt : option Date
}.

Record Session : Type := mkSession {
  s_id : ObjectId;
  s_title : option string;
  s_description : option string;
  s_scheduledAt : option Date;
  s_duration : Z;
  s_meetingLink : string;
  s_joinCode : string;
  s_status : SessionStatus;
  s_liveStartedAt : option Date;
  s_endedAt : option Date;
  s_attendees : list Attendee;
  s_createdBy : ObjectId
}.

(** [c_content] is [None] when the caller passed [undefined]. *)
Record ChatMessage : Type := mkChatMessage {
  c_user : ObjectId;
  c_content : option string;
  c_type : string;
  c_createdAt : Date
}.

Record Stats : Type := mkStats {
  totalMembers : Z;
  activeMembers : Z;
  totalDiscussions : Z;
  totalResources : Z
}.

Record Group : Type := mkGroup {
  g_id : ObjectId;
  g_name : string;
  g_description : option string;
  g_subject : string;
  g_tags : list string;
  g_creator : ObjectId;
  g_members : list Member;
  g_settings : Settings;
  g_nextSession : option Date;
  g_sessions : list Session;
  g_messages : list ChatMessage;
  g_discussions : nat;
  g_resources : nat;
  g_stats : Stats
}.

(** Field updates of the document in memory. *)
Definition withMembers (g : Group) (ms : list Member) : Group :=
  mkGroup (g_id g) (g_name g) (g_description g) (g_subject g) (g_tags g)
    (g_creator g) ms (g_settings g) (g_nextSession g) (g_sessions g)
    (g_messages g) (g_discussions g) (g_resources g) (g_stats g).

Definition withStats (g : Group) (st : Stats) : Group :=
  mkGroup (g_id g) (g_name g) (g_description g) (g_subject g) (g_tags g)
    (g_creator g) (g_members g) (g_settings g) (g_nextSession g) (g_sessions g)
    (g_messages g) (g_discussions g) (g_resources g) st.

Definition withSessions (g : Group) (ss : list Session) : Group :=
  mkGroup (g_id g) (g_name g) (g_description g) (g_subject g) (g_tags g)
    (g_creator g) (g_members g) (g_settings g) (g_nextSession g) ss
    (g_messages g) (g_discussions g) (g_resources g) (g_stats g).

Definition withNextSession (g : Group) (d : option Date) : Group :=
  mkGroup (g_id g) (g_name g) (g_description g) (g_subject g) (g_tags g)
    (g_creator g) (g_members g) (g_settings g) d (g_sessions g)
    (g_messages g) (g_discussions g) (g_resources g) (g_stats g).

Definition withMessages (g : Group) (ms : list ChatMessage) : Group :=
  mkGroup (g_id g) (g_name g) (g_description g) (g_subject g) (g_tags g)
    (g_creator g) (g_members g) (g_settings g) (g_nextSession g) (g_sessions g)
    ms (g_discussions g) (g_resources g) (g_stats g).

Definition withAttendees (x : Session) (atts : list Attendee) : Session :=
  mkSession (s_id x) (s_title x) (s_description x) (s_scheduledAt x)
    (s_duration x) (s_meetingLink x) (s_joinCode x) (s_status x)
    (s_liveStartedAt x) (s_endedAt x) atts (s_createdBy x).

Definition withStatus (x : Session) (st : SessionStatus) (liveStartedAt endedAt : option Date)
  : Session :=
  mkSession (s_id x) (s_title x) (s_description x) (s_scheduledAt x)
    (s_duration x) (s_meetingLink x) (s_joinCode x) st
    liveStartedAt endedAt (s_attendees x) (s_createdBy x).

(** [this.sessions.id(sessionId)]: the first sub-document with this id. *)
Fixpoint sessionById (sessionId : ObjectId) (ss : list Session) : option Session :=
  match ss with
  | [] => None
  | x :: rest =>
      if (s_id x =? sessionId)%string then Some x else sessionById sessionId rest
  end.

(** Writing through the reference returned by [sessions.id]: the first
    sub-document with this id is the one that changes. *)
Fixpoint writeSession (sessionId : ObjectId) (x' : Session) (ss : list Session)
  : list Session :=
  match ss with
  | [] => []
  | x :: rest =>
      if (s_id x =? sessionId)%string then x' :: rest
      else x :: writeSession sessionId x' rest
  end.

(** [a.user.toString() === userId.toString()] *)
Definition sameUser (userId : ObjectId) (u : ObjectId) : bool := (u =? userId)%string.

(** [d1 <= now] on a possibly missing [Date]. *)
Definition notAfter (d : option Date) (now : Date) : bool :=
  match d with
  | Some t => (t <=? now)%Z
  | None => false
  end.

Definition after (d : option Date) (now : Date) : bool :=
  match d with
  | Some t => (now <? t)%Z
  | None => false
  end.

Definition orDate (d : option Date) (now : Date) : option Date :=
  match d with
  | Some t => Some t
  | None => Some now
  end.

Section Methods.

(** [this.save()]: the outcome of persisting the document. *)
Variable save : Group -> Exc unit.

(** A method mutates the document in memory and returns the outcome of the
    call (a synchronous throw, or the result of [save]). *)
Definition Method : Type := Group -> Exc unit * Group.

Definition updateStats (g : Group) : Group :=
  withStats g
    {| totalMembers := Z.of_nat (List.length (g_members g));
       activeMembers := Z.of_nat (List.length (filter m_isActive (g_members g)));
       totalDiscussions := Z.of_nat (g_discussions g);
       totalResources := Z.of_nat (g_resources g) |}.

Definition isMember (g : Group) (userId : ObjectId) : bool :=
  existsb (fun m => sameUser userId (m_user m) && m_isActive m) (g_members g).

Definition getMemberRole (g : Group) (userId : ObjectId) : option string :=
  match find (fun m => sameUser userId (m_user m)) (g_members g) with
  | Some m => Some (m_role m)
  | None => None
  end.

Definition addMember (userId : ObjectId) (role : option string) (now : Date) : Method :=
  fun g =>
    let role := match role with Some r => r | None => "member"%string end in
    match find (fun m => sameUser userId (m_user m)) (g_members g) with
    | Some _ => (Throw (mkError "User is already a member of this group" None), g)
    | None =>
        if (maxMembers (g_settings g) <=? Z.of_nat (List.length (g_members g)))%Z then
          (Throw (mkError "Group has reached maximum member limit" None), g)
        else
          let g1 := withMembers g (g_members g ++ [mkMember userId role (Some now) true]) in
          let g2 := updateStats g1 in
          (save g2, g2)
    end.

Definition removeMember (userId : ObjectId) : Method :=
  fun g =>
    let g1 := withMembers g
                (filter (fun m => negb (sameUser userId (m_user m))) (g_members g)) in
    let g2 := updateStats g1 in
    (save g2, g2).

(** [generateMeetingLink], given the room id drawn from [Math.random]. *)
Definition generateMeetingLink (roomId : string) : string :=
  ("https://meet.studyai.com/room/" ++ roomId)%string.

Definition alphabet : string := "ABCDEFGHJKLMNPQRSTUVWXYZ23456789".

(** [generateJoinCode], given the six indices
    [Math.floor(Math.random() * alphabet.length)]. *)
Definition generateJoinCode (picks : list nat) : string :=
  fold_left
    (fun code i =>
       match String.get i alphabet with
       | Some c => (code ++ String c EmptyString)%string
       | None => (code ++ "undefined")%string
       end)
    (firstn 6 picks) EmptyString.

(** The earliest [scheduledAt] among the sessions that are still to come:
    the head of the filtered and sorted array. *)
Fixpoint earliestUpcoming (now : Date) (ss : list Session) : option Date :=
  match ss with
  | [] => None
  | x :: rest =>
      let later := earliestUpcoming now rest in
      if after (s_scheduledAt x) now && isScheduled (s_status x) then
        match s_scheduledAt x, later with
        | Some t, Some t' => Some (if (t' <? t)%Z then t' else t)
        | Some t, None => Some t
        | None, _ => later
        end
      else later
  end.

Record SessionData : Type := mkSessionData {
  sd_title : option string;
  sd_description : option string;
  sd_scheduledAt : option Date;
  sd_duration : option Z
}.

(** [newId] is the id the store gives the pushed sub-document. *)
Definition scheduleSession (sessionData : SessionData) (createdBy : ObjectId)
  (newId : ObjectId) (roomId : string) (picks : list nat) (now : Date) : Method :=
  fun g =>
    let session :=
      {| s_id := newId;
         s_title := sd_title sessionData;
         s_description := sd_description sessionData;
         s_scheduledAt := sd_scheduledAt sessionData;
         s_duration := match sd_duration sessionData with
                       | Some d => if (d =? 0)%Z then 60%Z else d
                       | None => 60%Z
                       end;
         s_meetingLink := generateMeetingLink roomId;
         s_joinCode := generateJoinCode picks;
         s_status := Scheduled;
         s_liveStartedAt := None;
         s_endedAt := None;
         s_attendees := [];
         s_createdBy := createdBy |} in
    let g1 := withSessions g (g_sessions g ++ [session]) in
    let g2 := match earliestUpcoming now (g_sessions g1) with
              | Some t => withNextSession g1 (Some t)
              | None => g1
              end in
    (save g2, g2).

(** [addChatMessage(userId, content, type = 'text')] *)
Definition addChatMessage (userId : ObjectId) (content : option string)
  (type : option string) (now : Date) : Method :=
  fun g =>
    let message :=
      {| c_user := userId;
         c_content := content;
         c_type := match type with Some t => t | None => "text"%string end;
         c_createdAt := now |} in
    let pushed := g_messages g ++ [message] in
    let kept := if (1000 <? List.length pushed)%nat
                then slice_last 1000 pushed else pushed in
    let g1 := withMessages g kept in
    (save g1, g1).

(** [joinSession(sessionId, userId)]; [joinedAt] and [now] are the two
    clock reads of the call. *)
Definition joinSession (sessionId userId : ObjectId) (joinedAt now : Date) : Method :=
  fun g =>
    match sessionById sessionId (g_sessions g) with
    | None => (Throw (mkError "Session not found" None), g)
    | Some session =>
        let session1 :=
          match find (fun a => sameUser userId (a_user a)) (s_attendees session) with
          | Some _ => session
          | None =>
              withAttendees session
                (s_attendees session ++ [mkAttendee userId (Some joinedAt) None])
          end in
        let session2 :=
          if notAfter (s_scheduledAt session1) now && isScheduled (s_status session1)
          then withStatus session1 Live (orDate (s_liveStartedAt session1) now)
                 (s_endedAt session1)
          else session1 in
        let g1 := withSessions g (writeSession sessionId session2 (g_sessions g)) in
        (save g1, g1)
    end.

(** [endSession(sessionId, endedBy)]; the clock reads of the call are taken
    at one instant [now]. *)
Definition endSession (sessionId endedBy : ObjectId) (now : Date) : Method :=
  fun g =>
    match sessionById sessionId (g_sessions g) with
    | None => (Throw (mkError "Session not found" None), g)
    | Some session =>
        if negb (g_creator g =? endedBy)%string then
          (Throw (mkError "Only the group creator can end sessions" None), g)
        else
          let session1 := withStatus session Completed (s_liveStartedAt session)
                            (Some now) in
          let session2 :=
            withAttendees session1
              (map (fun a => mkAttendee (a_user a) (a_joinedAt a) (orDate (a_leftAt a) now))
                 (s_attendees session1)) in
          let g1 := withSessions g (writeSession sessionId session2 (g_sessions g)) in
          (save g1, g1)
    end.

End Methods.

(** *** Vocabulary for stating the properties *)

(** The entries of a session for one user. *)
Definition entriesOf (userId : ObjectId) (x : Session) : list Attendee :=
  filter (fun a => sameUser userId (a_user a)) (s_attendees x).

(** The groups the model's operations can produce: a new group has no
    session; sessions are added by [scheduleSession] and changed by
    [joinSession] and [endSession]; every other update leaves the sessions
    as they are. *)
Inductive reachable : Group -> Prop :=
| reach_new (g : Group) :
    g_sessions g = [] -> reachable g
| reach_schedule save data createdBy newId roomId picks now (g : Group) :
    reachable g ->
    reachable (snd (scheduleSession save data createdBy newId roomId picks now g))
| reach_join save sessionId userId joinedAt now (g : Group) :
    reachable g ->
    reachable (snd (joinSession save sessionId userId joinedAt now g))
| reach_end save sessionId endedBy now (g : Group) :
    reachable g ->
    reachable (snd (endSession save sessionId endedBy now g))
| reach_other (g g' : Group) :
    reachable g -> g_sessions g' = g_sessions g -> reachable g'.

(** No user is listed twice among the attendees of a session. *)
Definition distinctAttendees (g : Group) : Prop :=
  forall x, In x (g_sessions g) -> NoDup (map a_user (s_attendees x)).

(** The attendee list of the session [joinSession] writes back. *)
Definition joined (userId : ObjectId) (joinedAt : Date) (x : Session) : list Attendee :=
  match find (fun a => sameUser userId (a_user a)) (s_attendees x) with
  | Some _ => s_attendees x
  | None => s_attendees x ++ [mkAttendee userId (Some joinedAt) None]
  end.

Definition accepting : Group -> Exc unit := fun _ => Return tt.

Definition sampleGroup : Group :=
  {| g_id := "g1"%string; g_name := "Algebra"; g_description := None;
     g_subject := "Math"; g_tags := []; g_creator := "u1"%string;
     g_members := [mkMember "u1"%string "admin" (Some 0%Z) true];
     g_settings := mkSettings 50 false false true;
     g_nextSession := None; g_sessions := []; g_messages := [];
     g_discussions := 0; g_resources := 0;
     g_stats := mkStats 0 0 0 0 |}.

Definition sampleData : SessionData :=
  mkSessionData (Some "Kickoff"%string) None (Some 100%Z) None.

(** [sampleGroup] after its creator scheduled one session. *)
Definition withOneSession : Group :=
  snd (scheduleSession accepting sampleData "u1"%string "s1"%string "room"
         [0; 1; 2; 3; 4; 5]%nat 50%Z sampleGroup).

(** No user is listed twice among the members. *)
Definition distinctMembers (g : Group) : Prop :=
  NoDup (map m_user (g_members g)).

(** The group holds no more members than its settings allow. *)
Definition withinCapacity (g : Group) : Prop :=
  (Z.of_nat (List.length (g_members g)) <= maxMembers (g_settings g))%Z.

(** The time of a session that is still to come at [now]. *)
Definition upcomingAt (now : Date) (x : Session) : option Date :=
  if after (s_scheduledAt x) now && isScheduled (s_status x)
  then s_scheduledAt x else None.

(** The characters of a string. *)
Fixpoint chars (s : string) : list ascii :=
  match s with
  | EmptyString => []
  | String c rest => c :: chars rest
  end.

Definition alreadyMember : Error :=
  mkError "User is already a member of this group" None.

Definition groupFull : Error :=
  mkError "Group has reached maximum member limit" None.

Definition sessionNotFound : Error := mkError "Session not found" None.

Definition creatorOnly : Error :=
  mkError "Only the group creator can end sessions" None.

(** [withOneSession] after ["u2"] joined its session at time 120. *)
Definition withOneAttendee : Group :=
  snd (joinSession accepting "s1"%string "u2"%string 120%Z 120%Z withOneSession).

End StudyGroup.

(** ** Request handlers: responses, thrown errors and the [try]/[catch]
    boundary *)

Module Http.
Import StudyGroup.

(** The payload of a JSON response, next to [success] and [message]. *)
Inductive Data : Type :=
| NoData
| DGroup (g : Group)
| DGroups (gs : list Group)
| DSession (x : Session)
| DJoined (meetingLink : string) (x : Session)
| DJoinedByCode (groupId sessionId : ObjectId) (meetingLink : string) (x : Session)
| DChat (m : option ChatMessage)
| DChats (ms : list ChatMessage)
| DConversation (conversationId : ObjectId).

(** [res.status(status).json({ success, message, ... })]; [res.json] alone
    answers with status 200. *)
Record Response : Type := mkResponse {
  status : Z;
  r_success : bool;
  r_message : option string;
  r_data : Data
}.

Definition ok (message : option string) (d : Data) : Response :=
  mkResponse 200 true message d.

Definition refuse (code : Z) (message : string) : Response :=
  mkResponse code false (Some message) NoData.

(** The answer of every [catch] block. *)
Definition internalError : Response := refuse 500 "Internal server error".

Inductive Event : Type :=
| Logged (error : bool) (line : string)
| Thrown (e : Error)
| Emitted (room event : string).

(** Where a piece of handler code ends: it goes on with a value, it has
    sent the response and returned, or it has thrown. *)
Inductive Outcome (A : Type) : Type :=
| Next (a : A)
| Responded (r : Response)
| Raised (e : Error).
Arguments Next {A} a.
Arguments Responded {A} r.
Arguments Raised {A} e.

Definition H (A : Type) : Type := Outcome A * list Event.

Definition ret {A : Type} (a : A) : H A := (Next a, []).

Definition bind {A B : Type} (m : H A) (k : A -> H B) : H B :=
  match m with
  | (Next a, t) => let '(o, t') := k a in (o, t ++ t')
  | (Responded r, t) => (Responded r, t)
  | (Raised e, t) => (Raised e, t)
  end.

(** [return res.status(...).json(...)] *)
Definition respond {A : Type} (r : Response) : H A := (Responded r, []).

(** A [throw], or a runtime error of the language. *)
Definition raise {A : Type} (e : Error) : H A := (Raised e, [Thrown e]).

(** [await] of an operation that may throw or reject. *)
Definition call {A : Type} (o : Exc A) : H A :=
  match o with
  | Return a => ret a
  | Throw e => raise e
  end.

Definition info (line : string) : H unit := (Next tt, [Logged false line]).

(** [if (c) return res.status(...).json(...)] *)
Definition unless (c : bool) (r : Response) : H unit :=
  if c then respond r else ret tt.

(** [try { body } catch (error) { logger.error(label, error);
    res.status(500).json({ success: false, message: 'Internal server error' }) }] *)
Definition tryCatch (label : string) (body : H Empty_set) : H Empty_set :=
  match body with
  | (Raised e, t) =>
      (Responded internalError, t ++ [Logged true (label ++ " " ++ message e)])
  | other => other
  end.

Declare Scope http_scope.
Delimit Scope http_scope with http.
Notation "x <- m ;; k" := (bind m (fun x => k))
  (at level 61, m at next level, right associativity) : http_scope.
Notation "m ;;; k" := (bind m (fun _ => k))
  (at level 61, right associativity) : http_scope.

Definition response {A : Type} (h : H A) : option Response :=
  match fst h with
  | Responded r => Some r
  | _ => None
  end.

Definition events {A : Type} (h : H A) : list Event := snd h.

(** A piece of handler code in which a thrown error always ends the
    code as [Raised]. *)
Definition throwing_raises {A : Type} (h : H A) : Prop :=
  (exists e, In (Thrown e) (events h)) -> exists e, fst h = Raised e.

End Http.

(** ** controllers/studyGroupController.js *)

Module StudyGroupController.
Import StudyGroup Http.

(** The query object handed to [StudyGroup.find]. *)
Record Filter : Type := mkFilter {
  f_subject : option string;
  f_privacy : option string;
  f_search : option string;
  f_member : option ObjectId
}.

(** The model and the other collaborators of the controller; every
    operation may throw or reject.  Casting and the schema's setters are
    the store's business: [save] decides on the document it is given. *)
Record World : Type := mkWorld {
  newGroupId : ObjectId;
  save : Group -> Exc unit;
  populate : Group -> string -> Exc Group;
  regExp : string -> Exc string;
  find : Filter -> Exc (list Group);
  findById : list string -> ObjectId -> Exc (option Group);
  findByJoinCode : string -> Exc (option Group);
  findByIdAndDelete : ObjectId -> Exc unit;
  ioEmit : string -> string -> Exc unit;
  clock : Date;
  newSessionId : ObjectId;
  randomRoom : string;
  randomPicks : list nat
}.

(** What a handler finds in [req.userId]: the middleware stores the user
    document's [_id], an ObjectId object; a caller may also store the id
    as a string. *)
Inductive UserRef : Type :=
| IdString (s : string)
| IdObject (hex : ObjectId).

(** [userId.toString()] and [`${userId}`]; also the id the store casts the
    reference to. *)
Definition idString (u : UserRef) : string :=
  match u with
  | IdString s => s
  | IdObject hex => hex
  end.

(** [s === userId] for a string [s]: strict equality never holds between
    a string and an object. *)
Definition strictEq (s : string) (u : UserRef) : bool :=
  match u with
  | IdString t => (s =? t)%string
  | IdObject _ => false
  end.

Record Request : Type := mkRequest {
  userId : UserRef;
  params_id : ObjectId;
  params_sessionId : ObjectId;
  body_name : option string;
  body_description : option string;
  body_subject : option string;
  body_privacy : option string;
  body_maxMembers : option Z;
  body_tags : option (list string);
  body_title : option string;
  body_scheduledAt : option Date;
  body_duration : option Z;
  body_code : option value;
  body_content : option string;
  body_type : option string;
  query_subject : option string;
  query_privacy : option string;
  query_search : option string;
  query_limit : option Z;
  query_before : option (option Date)
}.

Definition notFound : Response := refuse 404 "Study group not found".

(** [member.user.toString() === userId] *)
Definition isUser (userId : UserRef) (m : Member) : bool :=
  strictEq (m_user m) userId.

Definition withSettings (g : Group) (st : Settings) : Group :=
  mkGroup (g_id g) (g_name g) (g_description g) (g_subject g) (g_tags g)
    (g_creator g) (g_members g) st (g_nextSession g) (g_sessions g)
    (g_messages g) (g_discussions g) (g_resources g) (g_stats g).

Definition withFields (g : Group) (name : string) (description : option string)
  (subject : string) (tags : list string) : Group :=
  mkGroup (g_id g) name description subject tags
    (g_creator g) (g_members g) (g_settings g) (g_nextSession g) (g_sessions g)
    (g_messages g) (g_discussions g) (g_resources g) (g_stats g).

(** [x || d] on an optional number. *)
Definition orZ (x : option Z) (d : Z) : Z :=
  match x with
  | Some z => if (z =? 0)%Z then d else z
  | None => d
  end.

(** [arr.slice(-limit)] *)
Definition sliceNeg {A : Type} (limit : Z) (l : list A) : list A :=
  if (0 <? limit)%Z then slice_last (Z.to_nat limit) l
  else skipn (Z.to_nat (- limit)) l.

Section Handlers.

Variable w : World.
Variable req : Request.

Local Open Scope string_scope.
Local Open Scope http_scope.

(** The two [populate] calls that precede most responses. *)
Definition populated (g : Group) : H Group :=
  g1 <- call (populate w g "creator") ;;
  call (populate w g1 "members.user").

(** [const studyGroup = await StudyGroup.findById(id); if (!studyGroup)
    return res.status(404).json(...)] *)
Definition lookup (paths : list string) : H Group :=
  found <- call (findById w paths (params_id req)) ;;
  match found with
  | Some g => ret g
  | None => respond notFound
  end.

Definition createStudyGroup : H Empty_set :=
  tryCatch "Create study group error:"
    (match body_name req, body_subject req with
     | Some name, Some subject =>
         unless (negb (truthy (body_name req)) || negb (truthy (body_subject req)))
           (refuse 400 "Name and subject are required") ;;;
         let studyGroup :=
           {| g_id := newGroupId w;
              g_name := name;
              g_description := body_description req;
              g_subject := subject;
              g_tags := match body_tags req with Some t => t | None => [] end;
              g_creator := idString (userId req);
              g_members := [mkMember (idString (userId req)) "admin" (Some (clock w)) true];
              g_settings :=
                mkSettings (orZ (body_maxMembers req) 50)
                  (match body_privacy req with
                   | Some p => p =? "private"
                   | None => false
                   end) false true;
              g_nextSession := None;
              g_sessions := [];
              g_messages := [];
              g_discussions := 0;
              g_resources := 0;
              g_stats := mkStats 0 0 0 0 |} in
         call (save w studyGroup) ;;;
         g <- populated studyGroup ;;
         info ("Study group created: " ++ name ++ " by user " ++ idString (userId req)) ;;;
         respond (mkResponse 201 true None (DGroup g))
     | _, _ => respond (refuse 400 "Name and subject are required")
     end).

Definition getStudyGroups : H Empty_set :=
  tryCatch "Get study groups error:"
    (subject <- match query_subject req with
                | Some s => if truthy (Some s)
                            then (r <- call (regExp w s) ;; ret (Some r))
                            else ret None
                | None => ret None
                end ;;
     search <- match query_search req with
               | Some s => if truthy (Some s)
                           then (r <- call (regExp w s) ;; ret (Some r))
                           else ret None
               | None => ret None
               end ;;
     let privacy := if truthy (query_privacy req) then query_privacy req else None in
     studyGroups <- call (find w (mkFilter subject privacy search None)) ;;
     respond (ok None (DGroups studyGroups))).

Definition getStudyGroup : H Empty_set :=
  tryCatch "Get study group error:"
    (studyGroup <- lookup ["creator"; "members.user"] ;;
     respond (ok None (DGroup studyGroup))).

Definition joinStudyGroup : H Empty_set :=
  tryCatch "Join study group error:"
    (studyGroup <- lookup [] ;;
     unless (existsb (isUser (userId req)) (g_members studyGroup))
       (refuse 400 "Already a member of this group") ;;;
     unless (maxMembers (g_settings studyGroup)
             <=? Z.of_nat (List.length (g_members studyGroup)))%Z
       (refuse 400 "Study group is full") ;;;
     unless (isPrivate (g_settings studyGroup))
       (refuse 403 "This is a private group. You need an invitation to join.") ;;;
     let joinedGroup :=
       withMembers studyGroup
         (g_members studyGroup
          ++ [mkMember (idString (userId req)) "member" (Some (clock w)) true]) in
     call (save w joinedGroup) ;;;
     g <- populated joinedGroup ;;
     info ("User " ++ idString (userId req) ++ " joined study group " ++ params_id req) ;;;
     respond (ok (Some "Successfully joined the study group") (DGroup g))).

Definition leaveStudyGroup : H Empty_set :=
  tryCatch "Leave study group error:"
    (studyGroup <- lookup [] ;;
     unless (negb (existsb (isUser (userId req)) (g_members studyGroup)))
       (refuse 400 "You are not a member of this group") ;;;
     unless (strictEq (g_creator studyGroup) (userId req))
       (refuse 400 "Group creator cannot leave. Transfer ownership or delete the group.") ;;;
     let leftGroup :=
       withMembers studyGroup
         (filter (fun m => negb (isUser (userId req) m)) (g_members studyGroup)) in
     call (save w leftGroup) ;;;
     info ("User " ++ idString (userId req) ++ " left study group " ++ params_id req) ;;;
     respond (ok (Some "Successfully left the study group") NoData)).

Definition updateStudyGroup : H Empty_set :=
  tryCatch "Update study group error:"
    (studyGroup <- lookup [] ;;
     let isAdmin :=
       existsb (fun m => isUser (userId req) m
                         && ((m_role m =? "admin") || (m_role m =? "moderator")))
         (g_members studyGroup) in
     unless (negb isAdmin && negb (strictEq (g_creator studyGroup) (userId req)))
       (refuse 403 "Only admins can update the group") ;;;
     let g1 :=
       withFields studyGroup
         (match body_name req with Some v => v | None => g_name studyGroup end)
         (match body_description req with
          | Some v => Some v
          | None => g_description studyGroup
          end)
         (match body_subject req with Some v => v | None => g_subject studyGroup end)
         (match body_tags req with Some v => v | None => g_tags studyGroup end) in
     let g2 :=
       match body_privacy req with
       | Some p =>
           withSettings g1
             (mkSettings (maxMembers (g_settings g1)) (p =? "private")
                (requireApproval (g_settings g1)) (allowMemberInvites (g_settings g1)))
       | None => g1
       end in
     let g3 :=
       match body_maxMembers req with
       | Some n =>
           withSettings g2
             (mkSettings n (isPrivate (g_settings g2))
                (requireApproval (g_settings g2)) (allowMemberInvites (g_settings g2)))
       | None => g2
       end in
     call (save w g3) ;;;
     g <- populated g3 ;;
     info ("Study group " ++ params_id req ++ " updated by user "
           ++ idString (userId req)) ;;;
     respond (ok None (DGroup g))).

Definition deleteStudyGroup : H Empty_set :=
  tryCatch "Delete study group error:"
    (studyGroup <- lookup [] ;;
     unless (negb (strictEq (g_creator studyGroup) (userId req)))
       (refuse 403 "Only the creator can delete the group") ;;;
     call (findByIdAndDelete w (params_id req)) ;;;
     info ("Study group " ++ params_id req ++ " deleted by user "
           ++ idString (userId req)) ;;;
     respond (ok (Some "Study group deleted successfully") NoData)).

Definition getUserStudyGroups : H Empty_set :=
  tryCatch "Get user study groups error:"
    (studyGroups <- call (find w (mkFilter None None None
                                    (Some (idString (userId req))))) ;;
     respond (ok None (DGroups studyGroups))).

(** A model method called on the document: the document is mutated in
    memory, and a throw or rejection goes to the [catch]. *)
Definition invoke (m : Method) (g : Group) : H Group :=
  call (fst (m g)) ;;; ret (snd (m g)).

Definition scheduleSession : H Empty_set :=
  tryCatch "Schedule session error:"
    (studyGroup <- lookup [] ;;
     unless (negb (g_creator studyGroup =? idString (userId req)))
       (refuse 403 "Only the group creator can schedule sessions") ;;;
     g1 <- invoke
             (StudyGroup.scheduleSession (save w)
                (mkSessionData (body_title req) (body_description req)
                   (body_scheduledAt req) (Some (orZ (body_duration req) 60)))
                (idString (userId req)) (newSessionId w) (randomRoom w) (randomPicks w)
                (clock w))
             studyGroup ;;
     g <- populated g1 ;;
     respond (ok (Some "Session scheduled successfully") (DGroup g))).

(** [session.meetingLink] and the like on the result of [sessions.id]:
    a [TypeError] when no session has this id. *)
Definition theSession (g : Group) (sessionId : ObjectId) : H Session :=
  match sessionById sessionId (g_sessions g) with
  | Some x => ret x
  | None => raise (TypeError "Cannot read properties of null")
  end.

Definition endSession : H Empty_set :=
  tryCatch "End session error:"
    (studyGroup <- lookup [] ;;
     unless (negb (g_creator studyGroup =? idString (userId req)))
       (refuse 403 "Only the group creator can end sessions") ;;;
     g1 <- invoke (StudyGroup.endSession (save w) (params_sessionId req)
                     (idString (userId req)) (clock w)) studyGroup ;;
     call (ioEmit w ("study-session-" ++ params_sessionId req) "session-ended") ;;;
     call (ioEmit w ("study-group-" ++ params_id req) "session-status-update") ;;;
     match sessionById (params_sessionId req) (g_sessions g1) with
     | Some x => respond (ok (Some "Session ended") (DSession x))
     | None => respond (ok (Some "Session ended") NoData)
     end).

Definition joinSessionByCode : H Empty_set :=
  tryCatch "Join session by code error:"
    (match body_code req with
     | Some (VStr code) =>
         unless (code =? "") (refuse 400 "Join code is required") ;;;
         found <- call (findByJoinCode w code) ;;
         match found with
         | None => respond (refuse 404 "Session with this code not found")
         | Some studyGroup =>
             match List.find (fun x => s_joinCode x =? code) (g_sessions studyGroup) with
             | None => respond (refuse 404 "Session not found")
             | Some session =>
                 g1 <- invoke (StudyGroup.joinSession (save w) (s_id session)
                                 (idString (userId req)) (clock w) (clock w))
                         studyGroup ;;
                 let session' :=
                   match List.find (fun x => s_joinCode x =? code) (g_sessions g1) with
                   | Some x => x
                   | None => session
                   end in
                 respond (ok None (DJoinedByCode (g_id g1) (s_id session')
                                     (s_meetingLink session') session'))
             end
         end
     | _ => respond (refuse 400 "Join code is required")
     end).

Definition getSession : H Empty_set :=
  tryCatch "Get session error:"
    (studyGroup <- lookup [] ;;
     match sessionById (params_sessionId req) (g_sessions studyGroup) with
     | None => respond (refuse 404 "Session not found")
     | Some session => respond (ok None (DSession session))
     end).

Definition joinSession : H Empty_set :=
  tryCatch "Join session error:"
    (studyGroup <- lookup [] ;;
     unless (negb (isMember studyGroup (idString (userId req))))
       (refuse 403 "You must be a member to join sessions") ;;;
     g1 <- invoke (StudyGroup.joinSession (save w) (params_sessionId req)
                     (idString (userId req)) (clock w) (clock w)) studyGroup ;;
     session <- theSession g1 (params_sessionId req) ;;
     respond (ok (Some "Joined session successfully")
                (DJoined (s_meetingLink session) session))).

Definition sendChatMessage : H Empty_set :=
  tryCatch "Send chat message error:"
    (studyGroup <- lookup [] ;;
     unless (negb (isMember studyGroup (idString (userId req))))
       (refuse 403 "You must be a member to send messages") ;;;
     g1 <- invoke (StudyGroup.addChatMessage (save w) (idString (userId req))
                     (body_content req)
                     (Some (match body_type req with Some t => t | None => "text" end))
                     (clock w)) studyGroup ;;
     g2 <- call (populate w g1 "chat.messages.user") ;;
     let latestMessage := List.last (map Some (g_messages g2)) None in
     call (ioEmit w ("study-group-" ++ params_id req) "new-message") ;;;
     respond (mkResponse 200 true None (DChat latestMessage))).

Definition getChatMessages : H Empty_set :=
  tryCatch "Get chat messages error:"
    (studyGroup <- lookup ["chat.messages.user"] ;;
     unless (negb (isMember studyGroup (idString (userId req))))
       (refuse 403 "You must be a member to view messages") ;;;
     let messages :=
       match query_before req with
       | Some (Some before) =>
           filter (fun m => (c_createdAt m <? before)%Z) (g_messages studyGroup)
       | Some None => []
       | None => g_messages studyGroup
       end in
     respond (ok None (DChats (sliceNeg (match query_limit req with
                                         | Some l => l
                                         | None => 50%Z
                                         end) messages)))).

End Handlers.

(** The operations of the controller. *)
Inductive Operation : Type :=
| CreateStudyGroup | GetStudyGroups | GetStudyGroup | JoinStudyGroup
| LeaveStudyGroup | UpdateStudyGroup | DeleteStudyGroup | GetUserStudyGroups
| ScheduleSession | EndSession | JoinSessionByCode | GetSession | JoinSession
| SendChatMessage | GetChatMessages.

Definition handle (op : Operation) (w : World) (req : Request) : H Empty_set :=
  match op with
  | CreateStudyGroup => createStudyGroup w req
  | GetStudyGroups => getStudyGroups w req
  | GetStudyGroup => getStudyGroup w req
  | JoinStudyGroup => joinStudyGroup w req
  | LeaveStudyGroup => leaveStudyGroup w req
  | UpdateStudyGroup => updateStudyGroup w req
  | DeleteStudyGroup => deleteStudyGroup w req
  | GetUserStudyGroups => getUserStudyGroups w req
  | ScheduleSession => scheduleSession w req
  | EndSession => endSession w req
  | JoinSessionByCode => joinSessionByCode w req
  | GetSession => getSession w req
  | JoinSession => joinSession w req
  | SendChatMessage => sendChatMessage w req
  | GetChatMessages => getChatMessages w req
  end.

(** The operations that start by loading the group of [req.params.id],
    with the paths populated by that query. *)
Definition loads (op : Operation) : option (list string) :=
  match op with
  | GetStudyGroup => Some ["creator"; "members.user"]%string
  | GetChatMessages => Some ["chat.messages.user"]%string
  | JoinStudyGroup | LeaveStudyGroup | UpdateStudyGroup | DeleteStudyGroup
  | ScheduleSession | EndSession | GetSession | JoinSession | SendChatMessage =>
      Some []
  | CreateStudyGroup | GetStudyGroups | GetUserStudyGroups | JoinSessionByCode => None
  end.

(** *** Concrete surroundings used in examples *)

Definition dbDown : Error := mkError "MongoNetworkError" None.

(** The store is unreachable: every operation of the model rejects. *)
Definition down : World :=
  {| newGroupId := "g0"%string;
     save := fun _ => Throw dbDown;
     populate := fun _ _ => Throw dbDown;
     regExp := fun s => Return s;
     find := fun _ => Throw dbDown;
     findById := fun _ _ => Throw dbDown;
     findByJoinCode := fun _ => Throw dbDown;
     findByIdAndDelete := fun _ => Throw dbDown;
     ioEmit := fun _ _ => Return tt;
     clock := 0%Z;
     newSessionId := "s0"%string;
     randomRoom := "room"%string;
     randomPicks := [0; 1; 2; 3; 4; 5]%nat |}.

(** The store holds the group [g] under its id and nothing else, and
    accepts every write. *)
Definition holding (g : Group) : World :=
  {| newGroupId := "g0"%string;
     save := fun _ => Return tt;
     populate := fun d _ => Return d;
     regExp := fun s => Return s;
     find := fun _ => Return [g];
     findById := fun _ i => Return (if (i =? g_id g)%string then Some g else None);
     findByJoinCode := fun _ => Return None;
     findByIdAndDelete := fun _ => Return tt;
     ioEmit := fun _ _ => Return tt;
     clock := 0%Z;
     newSessionId := "s0"%string;
     randomRoom := "room"%string;
     randomPicks := [0; 1; 2; 3; 4; 5]%nat |}.

(** A request on a group by an authenticated user: [req.userId] is the
    user document's [_id]. *)
Definition requestOn (user groupId : string) : Request :=
  {| userId := IdObject user; params_id := groupId; params_sessionId := "s1"%string;
     body_name := None; body_description := None; body_subject := None;
     body_privacy := None; body_maxMembers := None; body_tags := None;
     body_title := None; body_scheduledAt := None; body_duration := None;
     body_code := None; body_content := None; body_type := None;
     query_subject := None; query_privacy := None; query_search := None;
     query_limit := None; query_before := None |}.

(** The request with [req.userId] set to [u]. *)
Definition asUser (r : Request) (u : UserRef) : Request :=
  mkRequest u (params_id r) (params_sessionId r) (body_name r)
    (body_description r) (body_subject r) (body_privacy r) (body_maxMembers r)
    (body_tags r) (body_title r) (body_scheduledAt r) (body_duration r)
    (body_code r) (body_content r) (body_type r) (query_subject r)
    (query_privacy r) (query_search r) (query_limit r) (query_before r).

(** [sampleGroup] with room for its single member only. *)
Definition fullGroup : Group :=
  withSettings sampleGroup (mkSettings 1 false false true).

(** The operations reserved to the group's creator, with the message that
    refuses anyone else. *)
Definition creatorOnlyMessage (op : Operation) : option string :=
  match op with
  | DeleteStudyGroup => Some "Only the creator can delete the group"%string
  | ScheduleSession => Some "Only the group creator can schedule sessions"%string
  | EndSession => Some "Only the group creator can end sessions"%string
  | _ => None
  end.

(** The operations reserved to active members, with the message that
    refuses anyone else. *)
Definition memberOnlyMessage (op : Operation) : option string :=
  match op with
  | JoinSession => Some "You must be a member to join sessions"%string
  | SendChatMessage => Some "You must be a member to send messages"%string
  | GetChatMessages => Some "You must be a member to view messages"%string
  | _ => None
  end.

(** [sampleGroup] with an inactive member ["u3"] and one chat message. *)
Definition chattyGroup : Group :=
  withMessages
    (withMembers sampleGroup
       (g_members sampleGroup ++ [mkMember "u3"%string "member" (Some 1%Z) false]))
    [mkChatMessage "u1"%string (Some "hello"%string) "text" 5%Z;
     mkChatMessage "u1"%string (Some "again"%string) "text" 9%Z].

Definition privateGroup : Group :=
  withSettings sampleGroup (mkSettings 50 true false true).

Definition withCode (r : Request) (code : value) : Request :=
  mkRequest (userId r) (params_id r) (params_sessionId r) (body_name r)
    (body_description r) (body_subject r) (body_privacy r) (body_maxMembers r)
    (body_tags r) (body_title r) (body_scheduledAt r) (body_duration r)
    (Some code) (body_content r) (body_type r) (query_subject r)
    (query_privacy r) (query_search r) (query_limit r) (query_before r).

Definition withLimit (r : Request) (limit : Z) : Request :=
  mkRequest (userId r) (params_id r) (params_sessionId r) (body_name r)
    (body_description r) (body_subject r) (body_privacy r) (body_maxMembers r)
    (body_tags r) (body_title r) (body_scheduledAt r) (body_duration r)
    (body_code r) (body_content r) (body_type r) (query_subject r)
    (query_privacy r) (query_search r) (Some limit) (query_before r).

Definition withName (r : Request) (name : string) : Request :=
  mkRequest (userId r) (params_id r) (params_sessionId r) (Some name)
    (body_description r) (body_subject r) (body_privacy r) (body_maxMembers r)
    (body_tags r) (body_title r) (body_scheduledAt r) (body_duration r)
    (body_code r) (body_content r) (body_type r) (query_subject r)
    (query_privacy r) (query_search r) (query_limit r) (query_before r).

Definition withContent (r : Request) (content : string) : Request :=
  mkRequest (userId r) (params_id r) (params_sessionId r) (body_name r)
    (body_description r) (body_subject r) (body_privacy r) (body_maxMembers r)
    (body_tags r) (body_title r) (body_scheduledAt r) (body_duration r)
    (body_code r) (Some content) (body_type r) (query_subject r)
    (query_privacy r) (query_search r) (query_limit r) (query_before r).

(** The store of [holding], which also finds the group by the join codes
    of its sessions. *)
Definition holdingCodes (g : Group) : World :=
  mkWorld (newGroupId (holding g)) (save (holding g)) (populate (holding g))
    (regExp (holding g)) (find (holding g)) (findById (holding g))
    (fun code =>
       Return (if existsb (fun x => (s_joinCode x =? code)%string) (g_sessions g)
               then Some g else None))
    (findByIdAndDelete (holding g)) (ioEmit (holding g)) 120%Z
    (newSessionId (holding g)) (randomRoom (holding g)) (randomPicks (holding g)).

End StudyGroupController.

(** ** controllers/aiController.js: the chat handler *)

Module AIController.
Import StudyGroup Http.

Record ChatTurn : Type := mkChatTurn {
  role : string;
  turn_content : option string;
  timestamp : Date
}.

Record Conversation : Type := mkConversation {
  conv_id : ObjectId;
  conv_userId : ObjectId;
  conv_agentId : option ObjectId;
  conv_messages : list ChatTurn;
  lastActivity : option Date
}.

Record Context : Type := mkContext {
  conversationHistory : list ChatTurn;
  ctx_userId : ObjectId
}.

Record AIResponse : Type := mkAIResponse {
  ai_success : bool;
  ai_content : option string
}.

(** The imported service object, as the handler sees it: a property that
    the class does not define reads as [undefined]. *)
Record ServiceObject : Type := mkServiceObject {
  continueConversation : option (list ChatTurn -> Context -> Exc AIResponse)
}.

(** The default export of services/aiService.js.  [impl] is what a method
    named [continueConversation] would do if the class defined one. *)
Definition aiService (impl : list ChatTurn -> Context -> Exc AIResponse)
  : ServiceObject :=
  {| continueConversation :=
       if AIService.defines "continueConversation" then Some impl else None |}.

Record World : Type := mkWorld {
  findOne : ObjectId -> ObjectId -> Exc (option Conversation);
  newConversationId : ObjectId;
  save : Conversation -> Exc unit;
  clock : Date
}.

Record Request : Type := mkRequest {
  userId : ObjectId;
  body_message : option string;
  body_conversationId : option ObjectId;
  body_agentId : option ObjectId
}.

Definition push (c : Conversation) (t : ChatTurn) : Conversation :=
  mkConversation (conv_id c) (conv_userId c) (conv_agentId c)
    (conv_messages c ++ [t]) (lastActivity c).

Definition touch (c : Conversation) (now : Date) : Conversation :=
  mkConversation (conv_id c) (conv_userId c) (conv_agentId c)
    (conv_messages c) (Some now).

Section Chat.

Variable svc : ServiceObject.
Variable w : World.
Variable req : Request.

Local Open Scope string_scope.
Local Open Scope http_scope.

Definition chat : H Empty_set :=
  tryCatch "AI chat error:"
    (found <- match body_conversationId req with
              | Some conversationId =>
                  if truthy (Some conversationId)
                  then call (findOne w conversationId (userId req))
                  else ret None
              | None => ret None
              end ;;
     let conversation :=
       match found with
       | Some c => c
       | None =>
           mkConversation (newConversationId w) (userId req)
             (if truthy (body_agentId req) then body_agentId req else None) [] None
       end in
     let conversation1 :=
       push conversation (mkChatTurn "user" (body_message req) (clock w)) in
     let context :=
       mkContext (slice_last 10 (conv_messages conversation1)) (userId req) in
     aiResponse <- match continueConversation svc with
                   | Some method => call (method (conv_messages conversation1) context)
                   | None =>
                       raise (TypeError "aiService.continueConversation is not a function")
                   end ;;
     unless (negb (ai_success aiResponse)) (refuse 500 "Failed to get AI response") ;;;
     let conversation2 :=
       touch (push conversation1
                (mkChatTurn "assistant" (ai_content aiResponse) (clock w)))
         (clock w) in
     call (save w conversation2) ;;;
     respond (mkResponse 200 true (ai_content aiResponse)
                (DConversation (conv_id conversation2)))).

End Chat.

End AIController.

(** ** models/User.js: the schema, and saving a user *)

Module UserStore.

(** The options a schema path declares. *)
Record PathOptions : Type := mkPathOptions {
  required : bool;
  unique : bool;
  trim : bool;
  lowercase : bool;
  maxlength : option nat;
  minlength : option nat;
  hasMatch : bool;
  enum : option (list string);
  default : option string
}.

Inductive Path : Type := Username | FirstName | LastName | Email | Password | Role.

Definition allPaths : list Path := [Username; FirstName; LastName; Email; Password; Role].

Definition pathName (p : Path) : string :=
  match p with
  | Username => "username"
  | FirstName => "firstName"
  | LastName => "lastName"
  | Email => "email"
  | Password => "password"
  | Role => "role"
  end.

(** [userSchema], for the paths a registration fills in; the remaining
    paths (avatar, preferences, stats, subscription, isActive, lastLogin)
    are optional and take their defaults. *)
Definition userSchema (p : Path) : PathOptions :=
  match p with
  | Username =>
      {| required := true; unique := true; trim := true; lowercase := false;
         maxlength := Some 30%nat; minlength := None; hasMatch := false;
         enum := None; default := None |}
  | FirstName | LastName =>
      {| required := true; unique := false; trim := true; lowercase := false;
         maxlength := Some 50%nat; minlength := None; hasMatch := false;
         enum := None; default := None |}
  | Email =>
      {| required := true; unique := true; trim := false; lowercase := true;
         maxlength := None; minlength := None; hasMatch := true;
         enum := None; default := None |}
  | Password =>
      {| required := true; unique := false; trim := false; lowercase := false;
         maxlength := None; minlength := Some 6%nat; hasMatch := false;
         enum := None; default := None |}
  | Role =>
      {| required := false; unique := false; trim := false; lowercase := false;
         maxlength := None; minlength := None; hasMatch := false;
         enum := Some ["student"; "instructor"; "admin"]%string;
         default := Some "student"%string |}
  end.

(** A user document: the value at each path, [None] when absent. *)
Record User : Type := mkUser {
  username : option string;
  firstName : option string;
  lastName : option string;
  email : option string;
  password : option string;
  role : option string
}.

Definition get (p : Path) (u : User) : option string :=
  match p with
  | Username => username u
  | FirstName => firstName u
  | LastName => lastName u
  | Email => email u
  | Password => password u
  | Role => role u
  end.

Definition build (f : Path -> option string) : User :=
  mkUser (f Username) (f FirstName) (f LastName) (f Email) (f Password) (f Role).

Inductive SaveError : Type :=
| ValidationError (p : Path) (reason : string)
| HookError (e : Error)
| DuplicateKey (p : Path).

Section Saving.

(** Builtins of the runtime and libraries used on the way to the store. *)
Variable toLowerCase : string -> string.
Variable trimmed : string -> string.
Variable emailPattern : string -> bool.
Variable hash : string -> Exc string.

(** The setters a path declares, applied when a value is assigned. *)
Definition cast (o : PathOptions) (v : string) : string :=
  let v1 := if trim o then trimmed v else v in
  if lowercase o then toLowerCase v1 else v1.

(** [new User(input)]: setters and defaults, path by path. *)
Definition construct (input : User) : User :=
  build (fun p =>
           match get p input with
           | Some v => Some (cast (userSchema p) v)
           | None => default (userSchema p)
           end).

(** Modelled from the spec: the validators of a path, which the document
    store's schema validation runs before a document is written; the first
    declared option that fails names the reason. *)
Definition validatePath (p : Path) (v : option string) : option string :=
  let o := userSchema p in
  match v with
  | None => if required o then Some "required"%string else None
  | Some s =>
      if required o && (s =? "")%string then Some "required"%string
      else if match maxlength o with
              | Some n => (n <? String.length s)%nat
              | None => false
              end then Some "maxlength"%string
      else if match minlength o with
              | Some n => (String.length s <? n)%nat
              | None => false
              end then Some "minlength"%string
      else if hasMatch o && negb (emailPattern s) then Some "match"%string
      else if match enum o with
              | Some vs => negb (existsb (String.eqb s) vs)
              | None => false
              end then Some "enum"%string
      else None
  end.

(** Modelled from the spec: validation of a document, the first failing
    path in schema order. *)
Fixpoint validate (paths : list Path) (u : User) : option SaveError :=
  match paths with
  | [] => None
  | p :: rest =>
      match validatePath p (get p u) with
      | Some reason => Some (ValidationError p reason)
      | None => validate rest u
      end
  end.

(** [userSchema.pre('save')]: a new document has its password modified, so
    the password is hashed; a failure is passed to [next]. *)
Definition preSave (u : User) : SaveError + User :=
  match password u with
  | Some pw =>
      match hash pw with
      | Return h =>
          inr (mkUser (username u) (firstName u) (lastName u) (email u) (Some h) (role u))
      | Throw e => inl (HookError e)
      end
  | None => inr u
  end.

Definition sameAt (p : Path) (u v : User) : bool :=
  match get p u, get p v with
  | Some a, Some b => (a =? b)%string
  | _, _ => false
  end.

(** Modelled from the spec: the unique indexes the schema declares, as the
    document store enforces them on insertion.  A document whose value at a
    unique path equals that of a stored document is refused and the
    collection stays as it is. *)
Fixpoint violated (paths : list Path) (u : User) (stored : list User) : option Path :=
  match paths with
  | [] => None
  | p :: rest =>
      if unique (userSchema p) && existsb (sameAt p u) stored then Some p
      else violated rest u stored
  end.

Definition insert (u : User) (stored : list User) : (SaveError + User) * list User :=
  match violated allPaths u stored with
  | Some p => (inl (DuplicateKey p), stored)
  | None => (inr u, stored ++ [u])
  end.

(** [await new User(input).save()] *)
Definition saveUser (input : User) (stored : list User)
  : (SaveError + User) * list User :=
  let u := construct input in
  match validate allPaths u with
  | Some err => (inl err, stored)
  | None =>
      match preSave u with
      | inl err => (inl err, stored)
      | inr hashed => insert hashed stored
      end
  end.

(** The collections that saving users produces. *)
Inductive reachable : list User -> Prop :=
| reach_empty : reachable []
| reach_save (input : User) (stored : list User) :
    reachable stored -> reachable (snd (saveUser input stored)).

End Saving.

(** *** Concrete builtins used in examples *)

Definition lowerAscii (c : ascii) : ascii :=
  let n := nat_of_ascii c in
  if ((65 <=? n) && (n <=? 90))%nat then ascii_of_nat (n + 32) else c.

Fixpoint asciiLowerCase (s : string) : string :=
  match s with
  | EmptyString => EmptyString
  | String c rest => String (lowerAscii c) (asciiLowerCase rest)
  end.

Definition hasAt (s : string) : bool := JS.includes s "@".

Definition plainHash (pw : string) : Exc string := Return ("$2a$12$" ++ pw)%string.

Definition ada : User :=
  (mkUser (Some "ada") (Some "Ada") (Some "Lovelace") (Some "Ada@Example.org")
    (Some "secret1") None)%string.

Definition eve : User :=
  (mkUser (Some "eve") (Some "Eve") (Some "Moneypenny") (Some "ada@example.org")
     (Some "secret2") None)%string.

End UserStore.

(** ** middleware/auth.js *)

Module Auth.

(** A thrown error as the [catch] block reads it: [error.name] and
    [error.message]. *)
Record Failure : Type := mkFailure {
  f_name : string;
  f_message : string
}.

Inductive Attempt (A : Type) : Type :=
| Done (a : A)
| Failed (e : Failure).
Arguments Done {A} a.
Arguments Failed {A} e.

(** The user document loaded without its password: [_id] and [role]. *)
Record User : Type := mkUser {
  u_id : string;
  u_role : option string
}.

(** [process.env.JWT_SECRET], [jwt.verify(token, secret)] read at
    [.userId], and [User.findById(id).select('-password')]. *)
Record World : Type := mkWorld {
  JWT_SECRET : option string;
  verify : string -> string -> Attempt (option string);
  findById : option string -> Attempt (option User)
}.

(** [res.status(status).json({ message })] *)
Record Response : Type := mkResponse {
  status : Z;
  message : string
}.

(** The middleware calls [next()] with [req.user] and [req.userId] set, or
    it answers. *)
Inductive Outcome : Type :=
| Next (user : User)
| Answered (r : Response).

Fixpoint drop (n : nat) (s : string) : string :=
  match n, s with
  | O, _ => s
  | S n', String _ rest => drop n' rest
  | S _, EmptyString => EmptyString
  end.

(** [s.replace(pattern, replacement)] for a string pattern: the first
    occurrence only. *)
Fixpoint replace (pattern replacement s : string) : string :=
  if prefix pattern s then (replacement ++ drop (String.length pattern) s)%string
  else match s with
       | EmptyString => EmptyString
       | String c rest => String c (replace pattern replacement rest)
       end.

Section Middleware.

Variable w : World.

Local Open Scope string_scope.

(** The [catch] block of [authenticate]. *)
Definition caught (e : Failure) : Outcome * list string :=
  (Answered (mkResponse 401
               (if f_name e =? "TokenExpiredError" then "Token expired."
                else "Invalid token.")),
   ["Authentication error: " ++ f_message e]).

(** [authenticate(req, res, next)], given [req.header('Authorization')];
    the second component holds the lines logged as errors. *)
Definition authenticate (authorization : option string) : Outcome * list string :=
  match option_map (replace "Bearer " "") authorization with
  | None => (Answered (mkResponse 401 "Access denied. No token provided."), [])
  | Some token =>
      if token =? "" then
        (Answered (mkResponse 401 "Access denied. No token provided."), [])
      else
        match verify w token
                (match or_else (JWT_SECRET w) (Some "fallbacksecretkey") with
                 | Some secret => secret
                 | None => "fallbacksecretkey"
                 end) with
        | Failed e => caught e
        | Done userId =>
            match findById w userId with
            | Failed e => caught e
            | Done None => (Answered (mkResponse 401 "Invalid token."), [])
            | Done (Some user) => (Next user, [])
            end
        end
  end.

(** [authorize(...roles)(req, res, next)], given [req.user]. *)
Definition authorize (roles : list string) (user : option User) : Outcome :=
  match user with
  | None => Answered (mkResponse 401 "Access denied.")
  | Some u =>
      match u_role u with
      | None => Answered (mkResponse 403 "User role not defined.")
      | Some role =>
          if role =? "" then Answered (mkResponse 403 "User role not defined.")
          else if negb (existsb (String.eqb role) roles) then
            Answered (mkResponse 403 "Insufficient permissions.")
          else Next u
      end
  end.

End Middleware.

(** *** Concrete surroundings used in examples *)

(** One stored user ["u1"], and one token ["t1"] that verifies for it
    under the fallback secret; the token ["old"] has expired. *)
Definition sampleAuth : World :=
  {| JWT_SECRET := None;
     verify := fun token secret =>
       if ((token =? "t1") && (secret =? "fallbacksecretkey"))%string
       then Done (Some "u1"%string)
       else if (token =? "old")%string
            then Failed (mkFailure "TokenExpiredError" "jwt expired")
            else Failed (mkFailure "JsonWebTokenError" "invalid signature");
     findById := fun i =>
       Done (match i with
             | Some i' => if (i' =? "u1")%string
                          then Some (mkUser "u1" (Some "student"%string))
                          else None
             | None => None
             end) |}.

End Auth.

(** ** routes/studyGroups.js: the controller behind the middleware *)

Module StudyGroupRoutes.
Import StudyGroup Http StudyGroupController.

(** The controller's operations on the request [req] with [req.userId]
    set to [who]. *)
Definition handleAs (w : World) (req : Request) (who : UserRef) (op : Operation)
  : H Empty_set :=
  handle op w (asUser req who).

(** [router.use(auth)] followed by the handler of the route: the
    middleware answers, or the handler runs with [req.userId] the stored
    user's [_id]. *)
Definition route (op : Operation) (aw : Auth.World) (w : World)
  (authorization : option string) (req : Request)
  : Auth.Response + H Empty_set :=
  match fst (Auth.authenticate aw authorization) with
  | Auth.Answered r => inl r
  | Auth.Next user => inr (handleAs w req (IdObject (Auth.u_id user)) op)
  end.

(** The answer that refuses the operations of a group's owner. *)
Definition ownerRefusal (op : Operation) : option Response :=
  match op with
  | DeleteStudyGroup => Some (refuse 403 "Only the creator can delete the group")
  | UpdateStudyGroup => Some (refuse 403 "Only admins can update the group")
  | LeaveStudyGroup => Some (refuse 400 "You are not a member of this group")
  | _ => None
  end.

End StudyGroupRoutes.

(** * Properties *)

(** ** Properties of the generation chain *)

Module AIServiceFacts.
Import AIService.

Lemma steps_app (a b : list Event) : steps (a ++ b) = steps a ++ steps b.
Proof.
  induction a as [|e a IH]; simpl; [reflexivity|].
  destruct e; simpl; rewrite ?IH; reflexivity.
Qed.

Lemma steps_In (e : Event) (t : list Event) : In e (steps t) -> In e t.
Proof.
  induction t as [|x t IH]; simpl; [tauto|].
  destruct x; simpl; intuition.
Qed.

Lemma initializeServices_steps (w : World) (s : Service) :
  steps (trace_of (initializeServices w s)) = [].
Proof.
  unfold initializeServices, bind, get, put, setGroq, logger, emit, ret, trace_of.
  simpl.
  destruct (initialized s); [reflexivity|].
  destruct (GROQ_API_KEY w) as [k|]; [|reflexivity].
  destruct (validGroqKey k); [|reflexivity].
  destruct (groq_new w k); reflexivity.
Qed.

Ltac expose :=
  cbv beta iota zeta
    delta [bind get put logger emit ret result_of state_of trace_of failure].

Ltac after_init w s s0 t0 :=
  let H := fresh "Hinit" in
  pose proof (initializeServices_steps w s) as H;
  destruct (initializeServices w s) as [[[] s0] t0];
  unfold trace_of in H; simpl in H;
  expose.

(** A provider method enters exactly once and never synthesizes the
    template; a successful result carries no error and no fallback flag. *)
Lemma generateWithGroq_shape (w : World) (prompt : string) (o : Options) (s : Service) :
  let r := generateWithGroq w prompt o s in
  steps (trace_of r) = [Attempt Groq]
  /\ (success (result_of r) = true ->
      error (result_of r) = None /\ fallback (result_of r) = false).
Proof.
  unfold generateWithGroq. expose. after_init w s s0 t0.
  destruct (groq s0) as [client|]; simpl.
  - match goal with |- context [groq_create ?a ?b ?c] =>
      destruct (groq_create a b c) end; simpl;
      rewrite ?steps_app, ?Hinit; simpl; rewrite ?app_nil_r, ?Hinit;
      split; auto; discriminate.
  - rewrite ?steps_app, ?Hinit; simpl; rewrite ?app_nil_r, ?Hinit.
    split; auto; discriminate.
Qed.

Lemma geminiTry_steps (w : World) (cfg : GeminiConfig) (prompt : string)
  (o : Options) (s : Service) :
  let r := geminiTry w cfg prompt o s in
  steps (trace_of r) = []
  /\ (forall res, result_of r = Return res ->
      success res = true /\ error res = None /\ fallback res = false).
Proof.
  unfold geminiTry. expose.
  match goal with |- context [axios_post ?a ?b ?c] =>
    destruct (axios_post a b c) as [data|e] end; simpl.
  2: { split; [reflexivity|]. intros res H; discriminate. }
  destruct (candidates data) as [[|c cs]|]; simpl;
    try (split; [reflexivity|]; intros res H; discriminate).
  destruct (cand_content c) as [cc|]; simpl;
    try (split; [reflexivity|]; intros res H; discriminate).
  destruct (parts cc) as [[|p ps]|]; simpl;
    try (split; [reflexivity|]; intros res H; discriminate).
  split; [reflexivity|]. intros res H. inversion H; subst; simpl. auto.
Qed.

Lemma generateWithGemini_shape (w : World) (prompt : string) (o : Options) (s : Service) :
  let r := generateWithGemini w prompt o s in
  steps (trace_of r) = [Attempt Gemini]
  /\ (success (result_of r) = true ->
      error (result_of r) = None /\ fallback (result_of r) = false).
Proof.
  unfold generateWithGemini. expose. after_init w s s0 t0.
  destruct (geminiConfig s0) as [cfg|]; simpl.
  2: { rewrite ?steps_app, ?Hinit; simpl. split; auto; discriminate. }
  destruct (validGeminiKey (apiKey cfg)); simpl.
  2: { rewrite ?steps_app, ?Hinit; simpl. split; auto; discriminate. }
  pose proof (geminiTry_steps w cfg prompt o s0) as [Ht Hr].
  destruct (geminiTry w cfg prompt o s0) as [[r s1] t1].
  unfold trace_of, result_of in Ht, Hr; simpl in Ht, Hr.
  destruct r as [res|e]; simpl;
    rewrite ?steps_app, ?Hinit, ?Ht; simpl; rewrite ?steps_app, ?Ht; simpl.
  - split; [reflexivity|]. intros _. destruct (Hr res eq_refl) as (_ & ? & ?). auto.
  - split; [reflexivity|]. discriminate.
Qed.

(** What one guarded provider block of [generate] does. *)
Lemma tryProvider_spec (enabled : bool) (name : string) (call : M Result) (s : Service) :
  let out := tryProvider enabled name call s in
  (enabled = false /\ result_of out = None /\ state_of out = s /\ trace_of out = [])
  \/ (enabled = true
      /\ state_of out = state_of (call s)
      /\ steps (trace_of out) = steps (trace_of (call s))
      /\ result_of out =
         (if success (result_of (call s)) then Some (result_of (call s)) else None)).
Proof.
  unfold tryProvider, bind, logger, emit, ret, result_of, state_of, trace_of.
  destruct enabled; [right|left]; simpl; [|auto].
  destruct (call s) as [[r s'] t]; simpl.
  destruct (success r); simpl; rewrite steps_app; simpl;
    rewrite app_nil_r; auto.
Qed.

(** [generate] with its sequencing spelled out. *)
Lemma generate_unfold (w : World) (prompt : string) (provider : option string)
  (o : Options) (s : Service) :
  generate w prompt provider o s =
  let p := providerOf provider in
  let '(_, s0, t0) := initializeServices w s in
  let '(vg, sg, tg) :=
    tryProvider (usesGroq p) "Groq" (generateWithGroq w prompt o) s0 in
  match vg with
  | Some r => (r, sg, t0 ++ tg ++ [])
  | None =>
      let '(vm, sm, tm) :=
        tryProvider (usesGemini p) "Gemini" (generateWithGemini w prompt o) sg in
      match vm with
      | Some r => (r, sm, t0 ++ tg ++ tm ++ [])
      | None =>
          (templateResult prompt, sm,
           t0 ++ tg ++ tm
           ++ [Log Warn "All AI providers failed, using structured fallback";
               Template])
      end
  end.
Proof.
  unfold generate. fold (providerOf provider).
  fold (usesGroq (providerOf provider)). fold (usesGemini (providerOf provider)).
  cbv zeta. unfold bind at 1.
  destruct (initializeServices w s) as [[[] s0] t0].
  unfold bind at 1.
  destruct (tryProvider _ "Groq" _ s0) as [[[r|] sg] tg]; [reflexivity|].
  unfold bind at 1.
  destruct (tryProvider _ "Gemini" _ sg) as [[[r|] sm] tm]; reflexivity.
Qed.

(** The three exits of [generate], with the provider methods entered on
    the way to each. *)
Lemma generate_cases (w : World) (prompt : string) (provider : option string)
  (o : Options) (s : Service) :
  let p := providerOf provider in
  let s0 := state_of (initializeServices w s) in
  let g := generateWithGroq w prompt o s0 in
  let s1 := if usesGroq p then state_of g else s0 in
  let m := generateWithGemini w prompt o s1 in
  let out := generate w prompt provider o s in
  if usesGroq p && success (result_of g) then
    result_of out = result_of g /\ steps (trace_of out) = [Attempt Groq]
  else if usesGemini p && success (result_of m) then
    result_of out = result_of m
    /\ steps (trace_of out) = only (usesGroq p) Groq ++ [Attempt Gemini]
  else
    result_of out = templateResult prompt
    /\ steps (trace_of out) =
       only (usesGroq p) Groq ++ only (usesGemini p) Gemini ++ [Template].
Proof.
  intros p s0 g s1 m out.
  subst out. rewrite generate_unfold. fold p. cbv zeta.
  pose proof (initializeServices_steps w s) as Hinit.
  subst s0. destruct (initializeServices w s) as [[[] s0] t0].
  unfold trace_of in Hinit; simpl in Hinit. unfold state_of in *; simpl in *.
  pose proof (tryProvider_spec (usesGroq p) "Groq" (generateWithGroq w prompt o) s0) as HG.
  pose proof (generateWithGroq_shape w prompt o s0) as [HGs _].
  fold g in HGs.
  destruct (tryProvider (usesGroq p) "Groq" (generateWithGroq w prompt o) s0)
    as [[vg sg] tg].
  unfold result_of, state_of, trace_of in HG; simpl in HG.
  assert (Hsg : sg = s1 /\ steps tg = only (usesGroq p) Groq
                /\ vg = if usesGroq p && success (result_of g)
                        then Some (result_of g) else None).
  { subst s1. destruct HG as [(E & -> & -> & ->)|(E & -> & Ht & ->)];
      rewrite E; simpl; auto.
    unfold result_of, trace_of in *. fold g. rewrite Ht. fold g. auto. }
  clear HG. destruct Hsg as (-> & Htg & ->).
  destruct (usesGroq p && success (result_of g)) eqn:EG.
  - unfold result_of, trace_of; simpl.
    rewrite !steps_app, Hinit, Htg. simpl. rewrite app_nil_r.
    apply andb_prop in EG. destruct EG as [-> _]. auto.
  - pose proof (tryProvider_spec (usesGemini p) "Gemini"
                  (generateWithGemini w prompt o) s1) as HM.
    pose proof (generateWithGemini_shape w prompt o s1) as [HMs _].
    fold m in HMs.
    destruct (tryProvider (usesGemini p) "Gemini" (generateWithGemini w prompt o) s1)
      as [[vm sm] tm].
    unfold result_of, state_of, trace_of in HM; simpl in HM.
    assert (Hsm : steps tm = only (usesGemini p) Gemini
                  /\ vm = if usesGemini p && success (result_of m)
                          then Some (result_of m) else None).
    { destruct HM as [(E & -> & _ & ->)|(E & _ & Ht & ->)];
        rewrite E; simpl; auto.
      unfold result_of, trace_of in *. fold m. rewrite Ht. fold m. auto. }
    clear HM. destruct Hsm as (Htm & ->).
    destruct (usesGemini p && success (result_of m)) eqn:EM.
    + unfold result_of, trace_of; simpl.
      rewrite !steps_app, Hinit, Htg, Htm. simpl. rewrite app_nil_r.
      apply andb_prop in EM. destruct EM as [-> _]. auto.
    + unfold result_of, trace_of; simpl.
      rewrite !steps_app, Hinit, Htg, Htm. simpl. auto.
Qed.

Lemma initializeServices_initialized (w : World) (s : Service) :
  initialized (state_of (initializeServices w s)) = true.
Proof.
  unfold initializeServices. expose.
  destruct (initialized s) eqn:E; simpl; [exact E|].
  destruct (GROQ_API_KEY w) as [k|]; [|reflexivity].
  destruct (validGroqKey k); [|reflexivity].
  destruct (groq_new w k); reflexivity.
Qed.

Lemma initializeServices_again (w : World) (s : Service) :
  initialized s = true -> initializeServices w s = (tt, s, []).
Proof.
  intros H. unfold initializeServices. expose. rewrite H. reflexivity.
Qed.

(** The result of [generateWithGroq] on an initialised service, by the
    outcome of the SDK call. *)
Lemma generateWithGroq_result (w : World) (prompt : string) (o : Options) (s : Service) :
  initialized s = true ->
  result_of (generateWithGroq w prompt o s) =
  match groq s with
  | None => failure "Groq SDK not initialized"
  | Some client =>
      match groq_create w client (groqRequest prompt o) with
      | Return cc =>
          {| success := true; content := CText (groqContent cc);
             error := None; usage := cc_usage cc; fallback := false |}
      | Throw e => failure (message e)
      end
  end.
Proof.
  intros H. unfold generateWithGroq. expose.
  rewrite (initializeServices_again w s H). simpl.
  destruct (groq s) as [client|]; [|reflexivity].
  destruct (groq_create w client (groqRequest prompt o)); reflexivity.
Qed.

(** C1. Whatever the prompt, the provider argument, the options and the
    outcomes of the provider calls, [generate] returns a result with
    [success = true] and no error; when both providers fail, the result is
    the synthesized content for the prompt, flagged [fallback = true]. *)
Theorem generate_never_fails (w : World) (prompt : string)
  (provider : option string) (o : Options) (s : Service) :
  let r := result_of (generate w prompt provider o s) in
  success r = true
  /\ error r = None
  /\ ((forall s', success (result_of (generateWithGroq w prompt o s')) = false) ->
      (forall s', success (result_of (generateWithGemini w prompt o s')) = false) ->
      fallback r = true /\ content r = generateStructuredFallback prompt).
Proof.
  pose proof (generate_cases w prompt provider o s) as H. cbv zeta in H |- *.
  set (s0 := state_of (initializeServices w s)) in *.
  set (g := generateWithGroq w prompt o s0) in *.
  set (s1 := if usesGroq (providerOf provider) then state_of g else s0) in *.
  set (m := generateWithGemini w prompt o s1) in *.
  destruct (generateWithGroq_shape w prompt o s0) as [_ HG].
  destruct (generateWithGemini_shape w prompt o s1) as [_ HM].
  fold g in HG. fold m in HM.
  destruct (usesGroq (providerOf provider) && success (result_of g)) eqn:EG.
  - destruct H as [-> _]. apply andb_prop in EG. destruct EG as [_ EG].
    destruct (HG EG) as [He Hf]. split; [auto|split; [auto|]].
    intros Hg _. unfold g in EG. rewrite (Hg s0) in EG. discriminate.
  - destruct (usesGemini (providerOf provider) && success (result_of m)) eqn:EM.
    + destruct H as [-> _]. apply andb_prop in EM. destruct EM as [_ EM].
      destruct (HM EM) as [He Hf]. split; [auto|split; [auto|]].
      intros _ Hm. unfold m in EM. rewrite (Hm s1) in EM. discriminate.
    + destruct H as [-> _]. simpl. split; [|split]; [reflexivity..|].
      split; reflexivity.
Qed.

Lemma unreachable_groq_fails (prompt : string) (o : Options) (s : Service) :
  success (result_of (generateWithGroq unreachable prompt o s)) = false.
Proof.
  destruct s as [g c [|]]; [destruct g|]; reflexivity.
Qed.

Lemma unreachable_gemini_fails (prompt : string) (o : Options) (s : Service) :
  success (result_of (generateWithGemini unreachable prompt o s)) = false.
Proof.
  destruct s as [g c [|]]; [|reflexivity].
  unfold generateWithGemini. expose.
  rewrite initializeServices_again by reflexivity. simpl.
  destruct c as [cfg|]; [|reflexivity].
  destruct (validGeminiKey (apiKey cfg)); reflexivity.
Qed.

Lemma generate_never_fails_witness :
  let r := result_of (generate unreachable "a quiz on graphs" (Some "auto"%string)
                        noOptions constructor) in
  fallback r = true /\ content r = CQuiz [].
Proof.
  destruct (generate_never_fails unreachable "a quiz on graphs"
              (Some "auto"%string) noOptions constructor) as (_ & _ & H).
  apply H; intros s'.
  - apply unreachable_groq_fails.
  - apply unreachable_gemini_fails.
Defined.

(** C2, as stated, fails: with the default provider argument the template
    is returned after Groq alone has failed, without any attempt on Gemini;
    and [generateQuizQuestions], which asks for ['gemini'], reaches the
    template without any attempt on Groq. *)
Lemma fixed_order_counterexample :
  (let out := generate offline "hello" None noOptions constructor in
   fallback (result_of out) = true
   /\ In Template (trace_of out)
   /\ ~ In (Attempt Gemini) (trace_of out))
  /\ (let out := generateQuizQuestions offline (VStr "graphs") (VStr "easy") None
                   constructor in
      In Template (trace_of out)
      /\ ~ In (Attempt Groq) (trace_of out)).
Proof.
  cbv. repeat split; try tauto; intuition discriminate.
Qed.

(** [generateQuizQuestions] with its sequencing spelled out. *)
Lemma generateQuizQuestions_unfold (w : World) (topic difficulty : value)
  (count : option Z) (s : Service) :
  generateQuizQuestions w topic difficulty count s =
  let n := match count with Some c => c | None => 10%Z end in
  let '(_, s0, t0) := initializeServices w s in
  let '(r, s1, t1) :=
    generate w (quizPrompt n difficulty topic) (Some "gemini"%string)
      (mkOptions None (Some 2000%Z) None None) s0 in
  let line :=
    Log Info ("Generating " ++ decimal n ++ " " ++ toString difficulty
              ++ " quiz questions for " ++ toString topic) in
  if success r && negb (fallback r) then (r, s1, t0 ++ line :: t1 ++ [])
  else
    ({| success := true;
        content := CQuiz (generateFallbackQuiz topic difficulty (Some n));
        error := None; usage := None; fallback := false |},
     s1, t0 ++ line :: t1 ++ [Log Info "Using fallback quiz generation"]).
Proof.
  unfold generateQuizQuestions. cbv zeta.
  set (n := match count with Some c => c | None => 10%Z end).
  unfold bind at 1. destruct (initializeServices w s) as [[[] s0] t0].
  unfold bind, logger, emit, ret. simpl.
  destruct (generate w (quizPrompt n difficulty topic) (Some "gemini"%string)
              (mkOptions None (Some 2000%Z) None None) s0) as [[r s1] t1].
  destruct (success r && negb (fallback r)); reflexivity.
Qed.

(** The provider methods entered by [generateQuizQuestions] are those of
    its inner [generate(prompt, 'gemini', ...)]. *)
Lemma generateQuizQuestions_steps (w : World) (topic difficulty : value)
  (count : option Z) (s : Service) :
  exists prompt o s0,
    steps (trace_of (generateQuizQuestions w topic difficulty count s))
    = steps (trace_of (generate w prompt (Some "gemini"%string) o s0))
    /\ (fallback (result_of (generate w prompt (Some "gemini"%string) o s0)) = true ->
        content (result_of (generateQuizQuestions w topic difficulty count s))
        = CQuiz (generateFallbackQuiz topic difficulty
                   (Some (match count with Some c => c | None => 10%Z end)))).
Proof.
  rewrite generateQuizQuestions_unfold. cbv zeta.
  set (n := match count with Some c => c | None => 10%Z end).
  pose proof (initializeServices_steps w s) as Hinit.
  destruct (initializeServices w s) as [[[] s0] t0].
  unfold trace_of in Hinit; simpl in Hinit.
  exists (quizPrompt n difficulty topic), (mkOptions None (Some 2000%Z) None None), s0.
  destruct (generate w (quizPrompt n difficulty topic) (Some "gemini"%string)
              (mkOptions None (Some 2000%Z) None None) s0) as [[r s1] t1].
  unfold trace_of, result_of; simpl.
  destruct (success r && negb (fallback r)) eqn:E; simpl;
    rewrite ?steps_app, ?Hinit; simpl; rewrite ?steps_app; simpl;
    rewrite ?app_nil_r; split; auto.
  intros Hf. rewrite Hf in E. rewrite andb_false_r in E. discriminate.
Qed.

(** What [generate] does for the three provider arguments its gates
    name, in terms of what the provider methods return. *)
Lemma generate_by_provider (w : World) (prompt : string)
  (provider : option string) (o : Options) (s : Service) :
  let p := providerOf provider in
  let s0 := state_of (initializeServices w s) in
  let viaGroq := generateWithGroq w prompt o s0 in
  let out := generate w prompt provider o s in
  let t := steps (trace_of out) in
  (p = "auto"%string ->
   let viaGemini := generateWithGemini w prompt o (state_of viaGroq) in
   (success (result_of viaGroq) = true ->
    t = [Attempt Groq] /\ result_of out = result_of viaGroq)
   /\ (success (result_of viaGroq) = false ->
       success (result_of viaGemini) = true ->
       t = [Attempt Groq; Attempt Gemini] /\ result_of out = result_of viaGemini)
   /\ (success (result_of viaGroq) = false ->
       success (result_of viaGemini) = false ->
       t = [Attempt Groq; Attempt Gemini; Template]
       /\ result_of out = templateResult prompt))
  /\ (p = "groq"%string ->
      (success (result_of viaGroq) = true ->
       t = [Attempt Groq] /\ result_of out = result_of viaGroq)
      /\ (success (result_of viaGroq) = false ->
          t = [Attempt Groq; Template] /\ result_of out = templateResult prompt))
  /\ (p = "gemini"%string ->
      let viaGemini := generateWithGemini w prompt o s0 in
      (success (result_of viaGemini) = true ->
       t = [Attempt Gemini] /\ result_of out = result_of viaGemini)
      /\ (success (result_of viaGemini) = false ->
          t = [Attempt Gemini; Template] /\ result_of out = templateResult prompt)).
Proof.
  intros p s0 viaGroq out t.
  pose proof (generate_cases w prompt provider o s) as H. cbv zeta in H.
  fold p s0 viaGroq out t in H.
  split; [|split].
  - intros Ep viaGemini. rewrite Ep in H. cbn [usesGroq usesGemini String.eqb
      Ascii.eqb Bool.eqb orb andb only app] in H. simpl in H.
    fold viaGemini in H.
    split; [|split].
    + intros Eg. rewrite Eg in H. destruct H as [Hr Ht]. auto.
    + intros Eg Em. rewrite Eg, Em in H. destruct H as [Hr Ht]. auto.
    + intros Eg Em. rewrite Eg, Em in H. destruct H as [Hr Ht]. auto.
  - intros Ep. rewrite Ep in H. simpl in H.
    split.
    + intros Eg. rewrite Eg in H. destruct H as [Hr Ht]. auto.
    + intros Eg. rewrite Eg in H. destruct H as [Hr Ht]. auto.
  - intros Ep viaGemini. rewrite Ep in H. simpl in H. fold viaGemini in H.
    split.
    + intros Em. rewrite Em in H. destruct H as [Hr Ht]. auto.
    + intros Em. rewrite Em in H. destruct H as [Hr Ht]. auto.
Qed.

(** C2, amended. For the provider arguments its gates name, [generate]
    enters the selected providers in the order Groq, Gemini, each at most
    once: with ['auto'] Groq and, only after Groq has failed, Gemini; with
    ['groq'] (the default) Groq alone; with ['gemini'] Gemini alone.  The
    first selected provider that succeeds ends the run and its result is
    returned; the template is synthesized exactly when every selected
    provider has failed.  [generateQuizQuestions] asks for ['gemini']: it
    enters Gemini alone, and reaches the template exactly when Gemini has
    failed. *)
Theorem provider_order_by_argument (w : World) (prompt : string)
  (provider : option string) (o : Options) (s : Service) :
  let p := providerOf provider in
  let s0 := state_of (initializeServices w s) in
  let viaGroq := generateWithGroq w prompt o s0 in
  let out := generate w prompt provider o s in
  let t := steps (trace_of out) in
  (p = "auto"%string ->
   let viaGemini := generateWithGemini w prompt o (state_of viaGroq) in
   (success (result_of viaGroq) = true ->
    t = [Attempt Groq] /\ result_of out = result_of viaGroq)
   /\ (success (result_of viaGroq) = false ->
       success (result_of viaGemini) = true ->
       t = [Attempt Groq; Attempt Gemini] /\ result_of out = result_of viaGemini)
   /\ (success (result_of viaGroq) = false ->
       success (result_of viaGemini) = false ->
       t = [Attempt Groq; Attempt Gemini; Template]
       /\ result_of out = templateResult prompt))
  /\ (p = "groq"%string ->
      (success (result_of viaGroq) = true ->
       t = [Attempt Groq] /\ result_of out = result_of viaGroq)
      /\ (success (result_of viaGroq) = false ->
          t = [Attempt Groq; Template] /\ result_of out = templateResult prompt))
  /\ (p = "gemini"%string ->
      let viaGemini := generateWithGemini w prompt o s0 in
      (success (result_of viaGemini) = true ->
       t = [Attempt Gemini] /\ result_of out = result_of viaGemini)
      /\ (success (result_of viaGemini) = false ->
          t = [Attempt Gemini; Template] /\ result_of out = templateResult prompt))
  /\ (forall topic difficulty count,
        let n := match count with Some c => c | None => 10%Z end in
        let viaGemini :=
          generateWithGemini w (quizPrompt n difficulty topic)
            (mkOptions None (Some 2000%Z) None None) s0 in
        let q := steps (trace_of (generateQuizQuestions w topic difficulty count s)) in
        (success (result_of viaGemini) = true -> q = [Attempt Gemini])
        /\ (success (result_of viaGemini) = false ->
            q = [Attempt Gemini; Template])).
Proof.
  intros p s0 viaGroq out t.
  destruct (generate_by_provider w prompt provider o s) as (Ha & Hg & Hm).
  split; [exact Ha|]. split; [exact Hg|]. split; [exact Hm|].
  intros topic difficulty count n viaGemini q. subst q.
  rewrite generateQuizQuestions_unfold. cbv zeta. fold n.
  pose proof (initializeServices_steps w s) as Hinit.
  pose proof (initializeServices_initialized w s) as Hdone.
  subst viaGemini s0.
  destruct (initializeServices w s) as [[[] s0] t0].
  unfold trace_of, state_of in Hinit, Hdone |- *; simpl in Hinit, Hdone |- *.
  destruct (generate_by_provider w (quizPrompt n difficulty topic)
              (Some "gemini"%string) (mkOptions None (Some 2000%Z) None None) s0)
    as (_ & _ & Hq).
  specialize (Hq eq_refl). cbv zeta in Hq.
  rewrite (initializeServices_again w s0 Hdone) in Hq.
  unfold state_of in Hq; simpl in Hq.
  destruct (generate w (quizPrompt n difficulty topic) (Some "gemini"%string)
              (mkOptions None (Some 2000%Z) None None) s0) as [[r s1] t1].
  unfold trace_of, result_of in Hq; simpl in Hq.
  destruct Hq as [Hok Hfail].
  split; intros E.
  - destruct (Hok E) as [Ht Hr].
    destruct (success r && negb (fallback r)); simpl;
      rewrite ?steps_app, ?Hinit; simpl; rewrite ?steps_app; simpl;
      rewrite ?app_nil_r; exact Ht.
  - destruct (Hfail E) as [Ht Hr].
    destruct (success r && negb (fallback r)); simpl;
      rewrite ?steps_app, ?Hinit; simpl; rewrite ?steps_app; simpl;
      rewrite ?app_nil_r; exact Ht.
Qed.

Lemma provider_order_by_argument_witness :
  steps (trace_of (generate unreachable "hello" (Some "auto"%string) noOptions
                     constructor))
  = [Attempt Groq; Attempt Gemini; Template]
  /\ steps (trace_of (generate unreachable "hello" None noOptions constructor))
     = [Attempt Groq; Template]
  /\ steps (trace_of (generateQuizQuestions unreachable (VStr "graphs") (VStr "easy")
                        None constructor))
     = [Attempt Gemini; Template].
Proof.
  split; [|split].
  - apply (proj2 (proj2 (proj1 (provider_order_by_argument unreachable "hello"
                                  (Some "auto"%string) noOptions constructor)
                           eq_refl)));
      reflexivity.
  - apply (proj2 (proj1 (proj2 (provider_order_by_argument unreachable "hello"
                                  None noOptions constructor))
                    eq_refl)); reflexivity.
  - apply (proj2 (proj2 (proj2 (proj2 (provider_order_by_argument unreachable "hello"
                                         None noOptions constructor)))
                    (VStr "graphs") (VStr "easy") None)); reflexivity.
Defined.

(** C4 (the code departs from it). Groq answers with a completion
    without [choices]: [generateWithGroq] reads the content through
    optional chaining and counts the call as a success with empty content,
    so [generate], asked for ['auto'], returns the empty text; Gemini,
    which answers properly when asked, is never entered, and no template
    is synthesized.  [generateWithGemini] does check the shape of its
    response and fails on one without candidates. *)
Theorem shapeless_completion_accepted :
  let out := generate shapeless "hello" (Some "auto"%string) noOptions constructor in
  success (result_of (generateWithGroq shapeless "hello" noOptions constructor)) = true
  /\ result_of out
     = {| success := true; content := CText ""; error := None; usage := None;
          fallback := false |}
  /\ steps (trace_of out) = [Attempt Groq]
  /\ content (result_of (generate shapeless "hello" (Some "gemini"%string) noOptions
                           constructor))
     = CText "from Gemini".
Proof.
  cbv. repeat split.
Qed.

Lemma groqContent_without_message (cc : ChatCompletion) :
  messageContent cc = None ->
  groqContent cc = match choiceText cc with Some t => t | None => ""%string end.
Proof.
  intros H. unfold groqContent. rewrite H. unfold or_else at 2. simpl.
  unfold or_else, truthy.
  destruct (choiceText cc) as [t|]; [|reflexivity].
  destruct (String.eqb_spec t ""); simpl; congruence.
Qed.

(** How far the shape of Groq's answer matters.  When Groq fails (the SDK
    is not initialised, or the call throws) and the provider argument is
    ['auto'], Gemini is entered before any template is synthesized.  A
    Groq response without choices, or whose first choice has no message
    content, does not count as a failure: the result is a success whose
    content is the choice's [text], or the empty string, and Gemini is not
    entered. *)
Theorem groq_failure_and_invalid_shape (w : World) (prompt : string)
  (provider : option string) (o : Options) (s : Service) :
  let s0 := state_of (initializeServices w s) in
  let out := generate w prompt provider o s in
  ((groq s0 = None
    \/ exists client e, groq s0 = Some client
                        /\ groq_create w client (groqRequest prompt o) = Throw e) ->
   providerOf provider = "auto"%string ->
   steps (trace_of out) = [Attempt Groq; Attempt Gemini]
   \/ steps (trace_of out) = [Attempt Groq; Attempt Gemini; Template])
  /\ (forall client cc,
        groq s0 = Some client ->
        groq_create w client (groqRequest prompt o) = Return cc ->
        messageContent cc = None ->
        usesGroq (providerOf provider) = true ->
        result_of out
        = {| success := true;
             content := CText (match choiceText cc with
                               | Some t => t
                               | None => ""%string
                               end);
             error := None; usage := cc_usage cc; fallback := false |}
        /\ steps (trace_of out) = [Attempt Groq]).
Proof.
  intros s0 out.
  pose proof (generate_cases w prompt provider o s) as H. cbv zeta in H.
  fold s0 in H. fold out in H.
  pose proof (generateWithGroq_result w prompt o s0
                (initializeServices_initialized w s)) as HR.
  set (g := generateWithGroq w prompt o s0) in *.
  split.
  - intros Hfail Hauto.
    assert (Eg : success (result_of g) = false).
    { rewrite HR. destruct Hfail as [->|(client & e & -> & ->)]; reflexivity. }
    rewrite Eg, andb_false_r in H. rewrite Hauto in H. simpl in H.
    destruct (success _) in H; destruct H as [_ ->]; auto.
  - intros client cc Hc Hcc Hm Hu.
    rewrite Hc, Hcc in HR. rewrite HR, Hu in H. simpl in H.
    rewrite (groqContent_without_message cc Hm) in H. exact H.
Qed.

Lemma groq_failure_and_invalid_shape_witness :
  (let out := generate unreachable "hello" (Some "auto"%string) noOptions constructor in
   steps (trace_of out) = [Attempt Groq; Attempt Gemini]
   \/ steps (trace_of out) = [Attempt Groq; Attempt Gemini; Template])
  /\ (let out := generate shapeless "hello" None noOptions constructor in
      result_of out
      = {| success := true; content := CText ""; error := None; usage := None;
           fallback := false |}
      /\ steps (trace_of out) = [Attempt Groq]).
Proof.
  split.
  - apply (groq_failure_and_invalid_shape unreachable "hello" (Some "auto"%string)
             noOptions constructor); [|reflexivity].
    right. exists (mkGroq "gsk_test"), refused. split; reflexivity.
  - apply (proj2 (groq_failure_and_invalid_shape shapeless "hello" None
                    noOptions constructor)
             (mkGroq "gsk_test") (mkChatCompletion None None));
      reflexivity.
Defined.

(** *** The fallback study plan *)

Lemma daysFrom_length (d : Z) (k : nat) : List.length (daysFrom d k) = k.
Proof. revert d; induction k; simpl; intros; auto. Qed.

Lemma daysFrom_nth (k : nat) : forall (d : Z) (i : nat),
  (i < k)%nat -> nth_error (daysFrom d k) i = Some (d + Z.of_nat i)%Z.
Proof.
  induction k as [|k IH]; intros d i Hi; [lia|].
  destruct i as [|i]; simpl.
  - f_equal; lia.
  - rewrite IH by lia. f_equal; lia.
Qed.

Lemma daysFrom_seq (k : nat) : forall (a : nat),
  daysFrom (Z.of_nat a) k = map Z.of_nat (seq a k).
Proof.
  induction k as [|k IH]; intros a; simpl; [reflexivity|].
  f_equal. rewrite <- IH. f_equal. lia.
Qed.

(** The loop appends one entry per remaining day. *)
Lemma planLoop_spec (subject level learningStyle : value) (n d : Z)
  (plan : list DayPlan) :
  planLoop subject level learningStyle n d plan
  = plan ++ map (fun k => dayEntry subject level learningStyle (difficulty n k) k)
              (daysFrom d (Z.to_nat (n + 1 - d))).
Proof.
  funelim (planLoop subject level learningStyle n d plan).
  - rewrite H. rewrite <- app_assoc. f_equal.
    replace (Z.to_nat (durationInDays + 1 - d))
      with (S (Z.to_nat (durationInDays + 1 - (d + 1)))) by lia.
    reflexivity.
  - replace (Z.to_nat (durationInDays + 1 - d)) with O by lia.
    simpl. rewrite app_nil_r. reflexivity.
Qed.

Lemma Qle_third (d m : Z) :
  Qle_bool (inject_Z d) (inject_Z m / 3)%Q = (3 * d <=? m)%Z.
Proof.
  remember (3 * d)%Z as x eqn:Ex.
  unfold Qle_bool, Qdiv, Qmult, Qinv, inject_Z. simpl.
  apply Bool.eq_true_iff_eq. rewrite !Z.leb_le. lia.
Qed.

Lemma difficulty_cases (n d : Z) :
  difficulty n d =
  if (3 * d <=? n)%Z then "Basic"%string
  else if (3 * d <=? 2 * n)%Z then "Intermediate"%string
  else "Advanced"%string.
Proof.
  unfold difficulty. rewrite !Qle_third.
  replace (n * 2)%Z with (2 * n)%Z by lia. reflexivity.
Qed.

(** C6. For [durationInDays >= 1] the fallback study plan has exactly
    [durationInDays] entries, their [day] fields are 1, 2, ...,
    [durationInDays] in this order, and the entry of day [d] is the fixed
    template with the subject interpolated and the difficulty word
    ['Basic'] when [d <= durationInDays / 3], ['Intermediate'] when
    [d <= 2 * durationInDays / 3], and ['Advanced'] otherwise. *)
Theorem fallback_study_plan_shape (subject level learningStyle : value)
  (durationInDays : Z) :
  (1 <= durationInDays)%Z ->
  let plan := generateFallbackStudyPlan subject level (Some durationInDays)
                learningStyle in
  Z.of_nat (List.length plan) = durationInDays
  /\ map day plan = map Z.of_nat (seq 1 (Z.to_nat durationInDays))
  /\ forall d : Z, (1 <= d <= durationInDays)%Z ->
       exists word : string,
         nth_error plan (Z.to_nat (d - 1))
         = Some (dayEntry subject level learningStyle word d)
         /\ title (dayEntry subject level learningStyle word d)
            = ("Day " ++ decimal d ++ ": " ++ toString subject ++ " - " ++ word
               ++ " Concepts")%string
         /\ (((inject_Z d <= inject_Z durationInDays / 3)%Q
              /\ word = "Basic"%string)
             \/ (~ (inject_Z d <= inject_Z durationInDays / 3)%Q
                 /\ (inject_Z d <= 2 * inject_Z durationInDays / 3)%Q
                 /\ word = "Intermediate"%string)
             \/ (~ (inject_Z d <= inject_Z durationInDays / 3)%Q
                 /\ ~ (inject_Z d <= 2 * inject_Z durationInDays / 3)%Q
                 /\ word = "Advanced"%string)).
Proof.
  intros Hn plan. subst plan. unfold generateFallbackStudyPlan.
  rewrite planLoop_spec. simpl app.
  replace (durationInDays + 1 - 1)%Z with durationInDays by lia.
  split; [|split].
  - rewrite length_map, daysFrom_length. lia.
  - rewrite map_map. simpl. rewrite map_id. apply (daysFrom_seq _ 1%nat).
  - intros d Hd. exists (difficulty durationInDays d).
    split; [|split].
    + rewrite nth_error_map, daysFrom_nth by lia.
      replace (1 + Z.of_nat (Z.to_nat (d - 1)))%Z with d by lia. reflexivity.
    + reflexivity.
    + rewrite difficulty_cases.
      assert (A : (inject_Z d <= inject_Z durationInDays / 3)%Q
                  <-> (3 * d <= durationInDays)%Z).
      { unfold Qle, Qdiv, Qmult, Qinv, inject_Z. cbn [Qnum Qden Pos.mul]. lia. }
      assert (B : (inject_Z d <= 2 * inject_Z durationInDays / 3)%Q
                  <-> (3 * d <= 2 * durationInDays)%Z).
      { unfold Qle, Qdiv, Qmult, Qinv, inject_Z. cbn [Qnum Qden Pos.mul]. lia. }
      rewrite A, B.
      destruct (Z.leb_spec (3 * d) durationInDays);
        destruct (Z.leb_spec (3 * d) (2 * durationInDays));
        [ left; split; [lia|reflexivity]
        | left; split; [lia|reflexivity]
        | right; left; repeat split; [lia|lia]
        | right; right; repeat split; [lia|lia] ].
Qed.

Lemma fallback_study_plan_shape_witness :
  let plan := generateFallbackStudyPlan (VStr "Math") (VStr "beginner") (Some 4%Z)
                (VStr "visual") in
  Z.of_nat (List.length plan) = 4%Z
  /\ map day plan = [1; 2; 3; 4]%Z
  /\ map title plan
     = [ "Day 1: Math - Basic Concepts"; "Day 2: Math - Intermediate Concepts";
         "Day 3: Math - Advanced Concepts"; "Day 4: Math - Advanced Concepts" ]%string.
Proof.
  destruct (fallback_study_plan_shape (VStr "Math") (VStr "beginner")
              (VStr "visual") 4%Z ltac:(lia)) as (Hlen & Hdays & _).
  split; [exact Hlen|]. split; [exact Hdays|]. reflexivity.
Defined.

(** *** Determinism of the synthesized content *)

Lemma steps_keeps_template (t : list Event) : In Template t -> In Template (steps t).
Proof.
  induction t as [|e t IH]; simpl; [tauto|].
  destruct e; simpl; intuition discriminate.
Qed.

(** A run of [generate] that is flagged as fallback, or that synthesized
    the template, returns the template result of its prompt. *)
Lemma generate_template (w : World) (prompt : string) (provider : option string)
  (o : Options) (s : Service) :
  let out := generate w prompt provider o s in
  fallback (result_of out) = true \/ In Template (trace_of out) ->
  result_of out = templateResult prompt.
Proof.
  intros out Hf.
  assert (Hf' : fallback (result_of out) = true \/ In Template (steps (trace_of out))).
  { destruct Hf; auto using steps_keeps_template. }
  clear Hf.
  pose proof (generate_cases w prompt provider o s) as H. cbv zeta in H.
  fold out in H.
  set (s0 := state_of (initializeServices w s)) in *.
  set (g := generateWithGroq w prompt o s0) in *.
  set (s1 := if usesGroq (providerOf provider) then state_of g else s0) in *.
  set (m := generateWithGemini w prompt o s1) in *.
  destruct (generateWithGroq_shape w prompt o s0) as [_ HG].
  destruct (generateWithGemini_shape w prompt o s1) as [_ HM].
  fold g in HG. fold m in HM.
  destruct (usesGroq (providerOf provider) && success (result_of g)) eqn:EG.
  - apply andb_prop in EG. destruct EG as [_ EG]. destruct (HG EG) as [_ F].
    destruct H as [Hr Ht]. rewrite Hr, Ht in Hf'. rewrite F in Hf'.
    simpl in Hf'. intuition discriminate.
  - destruct (usesGemini (providerOf provider) && success (result_of m)) eqn:EM.
    + apply andb_prop in EM. destruct EM as [_ EM]. destruct (HM EM) as [_ F].
      destruct H as [Hr Ht]. rewrite Hr, Ht in Hf'. rewrite F in Hf'.
      unfold only in Hf'. destruct (usesGroq _); simpl in Hf'; intuition discriminate.
    + apply H.
Qed.

(** [generateDetailedStudyPlan] with its sequencing spelled out. *)
Lemma generateDetailedStudyPlan_unfold (w : World) (parseInt : string -> option Z)
  (toLowerCase : string -> string) (subject level : value)
  (duration : option string) (learningStyle : value) (s : Service) :
  generateDetailedStudyPlan w parseInt toLowerCase subject level duration
    learningStyle s =
  let n := parseDuration parseInt toLowerCase duration in
  let '(r, s1, t1) :=
    generate w (studyPlanPrompt n subject level learningStyle) (Some "auto"%string)
      (mkOptions None (Some 4000%Z) None None) s in
  if success r && negb (fallback r) then (r, s1, t1 ++ [])
  else
    ({| success := true;
        content := CPlan (generateFallbackStudyPlan subject level (Some n)
                            learningStyle);
        error := None; usage := None; fallback := false |},
     s1, t1 ++ []).
Proof.
  unfold generateDetailedStudyPlan. cbv zeta. unfold bind, ret.
  destruct (generate w _ (Some "auto"%string) _ s) as [[r s1] t1].
  destruct (success r && negb (fallback r)); reflexivity.
Qed.

(** C5. The synthesized content is a function of the arguments alone: two
    runs of [generate] on the same prompt that both fall back return the
    same content, whatever the surroundings, the service state, the provider
    argument and the options of each run; likewise two runs of
    [generateQuizQuestions] and of [generateDetailedStudyPlan] on the same
    arguments that both synthesize the template return the same quiz and the
    same plan. *)
Theorem fallback_content_deterministic (w1 w2 : World) (s1 s2 : Service) :
  (forall prompt p1 p2 o1 o2,
     let r1 := result_of (generate w1 prompt p1 o1 s1) in
     let r2 := result_of (generate w2 prompt p2 o2 s2) in
     fallback r1 = true -> fallback r2 = true ->
     content r1 = content r2 /\ content r1 = generateStructuredFallback prompt)
  /\ (forall topic difficulty count,
        let q1 := generateQuizQuestions w1 topic difficulty count s1 in
        let q2 := generateQuizQuestions w2 topic difficulty count s2 in
        In Template (trace_of q1) -> In Template (trace_of q2) ->
        content (result_of q1) = content (result_of q2))
  /\ (forall parseInt toLowerCase subject level duration learningStyle,
        let d1 := generateDetailedStudyPlan w1 parseInt toLowerCase subject level
                    duration learningStyle s1 in
        let d2 := generateDetailedStudyPlan w2 parseInt toLowerCase subject level
                    duration learningStyle s2 in
        In Template (trace_of d1) -> In Template (trace_of d2) ->
        content (result_of d1) = content (result_of d2)).
Proof.
  split; [|split].
  - intros prompt p1 p2 o1 o2 r1 r2 H1 H2. subst r1 r2.
    rewrite (generate_template w1 prompt p1 o1 s1) by (left; exact H1).
    rewrite (generate_template w2 prompt p2 o2 s2) by (left; exact H2).
    split; reflexivity.
  - assert (Q : forall w s topic difficulty count,
              In Template (trace_of (generateQuizQuestions w topic difficulty count s)) ->
              content (result_of (generateQuizQuestions w topic difficulty count s))
              = CQuiz (generateFallbackQuiz topic difficulty
                         (Some (match count with Some c => c | None => 10%Z end)))).
    { clear. intros w s topic difficulty count.
      rewrite generateQuizQuestions_unfold. cbv zeta.
      set (n := match count with Some c => c | None => 10%Z end).
      pose proof (initializeServices_steps w s) as Hinit.
      destruct (initializeServices w s) as [[[] s0] t0].
      unfold trace_of in Hinit; simpl in Hinit.
      pose proof (generate_template w (quizPrompt n difficulty topic)
                    (Some "gemini"%string) (mkOptions None (Some 2000%Z) None None) s0)
        as HT. cbv zeta in HT.
      destruct (generate w (quizPrompt n difficulty topic) (Some "gemini"%string)
                  (mkOptions None (Some 2000%Z) None None) s0) as [[r sr] tr].
      unfold result_of, trace_of in HT |- *; simpl in HT.
      destruct (success r && negb (fallback r)) eqn:E; simpl; [|reflexivity].
      intros Hin. exfalso.
      assert (Hs : In Template (steps (t0 ++ Log Info
                ("Generating " ++ decimal n ++ " " ++ toString difficulty
                 ++ " quiz questions for " ++ toString topic) :: tr ++ [])))
        by (apply steps_keeps_template; exact Hin).
      rewrite steps_app, Hinit in Hs. simpl in Hs. rewrite app_nil_r in Hs.
      apply steps_In in Hs. rewrite (HT (or_intror Hs)) in E. discriminate. }
    intros topic difficulty count q1 q2 H1 H2. subst q1 q2.
    rewrite (Q w1 s1), (Q w2 s2) by assumption. reflexivity.
  - assert (P : forall w s parseInt toLowerCase subject level duration learningStyle,
              In Template (trace_of (generateDetailedStudyPlan w parseInt toLowerCase
                                       subject level duration learningStyle s)) ->
              content (result_of (generateDetailedStudyPlan w parseInt toLowerCase
                                    subject level duration learningStyle s))
              = CPlan (generateFallbackStudyPlan subject level
                         (Some (parseDuration parseInt toLowerCase duration))
                         learningStyle)).
    { clear. intros w s parseInt toLowerCase subject level duration learningStyle.
      rewrite generateDetailedStudyPlan_unfold. cbv zeta.
      set (n := parseDuration parseInt toLowerCase duration).
      pose proof (generate_template w (studyPlanPrompt n subject level learningStyle)
                    (Some "auto"%string) (mkOptions None (Some 4000%Z) None None) s)
        as HT. cbv zeta in HT.
      destruct (generate w (studyPlanPrompt n subject level learningStyle)
                  (Some "auto"%string) (mkOptions None (Some 4000%Z) None None) s)
        as [[r sr] tr].
      unfold result_of, trace_of in HT |- *; simpl in HT.
      destruct (success r && negb (fallback r)) eqn:E; simpl; [|reflexivity].
      rewrite app_nil_r. intros Hin.
      rewrite (HT (or_intror Hin)) in E. discriminate. }
    intros parseInt toLowerCase subject level duration learningStyle d1 d2 H1 H2.
    subst d1 d2. rewrite (P w1 s1), (P w2 s2) by assumption. reflexivity.
Qed.

Lemma fallback_content_deterministic_witness :
  content (result_of (generate offline "explain recursion" None noOptions constructor))
  = content (result_of (generate unreachable "explain recursion" (Some "auto"%string)
                          (mkOptions None (Some 1500%Z) None None)
                          (mkService (Some (mkGroq "gsk_old")) None true)))
  /\ content (result_of (generateQuizQuestions offline (VStr "graphs") (VStr "easy")
                           (Some 2%Z) constructor))
     = content (result_of (generateQuizQuestions unreachable (VStr "graphs")
                             (VStr "easy") (Some 2%Z)
                             (mkService (Some (mkGroq "gsk_old")) None true))).
Proof.
  pose proof (fallback_content_deterministic offline unreachable constructor
                (mkService (Some (mkGroq "gsk_old")) None true)) as (G & Q & _).
  split.
  - apply (G "explain recursion"%string None (Some "auto"%string) noOptions
             (mkOptions None (Some 1500%Z) None None)); reflexivity.
  - apply (Q (VStr "graphs") (VStr "easy") (Some 2%Z));
      cbv; tauto.
Defined.

(** *** Runs on concrete surroundings *)

Example gemini_alone_answers :
  result_of (generate shapeless "hi" (Some "gemini"%string) noOptions constructor)
  = {| success := true; content := CText "from Gemini"; error := None;
       usage := None; fallback := false |}.
Proof. reflexivity. Qed.

Example quiz_falls_back_to_two_questions :
  content (result_of (generateQuizQuestions unreachable (VStr "graphs") (VStr "easy")
                        (Some 2%Z) constructor))
  = CQuiz [quizEntry (VStr "graphs") (VStr "easy") 1;
           quizEntry (VStr "graphs") (VStr "easy") 2].
Proof. reflexivity. Qed.

Example study_plan_prompt_falls_back_to_empty_plan :
  generateStructuredFallback "Create a study plan" = CPlan [].
Proof. reflexivity. Qed.

End AIServiceFacts.

(** ** Properties of the study-group model *)

Module StudyGroupFacts.
Import StudyGroup.

(** *** Chat history *)

Lemma slice_last_length {A : Type} (k : nat) (l : list A) :
  List.length (slice_last k l) = Nat.min k (List.length l).
Proof. unfold slice_last. rewrite length_skipn. lia. Qed.

Lemma slice_last_suffix {A : Type} (k : nat) (l : list A) :
  firstn (List.length l - k) l ++ slice_last k l = l.
Proof. unfold slice_last. apply firstn_skipn. Qed.

Lemma slice_last_snoc {A : Type} (k : nat) (l : list A) (x : A) :
  slice_last (S k) (l ++ [x]) = slice_last k l ++ [x].
Proof.
  unfold slice_last. rewrite length_app. simpl.
  replace (List.length l + 1 - S k)%nat with (List.length l - k)%nat by lia.
  rewrite skipn_app.
  replace (List.length l - k - List.length l)%nat with O by lia.
  reflexivity.
Qed.

(** C9. After [addChatMessage] the chat history holds at most 1000
    messages: it is the history with the new message pushed at its end, cut
    from the front, in the same order, to its 1000 newest entries. *)
Theorem chat_history_bounded (save : Group -> Exc unit) (userId : ObjectId)
  (content : option string) (type : option string) (now : Date) (g : Group) :
  let g' := snd (addChatMessage save userId content type now g) in
  let message :=
    mkChatMessage userId content
      (match type with Some t => t | None => "text"%string end) now in
  (List.length (g_messages g') <= 1000)%nat
  /\ List.length (g_messages g') = Nat.min 1000 (List.length (g_messages g) + 1)
  /\ (exists dropped, g_messages g ++ [message] = dropped ++ g_messages g')
  /\ g_messages g' = slice_last 999 (g_messages g) ++ [message].
Proof.
  intros g' message. subst g'. unfold addChatMessage. cbn [snd].
  fold message. unfold withMessages. cbn [g_messages].
  set (pushed := g_messages g ++ [message]).
  assert (Hlen : List.length pushed = (List.length (g_messages g) + 1)%nat).
  { subst pushed. rewrite length_app. reflexivity. }
  destruct (Nat.ltb_spec 1000 (List.length pushed)) as [Hgt|Hle].
  - rewrite slice_last_length.
    split; [lia|]. split; [lia|]. split.
    + exists (firstn (List.length pushed - 1000) pushed).
      symmetry. apply slice_last_suffix.
    + subst pushed. apply (slice_last_snoc 999).
  - split; [lia|]. split; [lia|]. split.
    + exists []. reflexivity.
    + subst pushed. unfold slice_last.
      replace (List.length (g_messages g) - 999)%nat with O by lia. reflexivity.
Qed.

(** *** Session attendance *)

Lemma sessionById_In (sessionId : ObjectId) (ss : list Session) (x : Session) :
  sessionById sessionId ss = Some x -> In x ss /\ s_id x = sessionId.
Proof.
  induction ss as [|y ss IH]; simpl; [discriminate|].
  destruct (String.eqb_spec (s_id y) sessionId) as [E|N].
  - intros H; inversion H; subst. auto.
  - intros H. destruct (IH H). auto.
Qed.

Lemma sessionById_write (sessionId : ObjectId) (ss : list Session) (x x' : Session) :
  sessionById sessionId ss = Some x -> s_id x' = sessionId ->
  sessionById sessionId (writeSession sessionId x' ss) = Some x'.
Proof.
  intros H E. induction ss as [|y ss IH]; simpl in *; [discriminate|].
  destruct (String.eqb_spec (s_id y) sessionId) as [Ey|Ny]; simpl.
  - rewrite E, String.eqb_refl. reflexivity.
  - destruct (String.eqb_spec (s_id y) sessionId); [contradiction|]. auto.
Qed.

Lemma writeSession_In (sessionId : ObjectId) (x' : Session) (ss : list Session)
  (y : Session) :
  In y (writeSession sessionId x' ss) -> In y ss \/ y = x'.
Proof.
  induction ss as [|z ss IH]; simpl; [tauto|].
  destruct (s_id z =? sessionId)%string; simpl; intuition.
Qed.

Lemma find_none_filter {A : Type} (p : A -> bool) (l : list A) :
  find p l = None -> filter p l = [].
Proof.
  induction l as [|a l IH]; simpl; [reflexivity|].
  destruct (p a); [discriminate|]. exact IH.
Qed.

Lemma find_some_filter {A : Type} (p : A -> bool) (l : list A) (a : A) :
  find p l = Some a -> (1 <= List.length (filter p l))%nat.
Proof.
  induction l as [|b l IH]; simpl; [discriminate|].
  destruct (p b); simpl; [lia|]. exact IH.
Qed.

Lemma distinct_at_most_one (userId : ObjectId) (atts : list Attendee) :
  NoDup (map a_user atts) ->
  (List.length (filter (fun a => sameUser userId (a_user a)) atts) <= 1)%nat.
Proof.
  induction atts as [|a atts IH]; simpl; [lia|].
  intros H. inversion H as [|u us Hnot Hrest]; subst.
  unfold sameUser at 1. destruct (String.eqb_spec (a_user a) userId) as [E|N]; simpl.
  - assert (Z0 : filter (fun a0 => sameUser userId (a_user a0)) atts = []).
    { clear IH H Hrest. induction atts as [|b atts IHb]; simpl; [reflexivity|].
      unfold sameUser at 1.
      destruct (String.eqb_spec (a_user b) userId) as [Eb|Nb].
      - exfalso. apply Hnot. simpl. left. congruence.
      - apply IHb. intros Hin. apply Hnot. simpl. right. exact Hin. }
    rewrite Z0. simpl. lia.
  - apply IH. exact Hrest.
Qed.

Lemma find_none_not_in (userId : ObjectId) (atts : list Attendee) :
  find (fun a => sameUser userId (a_user a)) atts = None ->
  ~ In userId (map a_user atts).
Proof.
  induction atts as [|a atts IH]; simpl; [tauto|].
  unfold sameUser at 1. destruct (String.eqb_spec (a_user a) userId) as [E|N];
    [discriminate|].
  intros H [Hin|Hin]; [contradiction|]. exact (IH H Hin).
Qed.

Lemma NoDup_snoc {A : Type} (l : list A) (x : A) :
  NoDup l -> ~ In x l -> NoDup (l ++ [x]).
Proof.
  intros Hl Hx. induction Hl as [|y l Hy Hl IH]; simpl.
  - constructor; [simpl; tauto|constructor].
  - constructor.
    + rewrite in_app_iff. simpl. intros [H|[H|[]]]; [contradiction|].
      subst. apply Hx. simpl. auto.
    + apply IH. intros H. apply Hx. simpl. auto.
Qed.

Lemma joinSession_found (save : Group -> Exc unit) (sessionId userId : ObjectId)
  (joinedAt now : Date) (g : Group) (x : Session) :
  sessionById sessionId (g_sessions g) = Some x ->
  exists x',
    g_sessions (snd (joinSession save sessionId userId joinedAt now g))
    = writeSession sessionId x' (g_sessions g)
    /\ sessionById sessionId
         (g_sessions (snd (joinSession save sessionId userId joinedAt now g)))
       = Some x'
    /\ s_id x' = sessionId
    /\ s_attendees x' = joined userId joinedAt x.
Proof.
  intros Hx. unfold joinSession. rewrite Hx. cbn [snd].
  unfold withSessions. cbn [g_sessions].
  destruct (sessionById_In _ _ _ Hx) as [_ Hid].
  match goal with |- context [writeSession sessionId ?y _] => set (x' := y) end.
  assert (Hid' : s_id x' = sessionId).
  { subst x'. destruct (find _ _); destruct (_ && _); simpl; exact Hid. }
  assert (Hat : s_attendees x' = joined userId joinedAt x).
  { subst x'. unfold joined.
    destruct (find _ _); destruct (_ && _); reflexivity. }
  exists x'. split; [reflexivity|]. split; [|auto].
  apply (sessionById_write _ _ x); assumption.
Qed.

Lemma joined_distinct (userId : ObjectId) (joinedAt : Date) (x : Session) :
  NoDup (map a_user (s_attendees x)) ->
  NoDup (map a_user (joined userId joinedAt x)).
Proof.
  intros H. unfold joined.
  destruct (find _ _) eqn:F; [exact H|].
  rewrite map_app. simpl. apply NoDup_snoc; [exact H|].
  apply find_none_not_in. exact F.
Qed.

(** Every group the model's operations produce lists each user at most
    once per session. *)
Lemma reachable_distinct (g : Group) : reachable g -> distinctAttendees g.
Proof.
  induction 1 as [g Hnil
                 |save data createdBy newId roomId picks now g Hg IH
                 |save sessionId userId joinedAt now g Hg IH
                 |save sessionId endedBy now g Hg IH
                 |g g' Hg IH Hsame]; unfold distinctAttendees in *.
  - rewrite Hnil. simpl. tauto.
  - unfold scheduleSession. cbn [snd]. intros x.
    destruct (earliestUpcoming _ _); unfold withNextSession, withSessions;
      cbn [g_sessions]; rewrite in_app_iff; simpl;
      (intros [Hin | [ <- | [] ] ]; [apply IH; exact Hin|simpl; constructor]).
  - destruct (sessionById sessionId (g_sessions g)) as [x|] eqn:Hx.
    + destruct (joinSession_found save sessionId userId joinedAt now g x Hx)
        as (x' & Hss & _ & _ & Hat).
      rewrite Hss. intros y Hy.
      destruct (writeSession_In _ _ _ _ Hy) as [Hin | ->]; [apply IH; exact Hin|].
      rewrite Hat. apply joined_distinct. apply IH.
      apply (sessionById_In _ _ _ Hx).
    + unfold joinSession. rewrite Hx. cbn [snd]. exact IH.
  - unfold endSession.
    destruct (sessionById sessionId (g_sessions g)) as [x|] eqn:Hx; cbn [snd];
      [|exact IH].
    destruct (negb _); cbn [snd]; [exact IH|].
    unfold withSessions. cbn [g_sessions]. intros y Hy.
    destruct (writeSession_In _ _ _ _ Hy) as [Hin | ->]; [apply IH; exact Hin|].
    simpl. rewrite map_map. simpl. apply IH. apply (sessionById_In _ _ _ Hx).
  - rewrite Hsame. exact IH.
Qed.

(** C10. Joining a session twice leaves its attendee list as a single join
    leaves it; in every group the model's operations produce, that list has
    exactly one entry for the user. *)
Theorem joinSession_twice (save1 save2 : Group -> Exc unit)
  (sessionId userId : ObjectId) (joinedAt1 now1 joinedAt2 now2 : Date)
  (g : Group) (x : Session) :
  sessionById sessionId (g_sessions g) = Some x ->
  let once := snd (joinSession save1 sessionId userId joinedAt1 now1 g) in
  let twice := snd (joinSession save2 sessionId userId joinedAt2 now2 once) in
  exists x1 x2,
    sessionById sessionId (g_sessions once) = Some x1
    /\ sessionById sessionId (g_sessions twice) = Some x2
    /\ s_attendees x2 = s_attendees x1
    /\ (1 <= List.length (entriesOf userId x2))%nat
    /\ (reachable g -> List.length (entriesOf userId x2) = 1%nat).
Proof.
  intros Hx once twice.
  destruct (joinSession_found save1 sessionId userId joinedAt1 now1 g x Hx)
    as (x1 & _ & Hx1 & _ & Hat1).
  fold once in Hx1.
  destruct (joinSession_found save2 sessionId userId joinedAt2 now2 once x1 Hx1)
    as (x2 & _ & Hx2 & _ & Hat2).
  fold twice in Hx2.
  exists x1, x2. split; [exact Hx1|]. split; [exact Hx2|].
  assert (Hge : (1 <= List.length (entriesOf userId x1))%nat).
  { unfold entriesOf. rewrite Hat1. unfold joined.
    destruct (find _ (s_attendees x)) eqn:F.
    - apply (find_some_filter _ _ _ F).
    - rewrite filter_app, (find_none_filter _ _ F). simpl.
      unfold sameUser. rewrite String.eqb_refl. simpl. lia. }
  assert (Hsame : s_attendees x2 = s_attendees x1).
  { rewrite Hat2. unfold joined.
    destruct (find _ (s_attendees x1)) eqn:F; [reflexivity|].
    apply find_none_filter in F. unfold entriesOf in Hge. rewrite F in Hge.
    simpl in Hge. lia. }
  split; [exact Hsame|].
  unfold entriesOf in *. rewrite Hsame. split; [exact Hge|].
  intros Hreach.
  pose proof (reachable_distinct g Hreach x (proj1 (sessionById_In _ _ _ Hx))) as Hd.
  apply (joined_distinct userId joinedAt1) in Hd. rewrite <- Hat1 in Hd.
  pose proof (distinct_at_most_one userId _ Hd). lia.
Qed.

Lemma joinSession_twice_witness :
  let once := snd (joinSession accepting "s1"%string "u2"%string 120%Z 121%Z withOneSession) in
  let twice := snd (joinSession accepting "s1"%string "u2"%string 130%Z 131%Z once) in
  exists x1 x2,
    sessionById "s1"%string (g_sessions once) = Some x1
    /\ sessionById "s1"%string (g_sessions twice) = Some x2
    /\ s_attendees x2 = s_attendees x1
    /\ List.length (entriesOf "u2"%string x2) = 1%nat.
Proof.
  destruct (joinSession_twice accepting accepting "s1"%string "u2"%string
              120%Z 121%Z 130%Z 131%Z withOneSession _ eq_refl)
    as (x1 & x2 & H1 & H2 & Hs & _ & Hone).
  exists x1, x2. repeat split; try assumption.
  apply Hone. apply reach_schedule. apply reach_new. reflexivity.
Defined.

End StudyGroupFacts.

(** ** Properties of the study-group controller *)

Module StudyGroupControllerFacts.
Import StudyGroup Http StudyGroupController.

(** *** Thrown errors end the [try] block *)

Lemma tr_ret {A : Type} (a : A) : throwing_raises (ret a).
Proof. intros [e []]. Qed.

Lemma tr_respond {A : Type} (r : Response) : throwing_raises (@respond A r).
Proof. intros [e []]. Qed.

Lemma tr_raise {A : Type} (e : Error) : throwing_raises (@raise A e).
Proof. intros _. exists e. reflexivity. Qed.

Lemma tr_call {A : Type} (o : Exc A) : throwing_raises (call o).
Proof. destruct o; [apply tr_ret|apply tr_raise]. Qed.

Lemma tr_info (line : string) : throwing_raises (info line).
Proof. intros [e [H|[]]]. discriminate. Qed.

Lemma tr_unless (c : bool) (r : Response) : throwing_raises (unless c r).
Proof. destruct c; [apply tr_respond|apply tr_ret]. Qed.

Lemma tr_bind {A B : Type} (m : H A) (k : A -> H B) :
  throwing_raises m -> (forall a, throwing_raises (k a)) ->
  throwing_raises (bind m k).
Proof.
  intros Hm Hk. destruct m as [[a|r|e] t]; unfold throwing_raises, events in *;
    simpl in *.
  - specialize (Hk a). destruct (k a) as [o t']. simpl in *.
    intros [e He]. apply in_app_or in He. destruct He as [He|He].
    + destruct Hm as [e' He']; [exists e; exact He|discriminate].
    + apply Hk. exists e. exact He.
  - intros He. destruct (Hm He) as [e' He']. discriminate.
  - intros _. exists e. reflexivity.
Qed.

Create HintDb handlers.
#[local] Hint Resolve tr_ret tr_respond tr_raise tr_call tr_info tr_unless : handlers.

Ltac handler_code :=
  repeat first
    [ progress cbv zeta
    | apply tr_bind; [|intros]
    | solve [auto with handlers]
    | progress unfold populated, lookup, invoke, theSession
    | match goal with
      | |- throwing_raises (match ?x with _ => _ end) => destruct x
      | |- throwing_raises (if ?c then _ else _) => destruct c
      end ].

(** The [catch] turns every thrown error into the generic answer, and a
    block that always answers or throws leaves no other outcome. *)
Lemma tryCatch_boundary (label : string) (body : H Empty_set) :
  throwing_raises body ->
  (exists r, fst (tryCatch label body) = Responded r)
  /\ ((exists e, In (Thrown e) (events (tryCatch label body))) ->
      fst (tryCatch label body) = Responded internalError).
Proof.
  intros Hb. destruct body as [[[]|r|e] t]; unfold throwing_raises, events in *;
    simpl in *.
  - split; [exists r; reflexivity|]. intros He.
    destruct (Hb He) as [e' He']. discriminate.
  - split; [exists internalError|]; reflexivity.
Qed.

Lemma handle_boundary (op : Operation) (w : World) (req : Request) :
  (exists r, fst (handle op w req) = Responded r)
  /\ ((exists e, In (Thrown e) (events (handle op w req))) ->
      fst (handle op w req) = Responded internalError).
Proof.
  destruct op; unfold handle;
    [ unfold createStudyGroup | unfold getStudyGroups | unfold getStudyGroup
    | unfold joinStudyGroup | unfold leaveStudyGroup | unfold updateStudyGroup
    | unfold deleteStudyGroup | unfold getUserStudyGroups | unfold scheduleSession
    | unfold endSession | unfold joinSessionByCode | unfold getSession
    | unfold joinSession | unfold sendChatMessage | unfold getChatMessages ];
    apply tryCatch_boundary; handler_code.
Qed.

(** *** Validation failures *)

Lemma missing_group (op : Operation) (w : World) (req : Request) (paths : list string) :
  loads op = Some paths ->
  findById w paths (params_id req) = Return None ->
  fst (handle op w req) = Responded (refuse 404 "Study group not found").
Proof.
  intros Hl Hf.
  destruct op; simpl in Hl; inversion Hl; subst; clear Hl; unfold handle;
    [ unfold getStudyGroup | unfold joinStudyGroup | unfold leaveStudyGroup
    | unfold updateStudyGroup | unfold deleteStudyGroup | unfold scheduleSession
    | unfold endSession | unfold getSession | unfold joinSession
    | unfold sendChatMessage | unfold getChatMessages ];
    unfold lookup; rewrite Hf; reflexivity.
Qed.

Lemma failing_lookup (op : Operation) (w : World) (req : Request)
  (paths : list string) (e : Error) :
  loads op = Some paths ->
  findById w paths (params_id req) = Throw e ->
  In (Thrown e) (events (handle op w req)).
Proof.
  intros Hl Hf.
  destruct op; simpl in Hl; inversion Hl; subst; clear Hl; unfold handle;
    [ unfold getStudyGroup | unfold joinStudyGroup | unfold leaveStudyGroup
    | unfold updateStudyGroup | unfold deleteStudyGroup | unfold scheduleSession
    | unfold endSession | unfold getSession | unfold joinSession
    | unfold sendChatMessage | unfold getChatMessages ];
    unfold lookup; rewrite Hf; simpl; auto.
Qed.

Lemma missing_name_or_subject (w : World) (req : Request) :
  truthy (body_name req) = false \/ truthy (body_subject req) = false ->
  fst (createStudyGroup w req) = Responded (refuse 400 "Name and subject are required").
Proof.
  intros H. unfold createStudyGroup.
  destruct (body_name req) as [name|] eqn:En; [|reflexivity].
  destruct (body_subject req) as [subject|] eqn:Es; [|reflexivity].
  assert (C : negb (truthy (Some name)) || negb (truthy (Some subject)) = true).
  { destruct H as [-> | ->]; simpl; auto using orb_true_r. }
  rewrite C. reflexivity.
Qed.

Lemma already_member (w : World) (req : Request) (g : Group) :
  findById w [] (params_id req) = Return (Some g) ->
  existsb (isUser (userId req)) (g_members g) = true ->
  fst (joinStudyGroup w req) = Responded (refuse 400 "Already a member of this group").
Proof.
  intros Hf Hm. unfold joinStudyGroup, lookup. rewrite Hf. simpl.
  rewrite Hm. reflexivity.
Qed.

Lemma group_full (w : World) (req : Request) (g : Group) :
  findById w [] (params_id req) = Return (Some g) ->
  existsb (isUser (userId req)) (g_members g) = false ->
  (maxMembers (g_settings g) <= Z.of_nat (List.length (g_members g)))%Z ->
  fst (joinStudyGroup w req) = Responded (refuse 400 "Study group is full").
Proof.
  intros Hf Hm Hfull. unfold joinStudyGroup, lookup. rewrite Hf. simpl.
  rewrite Hm. simpl. apply Z.leb_le in Hfull. rewrite Hfull. reflexivity.
Qed.

Lemma failing_save_create (w : World) (req : Request) (e : Error) :
  truthy (body_name req) = true -> truthy (body_subject req) = true ->
  (forall d, save w d = Throw e) ->
  fst (createStudyGroup w req) = Responded internalError.
Proof.
  intros Hn Hs Hsave. unfold createStudyGroup.
  destruct (body_name req) as [name|]; [|discriminate].
  destruct (body_subject req) as [subject|]; [|discriminate].
  rewrite Hn, Hs. cbn [negb orb unless bind ret]. rewrite Hsave. reflexivity.
Qed.

Lemma failing_save_join (w : World) (req : Request) (g : Group) (e : Error) :
  findById w [] (params_id req) = Return (Some g) ->
  existsb (isUser (userId req)) (g_members g) = false ->
  (Z.of_nat (List.length (g_members g)) < maxMembers (g_settings g))%Z ->
  isPrivate (g_settings g) = false ->
  (forall d, save w d = Throw e) ->
  fst (joinStudyGroup w req) = Responded internalError.
Proof.
  intros Hf Hm Hroom Hp Hsave. unfold joinStudyGroup, lookup. rewrite Hf.
  cbn [bind call ret]. rewrite Hm. cbn [unless bind ret].
  rewrite (proj2 (Z.leb_gt _ _) Hroom). cbn [unless bind ret].
  rewrite Hp. cbn [unless bind ret]. rewrite Hsave. reflexivity.
Qed.

(** Every operation of the study-group controller answers: no thrown
    error leaves the handler.  When an operation it awaits throws, the
    answer is status 500 with [success = false] and the generic message;
    in particular when loading the group throws, and when saving the new
    or the joined group throws.  A missing name or subject and a full
    group answer 400 with their message, and a group that is not found
    answers 404.  The membership check of [joinStudyGroup] answers 400
    when it finds the user, which it can only when [req.userId] is a
    string. *)
Theorem controller_error_boundary (op : Operation) (w : World) (req : Request) :
  (exists r, fst (handle op w req) = Responded r)
  /\ ((exists e, In (Thrown e) (events (handle op w req))) ->
      fst (handle op w req)
      = Responded (mkResponse 500 false (Some "Internal server error"%string) NoData))
  /\ (forall paths e,
        loads op = Some paths ->
        findById w paths (params_id req) = Throw e ->
        fst (handle op w req)
        = Responded (mkResponse 500 false (Some "Internal server error"%string) NoData))
  /\ (forall paths,
        loads op = Some paths ->
        findById w paths (params_id req) = Return None ->
        fst (handle op w req)
        = Responded (mkResponse 404 false (Some "Study group not found"%string) NoData))
  /\ (op = CreateStudyGroup ->
      truthy (body_name req) = false \/ truthy (body_subject req) = false ->
      fst (handle op w req)
      = Responded (mkResponse 400 false (Some "Name and subject are required"%string)
                     NoData))
  /\ (forall g,
        op = JoinStudyGroup ->
        findById w [] (params_id req) = Return (Some g) ->
        existsb (isUser (userId req)) (g_members g) = true ->
        fst (handle op w req)
        = Responded (mkResponse 400 false (Some "Already a member of this group"%string)
                       NoData))
  /\ (forall g,
        op = JoinStudyGroup ->
        findById w [] (params_id req) = Return (Some g) ->
        existsb (isUser (userId req)) (g_members g) = false ->
        (maxMembers (g_settings g) <= Z.of_nat (List.length (g_members g)))%Z ->
        fst (handle op w req)
        = Responded (mkResponse 400 false (Some "Study group is full"%string) NoData))
  /\ (forall e,
        op = CreateStudyGroup ->
        truthy (body_name req) = true -> truthy (body_subject req) = true ->
        (forall d, save w d = Throw e) ->
        fst (handle op w req)
        = Responded (mkResponse 500 false (Some "Internal server error"%string) NoData))
  /\ (forall g e,
        op = JoinStudyGroup ->
        findById w [] (params_id req) = Return (Some g) ->
        existsb (isUser (userId req)) (g_members g) = false ->
        (Z.of_nat (List.length (g_members g)) < maxMembers (g_settings g))%Z ->
        isPrivate (g_settings g) = false ->
        (forall d, save w d = Throw e) ->
        fst (handle op w req)
        = Responded (mkResponse 500 false (Some "Internal server error"%string) NoData)).
Proof.
  destruct (handle_boundary op w req) as [Hans Hthrow].
  split; [exact Hans|]. split; [exact Hthrow|].
  split; [|split; [|split; [|split; [|split; [|split]]]]].
  - intros paths e Hl Hf. apply Hthrow. exists e.
    apply (failing_lookup op w req paths e Hl Hf).
  - intros paths Hl Hf. apply (missing_group op w req paths Hl Hf).
  - intros -> H. apply missing_name_or_subject. exact H.
  - intros g -> Hf Hm. apply (already_member w req g Hf Hm).
  - intros g -> Hf Hm Hfull. apply (group_full w req g Hf Hm Hfull).
  - intros e -> Hn Hs Hsave. apply (failing_save_create w req e Hn Hs Hsave).
  - intros g e -> Hf Hm Hroom Hp Hsave.
    apply (failing_save_join w req g e Hf Hm Hroom Hp Hsave).
Qed.

Lemma controller_error_boundary_witness :
  fst (handle SendChatMessage down (requestOn "u1" "g1"))
  = Responded (mkResponse 500 false (Some "Internal server error"%string) NoData)
  /\ fst (handle JoinSession (holding sampleGroup) (requestOn "u1" "g9"))
     = Responded (mkResponse 404 false (Some "Study group not found"%string) NoData)
  /\ fst (handle CreateStudyGroup (holding sampleGroup) (requestOn "u1" "g1"))
     = Responded (mkResponse 400 false (Some "Name and subject are required"%string)
                    NoData)
  /\ fst (handle JoinStudyGroup (holding sampleGroup)
            (asUser (requestOn "u1" "g1") (IdString "u1")))
     = Responded (mkResponse 400 false (Some "Already a member of this group"%string)
                    NoData)
  /\ fst (handle JoinStudyGroup (holding fullGroup) (requestOn "u2" "g1"))
     = Responded (mkResponse 400 false (Some "Study group is full"%string) NoData).
Proof.
  split; [|split; [|split; [|split]]].
  - apply (proj1 (proj2 (controller_error_boundary SendChatMessage down
                           (requestOn "u1" "g1")))).
    exists dbDown. simpl. auto.
  - apply (proj1 (proj2 (proj2 (proj2 (controller_error_boundary JoinSession
                                         (holding sampleGroup) (requestOn "u1" "g9")))))
             []); reflexivity.
  - apply (proj1 (proj2 (proj2 (proj2 (proj2 (controller_error_boundary CreateStudyGroup
                                                (holding sampleGroup)
                                                (requestOn "u1" "g1")))))));
      [reflexivity|left; reflexivity].
  - apply (proj1 (proj2 (proj2 (proj2 (proj2 (proj2
             (controller_error_boundary JoinStudyGroup (holding sampleGroup)
                (asUser (requestOn "u1" "g1") (IdString "u1"))))))))
             sampleGroup); reflexivity.
  - apply (proj1 (proj2 (proj2 (proj2 (proj2 (proj2 (proj2
             (controller_error_boundary JoinStudyGroup (holding fullGroup)
                (requestOn "u2" "g1"))))))))
             fullGroup); [reflexivity|reflexivity|reflexivity|simpl; lia].
Defined.

(** *** Runs on concrete surroundings *)

Example join_group_answers_200 :
  response (handle JoinStudyGroup (holding sampleGroup) (requestOn "u2" "g1"))
  = Some (ok (Some "Successfully joined the study group"%string)
            (DGroup (withMembers sampleGroup
                       (g_members sampleGroup
                        ++ [mkMember "u2"%string "member" (Some 0%Z) true])))).
Proof. reflexivity. Qed.

Example join_unknown_session_answers_500 :
  handle JoinSession (holding sampleGroup) (requestOn "u1" "g1")
  = (Responded internalError,
     [Thrown (mkError "Session not found" None);
      Logged true "Join session error: Session not found"]).
Proof. reflexivity. Qed.

End StudyGroupControllerFacts.

(** ** Properties of the AI chat handler *)

Module AIControllerFacts.
Import StudyGroup Http AIController.

(** The service class has no method named [continueConversation]. *)
Lemma continueConversation_undefined
  (impl : list ChatTurn -> Context -> Exc AIResponse) :
  continueConversation (aiService impl) = None.
Proof. reflexivity. Qed.

(** C3 (the code departs from it). Whatever the request and the state of
    the store, the chat handler answers status 500 with [success = false]:
    it calls [aiService.continueConversation], which the service does not
    define, and the resulting [TypeError] (or an earlier rejection of the
    conversation lookup) is answered by the [catch]. *)
Theorem chat_always_answers_500
  (impl : list ChatTurn -> Context -> Exc AIResponse) (w : World) (req : Request) :
  fst (chat (aiService impl) w req)
  = Responded (mkResponse 500 false (Some "Internal server error"%string) NoData).
Proof.
  unfold chat. rewrite continueConversation_undefined.
  destruct (body_conversationId req) as [cid|]; [|reflexivity].
  destruct (truthy (Some cid)); [|reflexivity].
  destruct (findOne w cid (userId req)) as [[c|]|e]; reflexivity.
Qed.

(** Were the method defined, a result with [success = false] would still be
    answered with status 500 by the handler's own guard. *)
Lemma chat_guard (method : list ChatTurn -> Context -> Exc AIResponse)
  (w : World) (req : Request) (content : option string) :
  body_conversationId req = None ->
  (forall ms ctx, method ms ctx = Return (mkAIResponse false content)) ->
  fst (chat (mkServiceObject (Some method)) w req)
  = Responded (mkResponse 500 false (Some "Failed to get AI response"%string) NoData).
Proof.
  intros Hc Hm. unfold chat. rewrite Hc. simpl. rewrite Hm. reflexivity.
Qed.

End AIControllerFacts.

(** ** Properties of saving users *)

Module UserStoreFacts.
Import UserStore.

Section Saving.

Variable toLowerCase : string -> string.
Variable trimmed : string -> string.
Variable emailPattern : string -> bool.
Variable hash : string -> Exc string.

(** Lower-casing a lower-cased string changes nothing. *)
Hypothesis toLowerCase_idempotent :
  forall s, toLowerCase (toLowerCase s) = toLowerCase s.

Lemma construct_email (input : User) :
  email (construct toLowerCase trimmed input) = option_map toLowerCase (email input).
Proof.
  unfold construct, build, cast. simpl.
  destruct (email input); reflexivity.
Qed.

Lemma preSave_email (u h : User) : preSave hash u = inr h -> email h = email u.
Proof.
  unfold preSave. destruct (password u) as [pw|].
  - destruct (hash pw); intros E; inversion E; reflexivity.
  - intros E; inversion E; reflexivity.
Qed.

Lemma preSave_username (u h : User) : preSave hash u = inr h -> username h = username u.
Proof.
  unfold preSave. destruct (password u) as [pw|].
  - destruct (hash pw); intros E; inversion E; reflexivity.
  - intros E; inversion E; reflexivity.
Qed.

(** What [saveUser] leaves in the collection: the collection itself, or the
    collection with one document of a lower-cased email added. *)
Lemma saveUser_collection (input : User) (stored : list User) :
  snd (saveUser toLowerCase trimmed emailPattern hash input stored) = stored
  \/ exists h, snd (saveUser toLowerCase trimmed emailPattern hash input stored) = stored ++ [h]
               /\ email h = option_map toLowerCase (email input).
Proof.
  unfold saveUser.
  destruct (validate emailPattern allPaths (construct toLowerCase trimmed input)); [left; reflexivity|].
  destruct (preSave hash (construct toLowerCase trimmed input)) as [err|h] eqn:Eh; [left; reflexivity|].
  unfold insert. destruct (violated allPaths h stored); [left; reflexivity|].
  right. exists h. split; [reflexivity|].
  rewrite (preSave_email _ _ Eh). apply construct_email.
Qed.

(** Every stored email is in lower case. *)
Lemma reachable_lowercase (stored : list User) :
  reachable toLowerCase trimmed emailPattern hash stored ->
  forall u e, In u stored -> email u = Some e -> toLowerCase e = e.
Proof.
  induction 1 as [|input stored Hr IH]; [intros u e []|].
  intros u e Hin He.
  destruct (saveUser_collection input stored) as [E|(h & E & Hh)];
    rewrite E in Hin.
  - exact (IH u e Hin He).
  - apply in_app_or in Hin. destruct Hin as [Hin|[<-|[]]]; [exact (IH u e Hin He)|].
    rewrite Hh in He. destruct (email input) as [x|]; [|discriminate].
    inversion He; subst. apply toLowerCase_idempotent.
Qed.

Lemma existsb_sameAt (p : Path) (h u : User) (stored : list User) (v : string) :
  In u stored -> get p u = Some v -> get p h = Some v ->
  existsb (sameAt p h) stored = true.
Proof.
  intros Hin Hu Hh. apply existsb_exists. exists u. split; [exact Hin|].
  unfold sameAt. rewrite Hu, Hh. apply String.eqb_refl.
Qed.

(** C8. In a collection produced by saving users, saving a new user whose
    email equals a stored user's email fails and leaves the collection as it
    is; when the new document passes validation and hashing, the failure is
    the duplicate-key error of a unique index: the one on [email], unless
    the username is taken as well. *)
Theorem duplicate_email_rejected (stored : list User) (u input : User) (e : string) :
  reachable toLowerCase trimmed emailPattern hash stored ->
  In u stored ->
  email u = Some e ->
  email input = Some e ->
  snd (saveUser toLowerCase trimmed emailPattern hash input stored) = stored
  /\ exists err,
       fst (saveUser toLowerCase trimmed emailPattern hash input stored) = inl err
       /\ (forall h,
             validate emailPattern allPaths (construct toLowerCase trimmed input) = None ->
             preSave hash (construct toLowerCase trimmed input) = inr h ->
             (err = DuplicateKey Username
              /\ existsb (sameAt Username h) stored = true)
             \/ (err = DuplicateKey Email
                 /\ existsb (sameAt Username h) stored = false)).
Proof.
  intros Hr Hin Hu Hi.
  pose proof (reachable_lowercase stored Hr u e Hin Hu) as Hlow.
  unfold saveUser.
  destruct (validate emailPattern allPaths (construct toLowerCase trimmed input)) as [err|] eqn:Ev.
  { split; [reflexivity|]. exists err. split; [reflexivity|]. discriminate. }
  destruct (preSave hash (construct toLowerCase trimmed input)) as [err|h] eqn:Eh.
  { split; [reflexivity|]. exists err. split; [reflexivity|]. discriminate. }
  assert (He : email h = Some e).
  { rewrite (preSave_email _ _ Eh), construct_email, Hi. simpl. rewrite Hlow.
    reflexivity. }
  assert (Hdup : existsb (sameAt Email h) stored = true)
    by (apply (existsb_sameAt Email h u stored e); assumption).
  unfold insert, allPaths, violated. simpl.
  destruct (existsb (sameAt Username h) stored) eqn:En; simpl.
  - split; [reflexivity|]. exists (DuplicateKey Username).
    split; [reflexivity|]. intros h' _ Eh'. inversion Eh'; subst. left. auto.
  - rewrite Hdup. simpl. split; [reflexivity|]. exists (DuplicateKey Email).
    split; [reflexivity|]. intros h' _ Eh'. inversion Eh'; subst. right. auto.
Qed.

End Saving.

Lemma lowerAscii_idempotent (c : ascii) : lowerAscii (lowerAscii c) = lowerAscii c.
Proof.
  destruct c as [[] [] [] [] [] [] [] []]; reflexivity.
Qed.

Lemma asciiLowerCase_idempotent (s : string) :
  asciiLowerCase (asciiLowerCase s) = asciiLowerCase s.
Proof.
  induction s as [|c s IH]; simpl; [reflexivity|].
  rewrite lowerAscii_idempotent, IH. reflexivity.
Qed.

Lemma duplicate_email_rejected_witness :
  let stored := snd (saveUser asciiLowerCase (fun s => s) hasAt plainHash ada []) in
  List.length stored = 1%nat
  /\ snd (saveUser asciiLowerCase (fun s => s) hasAt plainHash eve stored) = stored
  /\ fst (saveUser asciiLowerCase (fun s => s) hasAt plainHash eve stored)
     = inl (DuplicateKey Email).
Proof.
  intros stored.
  split; [reflexivity|].
  destruct (duplicate_email_rejected asciiLowerCase (fun s => s) hasAt plainHash
              asciiLowerCase_idempotent stored
              (mkUser (Some "ada") (Some "Ada") (Some "Lovelace")
                 (Some "ada@example.org") (Some "$2a$12$secret1") (Some "student"))%string
              eve "ada@example.org")
    as [Hsame _].
  - apply reach_save. apply reach_empty.
  - left. reflexivity.
  - reflexivity.
  - reflexivity.
  - split; [exact Hsame|reflexivity].
Defined.

End UserStoreFacts.

(** ** Further properties of the generation service *)

Module AIServiceMore.
Import AIService AIServiceFacts.

(** *** parseDuration *)

Lemma parseIntOr_nonzero (parseInt : string -> option Z) (s : string) (d : Z) :
  d <> 0%Z -> parseIntOr parseInt s d <> 0%Z.
Proof.
  intros Hd. unfold parseIntOr. destruct (parseInt s) as [n|]; [|exact Hd].
  destruct (Z.eqb_spec n 0); [exact Hd|assumption].
Qed.

(** [parseDuration] never returns 0: a missing or empty duration gives 30,
    a duration that mentions months gives a non-zero multiple of 30, one
    that mentions weeks (and no month) a non-zero multiple of 7. *)
Theorem parseDuration_never_zero (parseInt : string -> option Z)
  (toLowerCase : string -> string) (duration : option string) :
  parseDuration parseInt toLowerCase duration <> 0%Z
  /\ (truthy duration = false ->
      parseDuration parseInt toLowerCase duration = 30%Z)
  /\ (forall dur,
        duration = Some dur -> truthy duration = true ->
        includes (toLowerCase dur) "month" = true ->
        exists k, k <> 0%Z
                  /\ parseDuration parseInt toLowerCase duration = (k * 30)%Z)
  /\ (forall dur,
        duration = Some dur -> truthy duration = true ->
        includes (toLowerCase dur) "month" = false ->
        includes (toLowerCase dur) "week" = true ->
        exists k, k <> 0%Z
                  /\ parseDuration parseInt toLowerCase duration = (k * 7)%Z).
Proof.
  split; [|split; [|split]].
  - unfold parseDuration. destruct duration as [dur|]; [|discriminate].
    destruct (truthy (Some dur)); [|discriminate].
    destruct (includes (toLowerCase dur) "month").
    { pose proof (parseIntOr_nonzero parseInt (toLowerCase dur) 1). lia. }
    destruct (includes (toLowerCase dur) "week").
    { pose proof (parseIntOr_nonzero parseInt (toLowerCase dur) 1). lia. }
    destruct (includes (toLowerCase dur) "day");
      apply parseIntOr_nonzero; discriminate.
  - intros H. unfold parseDuration. destruct duration; [rewrite H|]; reflexivity.
  - intros dur -> Ht Hm. unfold parseDuration. rewrite Ht, Hm.
    exists (parseIntOr parseInt (toLowerCase dur) 1). split; [|reflexivity].
    apply parseIntOr_nonzero. discriminate.
  - intros dur -> Ht Hm Hw. unfold parseDuration. rewrite Ht, Hm, Hw.
    exists (parseIntOr parseInt (toLowerCase dur) 1). split; [|reflexivity].
    apply parseIntOr_nonzero. discriminate.
Qed.

Lemma parseDuration_never_zero_witness :
  parseDuration leadingInt UserStore.asciiLowerCase None = 30%Z
  /\ (exists k, k <> 0%Z
                /\ parseDuration leadingInt UserStore.asciiLowerCase (Some "2 Months"%string)
                   = (k * 30)%Z)
  /\ (exists k, k <> 0%Z
                /\ parseDuration leadingInt UserStore.asciiLowerCase (Some "weeks"%string)
                   = (k * 7)%Z).
Proof.
  split; [|split].
  - apply (proj1 (proj2 (parseDuration_never_zero leadingInt UserStore.asciiLowerCase
                           None))). reflexivity.
  - apply (proj1 (proj2 (proj2 (parseDuration_never_zero leadingInt
                                  UserStore.asciiLowerCase (Some "2 Months"%string))))
             "2 Months"%string); reflexivity.
  - apply (proj2 (proj2 (proj2 (parseDuration_never_zero leadingInt
                                  UserStore.asciiLowerCase (Some "weeks"%string))))
             "weeks"%string); reflexivity.
Defined.

(** *** The fallback quiz *)

Lemma quizLoop_spec (topic difficulty : value) (count i : Z)
  (questions : list Question) :
  quizLoop topic difficulty count i questions
  = questions ++ map (quizEntry topic difficulty)
                   (daysFrom i (Z.to_nat (count + 1 - i))).
Proof.
  funelim (quizLoop topic difficulty count i questions).
  - rewrite H. rewrite <- app_assoc. f_equal.
    replace (Z.to_nat (count + 1 - i))
      with (S (Z.to_nat (count + 1 - (i + 1)))) by lia.
    reflexivity.
  - replace (Z.to_nat (count + 1 - i)) with O by lia.
    simpl. rewrite app_nil_r. reflexivity.
Qed.

(** The fallback quiz has [count] questions (none when [count] is zero,
    negative or missing); question [i] has four options, and its [correct]
    index points at the option that reads ['Correct <topic> concept <i>']. *)
Theorem fallback_quiz_shape (topic difficulty : value) (count : Z) :
  let quiz := generateFallbackQuiz topic difficulty (Some count) in
  List.length quiz = Z.to_nat count
  /\ generateFallbackQuiz topic difficulty None = []
  /\ forall i : Z, (1 <= i <= count)%Z ->
       exists q,
         nth_error quiz (Z.to_nat (i - 1)) = Some q
         /\ List.length (options q) = 4%nat
         /\ nth_error (options q) (Z.to_nat (correct q))
            = Some ("Correct " ++ toString topic ++ " concept " ++ decimal i)%string.
Proof.
  intros quiz. subst quiz. unfold generateFallbackQuiz.
  rewrite quizLoop_spec. simpl app.
  replace (count + 1 - 1)%Z with count by lia.
  split; [|split].
  - rewrite length_map, daysFrom_length. reflexivity.
  - reflexivity.
  - intros i Hi. exists (quizEntry topic difficulty i).
    split; [|split; reflexivity].
    rewrite nth_error_map, daysFrom_nth by lia.
    replace (1 + Z.of_nat (Z.to_nat (i - 1)))%Z with i by lia. reflexivity.
Qed.

Lemma fallback_quiz_shape_witness :
  exists q,
    nth_error (generateFallbackQuiz (VStr "graphs") (VStr "easy") (Some 3%Z)) 1
    = Some q
    /\ List.length (options q) = 4%nat
    /\ nth_error (options q) (Z.to_nat (correct q))
       = Some "Correct graphs concept 2"%string.
Proof.
  apply (proj2 (proj2 (fallback_quiz_shape (VStr "graphs") (VStr "easy") 3%Z)) 2%Z).
  lia.
Defined.

(** *** Edges of the fallback study plan *)

(** Without a positive number of days the fallback plan is empty. *)
Theorem fallback_study_plan_empty (subject level learningStyle : value)
  (durationInDays : option Z) :
  match durationInDays with
  | Some n => (n <= 0)%Z
  | None => True
  end ->
  generateFallbackStudyPlan subject level durationInDays learningStyle = [].
Proof.
  destruct durationInDays as [n|]; [|reflexivity].
  intros Hn. unfold generateFallbackStudyPlan. rewrite planLoop_spec.
  replace (Z.to_nat (n + 1 - 1)) with O by lia. reflexivity.
Qed.

Lemma fallback_study_plan_empty_witness :
  generateFallbackStudyPlan (VStr "Math") (VStr "beginner") (Some (-2)%Z)
    (VStr "visual") = [].
Proof.
  apply (fallback_study_plan_empty (VStr "Math") (VStr "beginner") (VStr "visual")
           (Some (-2)%Z)).
  simpl. lia.
Defined.

(** The difficulty of the days never goes back: a day before a ['Basic'] day
    is ['Basic'], a day after an ['Advanced'] day is ['Advanced'], and the
    last day of a plan is always ['Advanced']. *)
Theorem difficulty_never_goes_back (durationInDays d1 d2 : Z) :
  (1 <= durationInDays)%Z -> (d1 <= d2)%Z ->
  (difficulty durationInDays d2 = "Basic"%string ->
   difficulty durationInDays d1 = "Basic"%string)
  /\ (difficulty durationInDays d1 = "Advanced"%string ->
      difficulty durationInDays d2 = "Advanced"%string)
  /\ difficulty durationInDays durationInDays = "Advanced"%string.
Proof.
  intros Hn Hd. rewrite !difficulty_cases.
  repeat match goal with
         | |- context [(?a <=? ?b)%Z] => destruct (Z.leb_spec a b)
         end; repeat split; intros; try reflexivity; try discriminate; lia.
Qed.

Lemma difficulty_never_goes_back_witness :
  (difficulty 9 3 = "Basic"%string -> difficulty 9 2 = "Basic"%string)
  /\ (difficulty 9 2 = "Advanced"%string -> difficulty 9 3 = "Advanced"%string)
  /\ difficulty 9 9 = "Advanced"%string.
Proof.
  apply (difficulty_never_goes_back 9 2 3); lia.
Defined.

(** *** The callers of [generate] *)

Lemma generate_success (w : World) (prompt : string) (provider : option string)
  (o : Options) (s : Service) :
  success (result_of (generate w prompt provider o s)) = true.
Proof.
  pose proof (generate_cases w prompt provider o s) as H. cbv zeta in H.
  destruct (usesGroq _ && success _) eqn:EG.
  - destruct H as [-> _]. apply andb_prop in EG. apply EG.
  - destruct (usesGemini _ && success _) eqn:EM.
    + destruct H as [-> _]. apply andb_prop in EM. apply EM.
    + destruct H as [-> _]. reflexivity.
Qed.

Lemma includes_app_r (a b sub : string) :
  includes b sub = true -> includes (a ++ b) sub = true.
Proof.
  intros H. induction a as [|c a IH]; simpl; [exact H|].
  rewrite IH. apply orb_true_r.
Qed.

Lemma explainPrompt_mentions_concept (concept level : value) :
  includes (explainPrompt concept level) "concept" = true.
Proof.
  unfold explainPrompt. repeat (apply includes_app_r). reflexivity.
Qed.

(** [explainConcept] with its sequencing spelled out. *)
Lemma explainConcept_unfold (w : World) (concept : value) (level : option value)
  (s : Service) :
  explainConcept w concept level s =
  let lvl := match level with Some l => l | None => VStr "intermediate" end in
  let '(_, s0, t0) := initializeServices w s in
  let '(r, s1, t1) :=
    generate w (explainPrompt concept lvl) (Some "auto"%string)
      (mkOptions None (Some 1500%Z) None None) s0 in
  let line :=
    Log Info ("Explaining concept: " ++ toString concept ++ " at " ++ toString lvl) in
  if success r then (r, s1, t0 ++ line :: t1 ++ [])
  else
    ({| success := true;
        content := CText (generateFallbackExplanation concept lvl);
        error := None; usage := None; fallback := false |},
     s1, t0 ++ line :: t1 ++ [Log Info "Using fallback explanation"]).
Proof.
  unfold explainConcept. cbv zeta.
  set (lvl := match level with Some l => l | None => VStr "intermediate" end).
  unfold bind at 1. destruct (initializeServices w s) as [[[] s0] t0].
  unfold bind, logger, emit, ret. simpl.
  destruct (generate w (explainPrompt concept lvl) (Some "auto"%string)
              (mkOptions None (Some 1500%Z) None None) s0) as [[r s1] t1].
  destruct (success r); reflexivity.
Qed.

(** [explainConcept] always returns what its inner [generate] returns: its
    own fallback, [generateFallbackExplanation(concept, level)], is never
    used.  When the providers fail, the content is the structured fallback
    of the whole prompt; unless the prompt mentions a study plan or a quiz,
    that is the explanation template filled with the prompt text and an
    undefined level. *)
Theorem explainConcept_own_fallback_unused (w : World) (concept : value)
  (level : option value) (s : Service) :
  let lvl := match level with Some l => l | None => VStr "intermediate" end in
  let prompt := explainPrompt concept lvl in
  let out := explainConcept w concept level s in
  result_of out
  = result_of (generate w prompt (Some "auto"%string)
                 (mkOptions None (Some 1500%Z) None None)
                 (state_of (initializeServices w s)))
  /\ (fallback (result_of out) = true ->
      content (result_of out) = generateStructuredFallback prompt)
  /\ (fallback (result_of out) = true ->
      includes prompt "study plan" = false -> includes prompt "quiz" = false ->
      content (result_of out)
      = CText (generateFallbackExplanation (VStr prompt) VUndefined)).
Proof.
  intros lvl prompt out.
  assert (E : result_of out
              = result_of (generate w prompt (Some "auto"%string)
                             (mkOptions None (Some 1500%Z) None None)
                             (state_of (initializeServices w s)))).
  { subst out. rewrite explainConcept_unfold. cbv zeta. fold lvl. fold prompt.
    destruct (initializeServices w s) as [[[] s0] t0]. unfold state_of. simpl.
    pose proof (generate_success w prompt (Some "auto"%string)
                  (mkOptions None (Some 1500%Z) None None) s0) as Hs.
    destruct (generate w prompt (Some "auto"%string)
                (mkOptions None (Some 1500%Z) None None) s0) as [[r s1] t1].
    unfold result_of in *. simpl in *. rewrite Hs. reflexivity. }
  split; [exact E|].
  assert (F : fallback (result_of out) = true ->
              content (result_of out) = generateStructuredFallback prompt).
  { rewrite E. intros Hf.
    rewrite (generate_template w prompt (Some "auto"%string) _ _ (or_introl Hf)).
    reflexivity. }
  split; [exact F|].
  intros Hf Hp Hq. rewrite (F Hf). unfold generateStructuredFallback.
  rewrite Hp, Hq. subst prompt. rewrite explainPrompt_mentions_concept.
  rewrite orb_true_r. reflexivity.
Qed.

Lemma explainConcept_own_fallback_unused_witness :
  content (result_of (explainConcept unreachable (VStr "recursion") None constructor))
  = CText (generateFallbackExplanation
             (VStr (explainPrompt (VStr "recursion") (VStr "intermediate")))
             VUndefined).
Proof.
  apply (proj2 (proj2 (explainConcept_own_fallback_unused unreachable
                         (VStr "recursion") None constructor))); reflexivity.
Defined.

(** [generateDetailedStudyPlan] always succeeds and never passes the
    fallback flag on; when the providers fail it replaces the structured
    fallback of [generate] by the full fallback plan of
    [parseDuration(duration)] days, numbered from 1. *)
Theorem detailed_plan_on_failure (w : World) (parseInt : string -> option Z)
  (toLowerCase : string -> string) (subject level : value)
  (duration : option string) (learningStyle : value) (s : Service) :
  let n := parseDuration parseInt toLowerCase duration in
  let out := generateDetailedStudyPlan w parseInt toLowerCase subject level
               duration learningStyle s in
  success (result_of out) = true
  /\ fallback (result_of out) = false
  /\ (In Template (trace_of out) ->
      exists plan,
        content (result_of out) = CPlan plan
        /\ List.length plan = Z.to_nat n
        /\ map day plan = map Z.of_nat (seq 1 (Z.to_nat n))).
Proof.
  intros n out. subst out. rewrite generateDetailedStudyPlan_unfold. cbv zeta.
  fold n.
  pose proof (generate_template w (studyPlanPrompt n subject level learningStyle)
                (Some "auto"%string) (mkOptions None (Some 4000%Z) None None) s)
    as HT. cbv zeta in HT.
  destruct (generate w (studyPlanPrompt n subject level learningStyle)
              (Some "auto"%string) (mkOptions None (Some 4000%Z) None None) s)
    as [[r sr] tr].
  unfold result_of, trace_of in HT |- *; simpl in HT.
  destruct (success r && negb (fallback r)) eqn:E; simpl.
  - apply andb_prop in E. destruct E as [Es Ef].
    split; [exact Es|]. split; [destruct (fallback r); [discriminate|reflexivity]|].
    rewrite app_nil_r. intros Hin. rewrite (HT (or_intror Hin)) in Ef. discriminate.
  - split; [reflexivity|]. split; [reflexivity|]. intros _.
    exists (generateFallbackStudyPlan subject level (Some n) learningStyle).
    split; [reflexivity|].
    unfold generateFallbackStudyPlan. rewrite planLoop_spec. simpl app.
    replace (n + 1 - 1)%Z with n by lia.
    split.
    + rewrite length_map, daysFrom_length. reflexivity.
    + rewrite map_map. simpl. rewrite map_id. apply (daysFrom_seq _ 1%nat).
Qed.

Lemma detailed_plan_on_failure_witness :
  exists plan,
    content (result_of (generateDetailedStudyPlan unreachable leadingInt
                          UserStore.asciiLowerCase (VStr "React") (VStr "beginner")
                          (Some "3 days"%string) (VStr "visual") constructor))
    = CPlan plan
    /\ List.length plan = 3%nat
    /\ map day plan = [1; 2; 3]%Z.
Proof.
  apply (proj2 (proj2 (detailed_plan_on_failure unreachable leadingInt
                         UserStore.asciiLowerCase (VStr "React") (VStr "beginner")
                         (Some "3 days"%string) (VStr "visual") constructor))).
  cbv. tauto.
Defined.

(** *** Initialisation and keys *)

(** The configuration is read once: after a first [initializeServices],
    every later call leaves the service as it is and logs nothing, even if
    the environment has changed in between. *)
Theorem initializeServices_once (w w' : World) (s : Service) :
  let s1 := state_of (initializeServices w s) in
  initializeServices w' s1 = (tt, s1, []).
Proof.
  intros s1. apply initializeServices_again. apply initializeServices_initialized.
Qed.

(** With a missing or malformed key the provider methods fail on a fresh
    service without asking the SDK or the HTTP client. *)
Theorem missing_keys_fail_fast (w : World) (prompt : string) (o : Options) :
  (match GROQ_API_KEY w with
   | Some k => validGroqKey k = false
   | None => True
   end ->
   result_of (generateWithGroq w prompt o constructor)
   = failure "Groq SDK not initialized")
  /\ (validGeminiKey (GEMINI_API_KEY w) = false ->
      result_of (generateWithGemini w prompt o constructor)
      = failure "Gemini API key not configured or invalid").
Proof.
  split.
  - intros Hk. unfold generateWithGroq, initializeServices. expose. simpl.
    destruct (GROQ_API_KEY w) as [k|]; [rewrite Hk|]; reflexivity.
  - intros Hk. unfold generateWithGemini, initializeServices. expose. simpl.
    destruct (GROQ_API_KEY w) as [k|].
    + destruct (validGroqKey k); [destruct (groq_new w k)|]; simpl;
        rewrite Hk; reflexivity.
    + simpl. rewrite Hk. reflexivity.
Qed.

Lemma missing_keys_fail_fast_witness :
  result_of (generateWithGroq offline "hello" noOptions constructor)
  = failure "Groq SDK not initialized"
  /\ result_of (generateWithGemini offline "hello" noOptions constructor)
     = failure "Gemini API key not configured or invalid".
Proof.
  split.
  - apply (proj1 (missing_keys_fail_fast offline "hello" noOptions)). exact I.
  - apply (proj2 (missing_keys_fail_fast offline "hello" noOptions)). reflexivity.
Defined.

(** Gemini's response is checked for its shape: on a fresh service with an
    accepted key, [generateWithGemini] succeeds exactly when the first
    candidate's first part can be read, and a response without candidates
    fails with the message ['No candidates returned from Gemini API']. *)
Theorem gemini_checks_shape (w : World) (prompt : string) (o : Options)
  (data : GeminiData) :
  validGeminiKey (GEMINI_API_KEY w) = true ->
  (forall url body, axios_post w url body = Return data) ->
  let r := result_of (generateWithGemini w prompt o constructor) in
  success r = wellShaped data
  /\ (match candidates data with Some (_ :: _) => false | _ => true end = true ->
      r = failure "No candidates returned from Gemini API").
Proof.
  intros Hk Hp r. subst r.
  unfold generateWithGemini, initializeServices, geminiTry, wellShaped. expose.
  simpl.
  destruct (GROQ_API_KEY w) as [k|];
    [destruct (validGroqKey k); [destruct (groq_new w k)|]|];
    simpl; rewrite Hk, Hp; simpl;
    (destruct (candidates data) as [[|c cs]|]; simpl;
     [ split; reflexivity
     | destruct (cand_content c) as [cc|]; simpl;
       [ destruct (parts cc) as [[|p ps]|]; simpl; split;
         try reflexivity; discriminate
       | split; [reflexivity|discriminate] ]
     | split; reflexivity ]).
Qed.

Lemma gemini_checks_shape_witness :
  result_of (generateWithGemini (geminiAnswering (mkGeminiData (Some []) None))
               "hello" noOptions constructor)
  = failure "No candidates returned from Gemini API".
Proof.
  apply (proj2 (gemini_checks_shape (geminiAnswering (mkGeminiData (Some []) None))
                  "hello" noOptions (mkGeminiData (Some []) None)
                  eq_refl (fun _ _ => eq_refl))).
  reflexivity.
Defined.

End AIServiceMore.

(** ** Further properties of the study-group model *)

Module StudyGroupMore.
Import StudyGroup StudyGroupFacts.

(** *** Membership *)

Lemma find_none_forall {A : Type} (p : A -> bool) (l : list A) :
  find p l = None -> forall a, In a l -> p a = false.
Proof.
  induction l as [|b l IH]; simpl; [tauto|].
  destruct (p b) eqn:E; [discriminate|].
  intros H a [<-|Hin]; auto.
Qed.

Lemma find_none_keep {A : Type} (p : A -> bool) (l : list A) :
  find p l = None -> filter (fun a => negb (p a)) l = l.
Proof.
  induction l as [|b l IH]; simpl; [reflexivity|].
  destruct (p b) eqn:E; [discriminate|]. simpl. intros H. rewrite IH; auto.
Qed.

Lemma find_app_none {A : Type} (p : A -> bool) (l l' : list A) :
  find p l = None -> find p (l ++ l') = find p l'.
Proof.
  induction l as [|b l IH]; simpl; [reflexivity|].
  destruct (p b); [discriminate|]. exact IH.
Qed.

Lemma getMemberRole_none (g : Group) (userId : ObjectId) :
  getMemberRole g userId = None <->
  find (fun m => sameUser userId (m_user m)) (g_members g) = None.
Proof.
  unfold getMemberRole. destruct (find _ _); split; intros; congruence.
Qed.

(** [addMember] refuses a user who is already listed (active or not) and a
    group that is full, leaving the document as it is; otherwise the user
    is appended as an active member with the given role (['member'] by
    default), is reported by [isMember] and [getMemberRole], and the member
    count of the statistics is brought up to date. *)
Theorem addMember_outcome (save : Group -> Exc unit) (userId : ObjectId)
  (role : option string) (now : Date) (g : Group) :
  let out := addMember save userId role now g in
  let r := match role with Some r => r | None => "member"%string end in
  (getMemberRole g userId <> None -> out = (Throw alreadyMember, g))
  /\ (getMemberRole g userId = None ->
      (maxMembers (g_settings g) <= Z.of_nat (List.length (g_members g)))%Z ->
      out = (Throw groupFull, g))
  /\ (getMemberRole g userId = None ->
      (Z.of_nat (List.length (g_members g)) < maxMembers (g_settings g))%Z ->
      fst out = save (snd out)
      /\ g_members (snd out) = g_members g ++ [mkMember userId r (Some now) true]
      /\ isMember (snd out) userId = true
      /\ getMemberRole (snd out) userId = Some r
      /\ totalMembers (g_stats (snd out))
         = Z.of_nat (List.length (g_members g) + 1)).
Proof.
  intros out r. subst out. unfold addMember. fold r.
  split; [|split].
  - intros H. destruct (find _ (g_members g)) eqn:F; [reflexivity|].
    exfalso. apply H. apply getMemberRole_none. exact F.
  - intros H Hfull. apply getMemberRole_none in H. rewrite H.
    apply Z.leb_le in Hfull. rewrite Hfull. reflexivity.
  - intros H Hroom. apply getMemberRole_none in H. rewrite H.
    destruct (Z.leb_spec (maxMembers (g_settings g))
                (Z.of_nat (List.length (g_members g)))); [lia|].
    cbn [fst snd]. split; [reflexivity|].
    unfold updateStats, withStats, withMembers, isMember, getMemberRole.
    cbn [g_members g_stats totalMembers].
    split; [reflexivity|]. split; [|split].
    + rewrite existsb_app. simpl. unfold sameUser. rewrite String.eqb_refl.
      simpl. apply orb_true_r.
    + rewrite (find_app_none _ _ _ H). simpl. unfold sameUser. rewrite String.eqb_refl.
      reflexivity.
    + rewrite length_app. reflexivity.
Qed.

Lemma addMember_outcome_witness :
  let out := addMember accepting "u2"%string None 7%Z sampleGroup in
  fst out = accepting (snd out)
  /\ g_members (snd out)
     = g_members sampleGroup ++ [mkMember "u2"%string "member" (Some 7%Z) true]
  /\ isMember (snd out) "u2"%string = true
  /\ getMemberRole (snd out) "u2"%string = Some "member"%string
  /\ totalMembers (g_stats (snd out)) = 2%Z.
Proof.
  apply (proj2 (proj2 (addMember_outcome accepting "u2"%string None 7%Z sampleGroup)));
    [reflexivity|simpl; lia].
Defined.

Lemma not_in_users (userId : ObjectId) (ms : list Member) :
  find (fun m => sameUser userId (m_user m)) ms = None ->
  ~ In userId (map m_user ms).
Proof.
  intros F Hin. apply in_map_iff in Hin. destruct Hin as (m & Hm & Hin).
  pose proof (find_none_forall _ _ F m Hin) as H. simpl in H.
  unfold sameUser in H. rewrite Hm, String.eqb_refl in H. discriminate.
Qed.

Lemma NoDup_filter_map (p : Member -> bool) (ms : list Member) :
  NoDup (map m_user ms) -> NoDup (map m_user (filter p ms)).
Proof.
  induction ms as [|m ms IH]; simpl; [auto|].
  intros H. inversion H as [|u us Hnot Hrest]; subst.
  destruct (p m); simpl; [|auto].
  constructor; [|auto].
  intros Hin. apply Hnot. apply in_map_iff in Hin.
  destruct Hin as (m' & Hm' & Hin'). apply filter_In in Hin'.
  apply in_map_iff. exists m'. tauto.
Qed.

(** [addMember] and [removeMember] keep the member list free of duplicate
    users and within the group's capacity. *)
Theorem membership_invariants (save : Group -> Exc unit) (userId : ObjectId)
  (role : option string) (now : Date) (g : Group) :
  distinctMembers g -> withinCapacity g ->
  (distinctMembers (snd (addMember save userId role now g))
   /\ withinCapacity (snd (addMember save userId role now g)))
  /\ (distinctMembers (snd (removeMember save userId g))
      /\ withinCapacity (snd (removeMember save userId g))).
Proof.
  unfold distinctMembers, withinCapacity. intros Hd Hc. split.
  - unfold addMember.
    destruct (find _ (g_members g)) eqn:F; cbn [snd]; [auto|].
    destruct (Z.leb_spec (maxMembers (g_settings g))
                (Z.of_nat (List.length (g_members g)))); cbn [snd]; [auto|].
    unfold updateStats, withStats, withMembers. cbn [g_members g_settings].
    split.
    + rewrite map_app. simpl. apply NoDup_snoc; [exact Hd|].
      apply not_in_users. exact F.
    + rewrite length_app. simpl. lia.
  - unfold removeMember, updateStats, withStats, withMembers.
    cbn [snd g_members g_settings]. split.
    + apply NoDup_filter_map. exact Hd.
    + pose proof (filter_length_le
                    (fun m => negb (sameUser userId (m_user m))) (g_members g)).
      lia.
Qed.

Lemma membership_invariants_witness :
  distinctMembers (snd (addMember accepting "u2"%string None 7%Z sampleGroup))
  /\ withinCapacity (snd (addMember accepting "u2"%string None 7%Z sampleGroup)).
Proof.
  apply (proj1 (membership_invariants accepting "u2"%string None 7%Z sampleGroup
                  ltac:(unfold distinctMembers; simpl;
                        constructor; [simpl; tauto|constructor])
                  ltac:(unfold withinCapacity; simpl; lia))).
Defined.

Lemma filter_not_user (userId v : ObjectId) (ms : list Member) :
  v <> userId ->
  find (fun m => sameUser v (m_user m))
    (filter (fun m => negb (sameUser userId (m_user m))) ms)
  = find (fun m => sameUser v (m_user m)) ms.
Proof.
  intros Hv. induction ms as [|m ms IH]; simpl; [reflexivity|].
  destruct (sameUser userId (m_user m)) eqn:E; simpl.
  - destruct (sameUser v (m_user m)) eqn:E2; [|exact IH].
    unfold sameUser in E, E2. apply String.eqb_eq in E, E2. congruence.
  - rewrite IH. reflexivity.
Qed.

(** After [removeMember] the user is no member and has no role, every other
    user keeps their role, and removing a user that [addMember] has just
    added gives the member list back. *)
Theorem removeMember_effect (save save' : Group -> Exc unit) (userId : ObjectId)
  (role : option string) (now : Date) (g : Group) :
  let g' := snd (removeMember save userId g) in
  isMember g' userId = false
  /\ getMemberRole g' userId = None
  /\ (forall v, v <> userId -> getMemberRole g' v = getMemberRole g v)
  /\ (getMemberRole g userId = None ->
      g_members (snd (removeMember save userId
                        (snd (addMember save' userId role now g))))
      = g_members g).
Proof.
  intros g'. subst g'.
  unfold removeMember, updateStats, withStats, withMembers, isMember, getMemberRole.
  cbn [snd g_members].
  assert (F : find (fun m => sameUser userId (m_user m))
                (filter (fun m => negb (sameUser userId (m_user m))) (g_members g))
              = None).
  { induction (g_members g) as [|m ms IH]; simpl; [reflexivity|].
    destruct (sameUser userId (m_user m)) eqn:E; simpl; [exact IH|].
    rewrite E. exact IH. }
  split; [|split; [|split]].
  - apply not_true_is_false. intros H. apply existsb_exists in H.
    destruct H as (m & Hin & Hm). apply andb_prop in Hm.
    pose proof (find_none_forall _ _ F m Hin) as Hn. simpl in Hn.
    rewrite Hn in Hm. destruct Hm; discriminate.
  - rewrite F. reflexivity.
  - intros v Hv. rewrite (filter_not_user userId v _ Hv). reflexivity.
  - intros Hnone. apply getMemberRole_none in Hnone.
    unfold addMember. rewrite Hnone.
    destruct (Z.leb_spec (maxMembers (g_settings g))
                (Z.of_nat (List.length (g_members g)))); cbn [snd g_members].
    + apply find_none_keep. exact Hnone.
    + unfold updateStats, withStats, withMembers. cbn [g_members].
      rewrite filter_app, (find_none_keep _ _ Hnone). simpl.
      unfold sameUser. rewrite String.eqb_refl. simpl. apply app_nil_r.
Qed.

Lemma removeMember_effect_witness :
  getMemberRole (snd (removeMember accepting "u2"%string sampleGroup)) "u1"%string
  = getMemberRole sampleGroup "u1"%string
  /\ g_members (snd (removeMember accepting "u2"%string
                       (snd (addMember accepting "u2"%string None 7%Z sampleGroup))))
     = g_members sampleGroup.
Proof.
  destruct (removeMember_effect accepting accepting "u2"%string None 7%Z sampleGroup)
    as (_ & _ & Hother & Hback).
  split.
  - apply Hother. discriminate.
  - apply Hback. reflexivity.
Defined.

(** *** Join codes *)

Lemma chars_snoc (s : string) (c : ascii) :
  chars (s ++ String c EmptyString) = chars s ++ [c].
Proof. induction s as [|d s IH]; simpl; [reflexivity|]. rewrite IH. reflexivity. Qed.

Lemma chars_length (s : string) : List.length (chars s) = String.length s.
Proof. induction s as [|d s IH]; simpl; auto. Qed.

Lemma get_chars (s : string) : forall (i : nat) (c : ascii),
  String.get i s = Some c -> In c (chars s).
Proof.
  induction s as [|d s IH]; intros i c; simpl; [discriminate|].
  destruct i as [|i]; [intros H; inversion H; auto|].
  intros H. right. apply (IH i c H).
Qed.

Lemma alphabet_get (i : nat) : (i < 32)%nat -> exists c, String.get i alphabet = Some c.
Proof.
  intros H. do 32 (destruct i as [|i]; [eexists; reflexivity|]). lia.
Qed.

Lemma joinCode_fold (picks : list nat) : forall (code : string),
  Forall (fun i => (i < 32)%nat) picks ->
  Forall (fun c => In c (chars alphabet)) (chars code) ->
  let out :=
    fold_left
      (fun code i =>
         match String.get i alphabet with
         | Some c => (code ++ String c EmptyString)%string
         | None => (code ++ "undefined")%string
         end) picks code in
  String.length out = (String.length code + List.length picks)%nat
  /\ Forall (fun c => In c (chars alphabet)) (chars out).
Proof.
  induction picks as [|i picks IH]; intros code Hp Hc; cbn [fold_left List.length].
  - split; [lia|exact Hc].
  - inversion Hp as [|? ? Hi Hrest]; subst.
    destruct (alphabet_get i Hi) as [c Hg]. rewrite Hg.
    destruct (IH (code ++ String c EmptyString)%string Hrest) as [Hl Ha].
    + rewrite chars_snoc. apply Forall_app. split; [exact Hc|].
      constructor; [apply (get_chars _ _ _ Hg)|constructor].
    + cbv zeta in Hl, Ha. split; [|exact Ha].
      rewrite Hl, <- !chars_length, chars_snoc, length_app. simpl. lia.
Qed.

Lemma Forall_first {A : Type} (P : A -> Prop) (n : nat) : forall (l : list A),
  Forall P l -> Forall P (firstn n l).
Proof.
  induction n as [|n IH]; intros l H; simpl; [constructor|].
  destruct l as [|a l]; [constructor|].
  inversion H; subst. constructor; auto.
Qed.

(** A join code built from at least six indices below 32 (as
    [Math.floor(Math.random() * 32)] draws them) has exactly six
    characters, all taken from the code alphabet. *)
Theorem joinCode_six_from_alphabet (picks : list nat) :
  Forall (fun i => (i < 32)%nat) picks -> (6 <= List.length picks)%nat ->
  String.length (generateJoinCode picks) = 6%nat
  /\ Forall (fun c => In c (chars alphabet)) (chars (generateJoinCode picks)).
Proof.
  intros Hp Hl. unfold generateJoinCode.
  destruct (joinCode_fold (firstn 6 picks) EmptyString) as [H1 H2].
  - apply Forall_first. exact Hp.
  - constructor.
  - cbv zeta in H1, H2. split; [|exact H2].
    rewrite H1, length_firstn. cbn [String.length]. lia.
Qed.

Lemma joinCode_six_from_alphabet_witness :
  String.length (generateJoinCode [31; 0; 7; 7; 20; 9; 3]%nat) = 6%nat
  /\ Forall (fun c => In c (chars alphabet))
       (chars (generateJoinCode [31; 0; 7; 7; 20; 9; 3]%nat)).
Proof.
  apply joinCode_six_from_alphabet.
  - repeat constructor.
  - simpl. lia.
Defined.

(** *** Scheduling *)

Lemma earliestUpcoming_none (now : Date) (ss : list Session) :
  earliestUpcoming now ss = None <->
  forall x, In x ss -> upcomingAt now x = None.
Proof.
  induction ss as [|y ss IH]; simpl.
  - split; [intros _ x []|reflexivity].
  - unfold upcomingAt at 1.
    destruct (after (s_scheduledAt y) now && isScheduled (s_status y)) eqn:E.
    + destruct (s_scheduledAt y) as [t|] eqn:Et.
      * split.
        -- destruct (earliestUpcoming now ss); discriminate.
        -- intros H. specialize (H y (or_introl eq_refl)).
           unfold upcomingAt in H. rewrite Et, E in H. discriminate.
      * simpl in E. discriminate.
    + rewrite IH. split.
      * intros H x [<-|Hin]; [rewrite E; reflexivity|exact (H x Hin)].
      * intros H x Hin. apply (H x). right. exact Hin.
Qed.

Lemma upcomingAt_future (now : Date) (x : Session) (t : Date) :
  upcomingAt now x = Some t -> (now < t)%Z.
Proof.
  unfold upcomingAt. destruct (after (s_scheduledAt x) now && _) eqn:E;
    [|discriminate].
  intros Ht. rewrite Ht in E. simpl in E. apply andb_prop in E.
  destruct E as [E _]. apply Z.ltb_lt in E. exact E.
Qed.

Lemma earliestUpcoming_some (now : Date) (ss : list Session) (t : Date) :
  earliestUpcoming now ss = Some t ->
  (exists x, In x ss /\ upcomingAt now x = Some t)
  /\ (forall y t', In y ss -> upcomingAt now y = Some t' -> (t <= t')%Z).
Proof.
  revert t. induction ss as [|y ss IH]; intros t; simpl; [discriminate|].
  destruct (after (s_scheduledAt y) now && isScheduled (s_status y)) eqn:E.
  - destruct (s_scheduledAt y) as [ty|] eqn:Ety; [|simpl in E; discriminate].
    assert (Uy : upcomingAt now y = Some ty)
      by (unfold upcomingAt; rewrite Ety; simpl in E |- *; rewrite E; reflexivity).
    destruct (earliestUpcoming now ss) as [t1|] eqn:E1.
    + destruct (IH t1 eq_refl) as [(x & Hx & Ux) Hmin].
      intros H. inversion H; subst; clear H.
      destruct (Z.ltb_spec t1 ty).
      * split; [exists x; auto|].
        intros z t' [<-|Hin] Uz; [rewrite Uy in Uz; inversion Uz; lia|].
        apply (Hmin z t' Hin Uz).
      * split; [exists y; auto|].
        intros z t' [<-|Hin] Uz; [rewrite Uy in Uz; inversion Uz; lia|].
        pose proof (Hmin z t' Hin Uz). lia.
    + intros H. inversion H; subst; clear H.
      split; [exists y; auto|].
      intros z t' [<-|Hin] Uz; [rewrite Uy in Uz; inversion Uz; lia|].
      rewrite (proj1 (earliestUpcoming_none now ss) E1 z Hin) in Uz. discriminate.
  - intros H. destruct (IH t H) as [(x & Hx & Ux) Hmin].
    split; [exists x; auto|].
    intros z t' [<-|Hin] Uz; [unfold upcomingAt in Uz; rewrite E in Uz; discriminate|].
    apply (Hmin z t' Hin Uz).
Qed.

(** [scheduleSession] appends one session, scheduled, without attendees
    and with a non-zero duration, and leaves the earlier sessions as they
    are.  If some session is still to come, [nextSession] becomes the
    earliest such time, which lies in the future; if none is, [nextSession]
    keeps its old value. *)
Theorem scheduleSession_effect (save : Group -> Exc unit) (data : SessionData)
  (createdBy newId : ObjectId) (roomId : string) (picks : list nat) (now : Date)
  (g : Group) :
  let g' := snd (scheduleSession save data createdBy newId roomId picks now g) in
  (exists x,
     g_sessions g' = g_sessions g ++ [x]
     /\ s_id x = newId /\ s_status x = Scheduled /\ s_attendees x = []
     /\ s_scheduledAt x = sd_scheduledAt data /\ s_duration x <> 0%Z)
  /\ ((forall y, In y (g_sessions g') -> upcomingAt now y = None) ->
      g_nextSession g' = g_nextSession g)
  /\ (forall y t', In y (g_sessions g') -> upcomingAt now y = Some t' ->
        exists t, g_nextSession g' = Some t
                  /\ (now < t <= t')%Z
                  /\ exists z, In z (g_sessions g') /\ upcomingAt now z = Some t).
Proof.
  intros g'. subst g'. unfold scheduleSession. cbn [snd].
  match goal with |- context [g_sessions g ++ [?x]] => set (new := x) end.
  set (g1 := withSessions g (g_sessions g ++ [new])).
  assert (Hs : forall g2, g_sessions g2 = g_sessions g1 ->
               g_sessions g2 = g_sessions g ++ [new]) by (intros g2 ->; reflexivity).
  destruct (earliestUpcoming now (g_sessions g1)) as [t|] eqn:E.
  - split; [|split].
    + exists new. split; [reflexivity|]. repeat split; try reflexivity.
      subst new. simpl. destruct (sd_duration data) as [d|]; [|discriminate].
      destruct (Z.eqb_spec d 0); [discriminate|assumption].
    + intros Hnone. apply earliestUpcoming_none in Hnone.
      unfold withNextSession in Hnone. cbn [g_sessions] in Hnone.
      rewrite Hnone in E. discriminate.
    + intros y t' Hy Uy. unfold withNextSession in *. cbn [g_sessions g_nextSession] in *.
      destruct (earliestUpcoming_some now _ t E) as [(z & Hz & Uz) Hmin].
      exists t. split; [reflexivity|]. split.
      * split; [apply (upcomingAt_future now z t Uz)|apply (Hmin y t' Hy Uy)].
      * exists z. auto.
  - split; [|split].
    + exists new. split; [reflexivity|]. repeat split; try reflexivity.
      subst new. simpl. destruct (sd_duration data) as [d|]; [|discriminate].
      destruct (Z.eqb_spec d 0); [discriminate|assumption].
    + intros _. reflexivity.
    + intros y t' Hy Uy.
      rewrite (proj1 (earliestUpcoming_none now _) E y Hy) in Uy. discriminate.
Qed.

Lemma scheduleSession_effect_witness :
  exists t, g_nextSession withOneSession = Some t
            /\ (50 < t <= 100)%Z
            /\ exists z, In z (g_sessions withOneSession)
                         /\ upcomingAt 50%Z z = Some t.
Proof.
  destruct (scheduleSession_effect accepting sampleData "u1"%string "s1"%string
              "room" [0; 1; 2; 3; 4; 5]%nat 50%Z sampleGroup) as (_ & _ & H).
  eapply (H _ 100%Z).
  - left. reflexivity.
  - reflexivity.
Defined.

(** *** Joining and ending sessions *)

Lemma writeSession_ids (sessionId : ObjectId) (x' : Session) (ss : list Session) :
  s_id x' = sessionId ->
  map s_id (writeSession sessionId x' ss) = map s_id ss.
Proof.
  intros E. induction ss as [|y ss IH]; simpl; [reflexivity|].
  destruct (String.eqb_spec (s_id y) sessionId) as [Ey|Ny]; simpl.
  - rewrite E, Ey. reflexivity.
  - rewrite IH. reflexivity.
Qed.

Lemma sessionById_write_other (sessionId other : ObjectId) (x' : Session)
  (ss : list Session) :
  other <> sessionId -> s_id x' = sessionId ->
  sessionById other (writeSession sessionId x' ss) = sessionById other ss.
Proof.
  intros Ho E. induction ss as [|y ss IH]; simpl; [reflexivity|].
  destruct (String.eqb_spec (s_id y) sessionId) as [Ey|Ny]; simpl.
  - rewrite E. destruct (String.eqb_spec sessionId other); [congruence|].
    destruct (String.eqb_spec (s_id y) other); [congruence|]. reflexivity.
  - rewrite IH. reflexivity.
Qed.

(** The session that [joinSession] leaves under the id it was given. *)
Lemma joinSession_lookup (save : Group -> Exc unit) (sessionId userId : ObjectId)
  (joinedAt now : Date) (g : Group) (x : Session) :
  sessionById sessionId (g_sessions g) = Some x ->
  let going := notAfter (s_scheduledAt x) now && isScheduled (s_status x) in
  exists x',
    snd (joinSession save sessionId userId joinedAt now g)
    = withSessions g (writeSession sessionId x' (g_sessions g))
    /\ fst (joinSession save sessionId userId joinedAt now g)
       = save (withSessions g (writeSession sessionId x' (g_sessions g)))
    /\ s_id x' = sessionId
    /\ s_attendees x' = joined userId joinedAt x
    /\ s_status x' = (if going then Live else s_status x)
    /\ s_liveStartedAt x'
       = (if going then orDate (s_liveStartedAt x) now else s_liveStartedAt x)
    /\ s_endedAt x' = s_endedAt x.
Proof.
  intros Hx going. unfold joinSession. rewrite Hx. cbn [fst snd].
  destruct (sessionById_In _ _ _ Hx) as [_ Hid].
  match goal with |- context [writeSession sessionId ?y _] => set (x' := y) end.
  exists x'. split; [reflexivity|]. split; [reflexivity|].
  subst x' going. unfold joined.
  destruct (find _ (s_attendees x)); cbn [s_scheduledAt s_status withAttendees];
    destruct (notAfter (s_scheduledAt x) now && isScheduled (s_status x));
    simpl; auto.
Qed.

(** [joinSession] throws and changes nothing when no session has the id;
    otherwise it touches that session only: members, chat, creator and the
    order and ids of the sessions stay, and a lookup by any other id gives
    what it gave before. *)
Theorem joinSession_frame (save : Group -> Exc unit) (sessionId userId : ObjectId)
  (joinedAt now : Date) (g : Group) :
  let out := joinSession save sessionId userId joinedAt now g in
  (sessionById sessionId (g_sessions g) = None -> out = (Throw sessionNotFound, g))
  /\ g_members (snd out) = g_members g
  /\ g_messages (snd out) = g_messages g
  /\ g_creator (snd out) = g_creator g
  /\ map s_id (g_sessions (snd out)) = map s_id (g_sessions g)
  /\ (forall other, other <> sessionId ->
        sessionById other (g_sessions (snd out)) = sessionById other (g_sessions g)).
Proof.
  intros out. subst out.
  destruct (sessionById sessionId (g_sessions g)) as [x|] eqn:Hx.
  - destruct (joinSession_lookup save sessionId userId joinedAt now g x Hx)
      as (x' & -> & _ & Hid & _).
    unfold withSessions. cbn [g_members g_messages g_creator g_sessions].
    split; [discriminate|]. repeat split.
    + apply writeSession_ids. exact Hid.
    + intros other Ho. apply sessionById_write_other; assumption.
  - unfold joinSession. rewrite Hx. cbn [snd]. repeat split; reflexivity.
Qed.

Lemma joinSession_frame_witness :
  joinSession accepting "s9"%string "u2"%string 120%Z 120%Z withOneSession
  = (Throw sessionNotFound, withOneSession)
  /\ sessionById "s1"%string
       (g_sessions (snd (joinSession accepting "s9"%string "u2"%string 120%Z 120%Z
                           withOneSession)))
     = sessionById "s1"%string (g_sessions withOneSession).
Proof.
  destruct (joinSession_frame accepting "s9"%string "u2"%string 120%Z 120%Z
              withOneSession) as (Hnone & _ & _ & _ & _ & Hother).
  split.
  - apply Hnone. reflexivity.
  - apply Hother. discriminate.
Defined.

Lemma joined_lists_user (userId : ObjectId) (joinedAt : Date) (x : Session) :
  In userId (map a_user (joined userId joinedAt x)).
Proof.
  unfold joined. destruct (find _ (s_attendees x)) as [a|] eqn:F.
  - apply find_some in F. destruct F as [Hin Ha]. unfold sameUser in Ha.
    apply String.eqb_eq in Ha. apply in_map_iff. exists a. auto.
  - rewrite map_app, in_app_iff. right. simpl. auto.
Qed.

(** A session that is no longer scheduled keeps its status and the time
    it ended through a join. *)
Lemma joinSession_keeps_closed (save : Group -> Exc unit) (sessionId userId : ObjectId)
  (joinedAt now : Date) (g : Group) (x : Session) :
  sessionById sessionId (g_sessions g) = Some x ->
  s_status x <> Scheduled ->
  exists x',
    sessionById sessionId
      (g_sessions (snd (joinSession save sessionId userId joinedAt now g))) = Some x'
    /\ s_status x' = s_status x
    /\ s_endedAt x' = s_endedAt x.
Proof.
  intros Hx Hs.
  destruct (joinSession_lookup save sessionId userId joinedAt now g x Hx)
    as (x' & -> & _ & Hid & _ & Hst & _ & Hend).
  cbv zeta in Hst.
  exists x'. unfold withSessions. cbn [g_sessions].
  split; [apply (sessionById_write _ _ x); assumption|].
  split; [|exact Hend].
  rewrite Hst. destruct (s_status x); try congruence;
    rewrite andb_false_r; reflexivity.
Qed.

(** A join lists the user among the attendees whatever the state of the
    session.  The session goes live exactly when it was scheduled and its
    time has come; the time it went live is set once and kept; a session
    that is live, completed or cancelled keeps its status. *)
Theorem joinSession_status (save : Group -> Exc unit) (sessionId userId : ObjectId)
  (joinedAt now : Date) (g : Group) (x : Session) :
  sessionById sessionId (g_sessions g) = Some x ->
  exists x',
    sessionById sessionId
      (g_sessions (snd (joinSession save sessionId userId joinedAt now g))) = Some x'
    /\ In userId (map a_user (s_attendees x'))
    /\ (s_status x = Scheduled -> notAfter (s_scheduledAt x) now = true ->
        s_status x' = Live
        /\ s_liveStartedAt x' = orDate (s_liveStartedAt x) now)
    /\ (s_status x = Scheduled -> notAfter (s_scheduledAt x) now = false ->
        s_status x' = Scheduled)
    /\ (s_status x <> Scheduled ->
        s_status x' = s_status x /\ s_liveStartedAt x' = s_liveStartedAt x)
    /\ s_endedAt x' = s_endedAt x.
Proof.
  intros Hx.
  destruct (joinSession_lookup save sessionId userId joinedAt now g x Hx)
    as (x' & -> & _ & Hid & Hat & Hst & Hlive & Hend).
  cbv zeta in Hst, Hlive.
  exists x'. unfold withSessions. cbn [g_sessions].
  split; [apply (sessionById_write _ _ x); assumption|].
  split; [rewrite Hat; apply joined_lists_user|].
  split; [|split; [|split]].
  - intros Hs Hn. rewrite Hs, Hn in *. simpl in *. auto.
  - intros Hs Hn. rewrite Hs, Hn in *. simpl in *. auto.
  - intros Hs. destruct (s_status x); try congruence;
      rewrite andb_false_r in *; auto.
  - exact Hend.
Qed.

Lemma joinSession_status_witness :
  exists x',
    sessionById "s1"%string
      (g_sessions (snd (joinSession accepting "s1"%string "u2"%string 120%Z 120%Z
                          withOneSession))) = Some x'
    /\ In "u2"%string (map a_user (s_attendees x'))
    /\ s_status x' = Live
    /\ s_liveStartedAt x' = Some 120%Z.
Proof.
  destruct (joinSession_status accepting "s1"%string "u2"%string 120%Z 120%Z
              withOneSession _ eq_refl) as (x' & Hx' & Hin & Hlive & _).
  exists x'. split; [exact Hx'|]. split; [exact Hin|].
  apply Hlive; reflexivity.
Defined.

(** [endSession] throws and changes nothing when the session is missing or
    the caller is not the group's creator.  For the creator it marks the
    session completed at [now], gives every attendee a leaving time while
    keeping the ones already set, keeps who attended, and no later join
    reopens the session. *)
Theorem endSession_effect (save : Group -> Exc unit) (sessionId endedBy : ObjectId)
  (now : Date) (g : Group) :
  let out := endSession save sessionId endedBy now g in
  (sessionById sessionId (g_sessions g) = None -> out = (Throw sessionNotFound, g))
  /\ (forall x, sessionById sessionId (g_sessions g) = Some x ->
        g_creator g <> endedBy -> out = (Throw creatorOnly, g))
  /\ (forall x, sessionById sessionId (g_sessions g) = Some x ->
        g_creator g = endedBy ->
        exists x',
          sessionById sessionId (g_sessions (snd out)) = Some x'
          /\ s_status x' = Completed
          /\ s_endedAt x' = Some now
          /\ map a_user (s_attendees x') = map a_user (s_attendees x)
          /\ Forall (fun a => a_leftAt a <> None) (s_attendees x')
          /\ (forall a, In a (s_attendees x) -> a_leftAt a <> None ->
                In a (s_attendees x'))
          /\ (forall save' userId joinedAt later,
                exists x'',
                  sessionById sessionId
                    (g_sessions (snd (joinSession save' sessionId userId joinedAt
                                        later (snd out)))) = Some x''
                  /\ s_status x'' = Completed
                  /\ s_endedAt x'' = Some now)).
Proof.
  intros out. subst out. unfold endSession.
  destruct (sessionById sessionId (g_sessions g)) as [x|] eqn:Hx.
  2: { split; [reflexivity|]. split; intros; discriminate. }
  split; [discriminate|].
  destruct (String.eqb_spec (g_creator g) endedBy) as [Ec|Nc]; simpl negb; cbv iota.
  - split; [intros; contradiction|].
    intros y Hy _. inversion Hy; subst y; clear Hy. cbn [snd].
    destruct (sessionById_In _ _ _ Hx) as [_ Hid].
    match goal with |- context [writeSession sessionId ?y _] => set (x' := y) end.
    assert (Hx' : sessionById sessionId
                    (g_sessions (withSessions g (writeSession sessionId x' (g_sessions g))))
                  = Some x').
    { unfold withSessions. cbn [g_sessions].
      apply (sessionById_write _ _ x); [exact Hx|exact Hid]. }
    exists x'. split; [exact Hx'|].
    split; [reflexivity|]. split; [reflexivity|].
    split; [subst x'; simpl; rewrite map_map; reflexivity|].
    split; [|split].
    + subst x'. simpl. apply Forall_forall. intros a Ha.
      apply in_map_iff in Ha. destruct Ha as (b & <- & _). simpl.
      destruct (a_leftAt b); discriminate.
    + intros a Ha Hleft. subst x'. simpl. apply in_map_iff. exists a.
      split; [|exact Ha]. destruct a as [u j [l|]]; simpl in *; congruence.
    + intros save' userId joinedAt later.
      destruct (joinSession_keeps_closed save' sessionId userId joinedAt later _ x' Hx')
        as (x'' & Hx'' & Hs & Hend); [subst x'; simpl; discriminate|].
      exists x''. split; [exact Hx''|].
      rewrite Hs, Hend. subst x'. split; reflexivity.
  - split; [reflexivity|]. intros; contradiction.
Qed.

Lemma endSession_effect_witness :
  endSession accepting "s1"%string "u2"%string 200%Z withOneAttendee
  = (Throw creatorOnly, withOneAttendee)
  /\ exists x',
       sessionById "s1"%string
         (g_sessions (snd (endSession accepting "s1"%string "u1"%string 200%Z
                             withOneAttendee))) = Some x'
       /\ s_status x' = Completed
       /\ map a_leftAt (s_attendees x') = [Some 200%Z].
Proof.
  split.
  - eapply (proj1 (proj2 (endSession_effect accepting "s1"%string "u2"%string 200%Z
                            withOneAttendee))); [reflexivity|discriminate].
  - destruct (proj2 (proj2 (endSession_effect accepting "s1"%string "u1"%string 200%Z
                              withOneAttendee)) _ eq_refl eq_refl)
      as (x' & Hx' & Hs & _).
    exists x'. split; [exact Hx'|]. split; [exact Hs|].
    cbv in Hx'. inversion Hx'. reflexivity.
Defined.

End StudyGroupMore.

(** ** Further properties of the study-group controller *)

Module StudyGroupControllerMore.
Import StudyGroup Http StudyGroupController StudyGroupFacts StudyGroupMore.

(** *** Who may do what *)

(** Joining a session, sending a chat message and reading the chat are
    reserved to active members: a user who is not listed, or is listed as
    inactive, is answered 403 at once. *)
Theorem member_only_operations (op : Operation) (w : World) (req : Request)
  (g : Group) (msg : string) (paths : list string) :
  memberOnlyMessage op = Some msg ->
  loads op = Some paths ->
  findById w paths (params_id req) = Return (Some g) ->
  isMember g (idString (userId req)) = false ->
  handle op w req = (Responded (refuse 403 msg), []).
Proof.
  intros Hm Hl Hf Hn.
  destruct op; simpl in Hm; inversion Hm; subst; clear Hm;
    simpl in Hl; inversion Hl; subst; clear Hl; unfold handle;
    [ unfold StudyGroupController.joinSession | unfold sendChatMessage
    | unfold getChatMessages ];
    unfold lookup; rewrite Hf; simpl; rewrite Hn; reflexivity.
Qed.

Lemma member_only_operations_witness :
  handle SendChatMessage (holding chattyGroup) (requestOn "u3" "g1")
  = (Responded (refuse 403 "You must be a member to send messages"), []).
Proof.
  apply (member_only_operations SendChatMessage (holding chattyGroup)
           (requestOn "u3" "g1") chattyGroup _ []); reflexivity.
Defined.

(** *** Reading the chat *)

Lemma sliceNeg_suffix {A : Type} (limit : Z) (l : list A) :
  exists older, l = older ++ sliceNeg limit l.
Proof.
  unfold sliceNeg, JS.slice_last. destruct (0 <? limit)%Z.
  - eexists. symmetry. apply firstn_skipn.
  - eexists. symmetry. apply firstn_skipn.
Qed.

Lemma sliceNeg_length {A : Type} (limit : Z) (l : list A) :
  (0 < limit)%Z -> (Z.of_nat (List.length (sliceNeg limit l)) <= limit)%Z.
Proof.
  intros H. unfold sliceNeg. rewrite (proj2 (Z.ltb_lt _ _) H).
  rewrite slice_last_length. lia.
Qed.

(** A member reading the chat gets stored messages only, in their stored
    order and ending with the latest: with a positive [limit] at most that
    many, by default at most 50, and with [before] only messages created
    before that date.  A [limit] of 0 is no limit: every message is
    answered.  Nothing is written. *)
Theorem getChatMessages_window (w : World) (req : Request) (g : Group) :
  findById w ["chat.messages.user"%string] (params_id req) = Return (Some g) ->
  isMember g (idString (userId req)) = true ->
  exists ms,
    handle GetChatMessages w req = (Responded (ok None (DChats ms)), [])
    /\ (forall m, In m ms -> In m (g_messages g))
    /\ (forall before, query_before req = Some (Some before) ->
          Forall (fun m => (c_createdAt m < before)%Z) ms)
    /\ (forall limit, query_limit req = Some limit -> (0 < limit)%Z ->
          (Z.of_nat (List.length ms) <= limit)%Z)
    /\ (query_limit req = None -> (List.length ms <= 50)%nat)
    /\ (query_before req = None -> exists older, g_messages g = older ++ ms)
    /\ (query_before req = None -> query_limit req = Some 0%Z -> ms = g_messages g).
Proof.
  intros Hf Hm. unfold handle, getChatMessages, lookup. rewrite Hf. simpl.
  rewrite Hm. simpl. eexists. split; [reflexivity|].
  set (limit := match query_limit req with Some l => l | None => 50%Z end).
  set (visible := match query_before req with
                  | Some (Some before) =>
                      filter (fun m => (c_createdAt m <? before)%Z) (g_messages g)
                  | Some None => []
                  | None => g_messages g
                  end).
  destruct (sliceNeg_suffix limit visible) as [older Hv].
  assert (Hsub : forall m, In m (sliceNeg limit visible) -> In m visible).
  { intros m Hin. rewrite Hv. apply in_or_app. right. exact Hin. }
  split; [|split; [|split; [|split; [|split]]]].
  - intros m Hin. apply Hsub in Hin. subst visible.
    destruct (query_before req) as [[before|]|].
    + apply filter_In in Hin. tauto.
    + destruct Hin.
    + exact Hin.
  - intros before Hb. apply Forall_forall. intros m Hin. apply Hsub in Hin.
    subst visible. rewrite Hb in Hin. apply filter_In in Hin.
    destruct Hin as [_ Hlt]. apply Z.ltb_lt. exact Hlt.
  - intros l Hl Hpos. subst limit. rewrite Hl. apply sliceNeg_length. exact Hpos.
  - intros Hl. subst limit. rewrite Hl.
    pose proof (sliceNeg_length 50 visible ltac:(lia)). lia.
  - intros Hb. subst visible. rewrite Hb in *. exists older. exact Hv.
  - intros Hb Hl. subst visible limit. rewrite Hb, Hl. reflexivity.
Qed.

Lemma getChatMessages_window_witness :
  exists ms,
    handle GetChatMessages (holding chattyGroup)
      (withLimit (requestOn "u1" "g1") 1)
    = (Responded (ok None (DChats ms)), [])
    /\ (Z.of_nat (List.length ms) <= 1)%Z.
Proof.
  destruct (getChatMessages_window (holding chattyGroup)
              (withLimit (requestOn "u1" "g1") 1) chattyGroup eq_refl eq_refl)
    as (ms & Hr & _ & _ & Hl & _).
  exists ms. split; [exact Hr|]. apply (Hl 1%Z); [reflexivity|lia].
Defined.

(** *** Sending a chat message *)

Lemma addChatMessage_last (save : Group -> Exc unit) (userId : ObjectId)
  (content type : option string) (now : Date) (g : Group) :
  exists earlier,
    g_messages (snd (addChatMessage save userId content type now g))
    = earlier
      ++ [mkChatMessage userId content
            (match type with Some t => t | None => "text"%string end) now].
Proof.
  unfold addChatMessage. cbn [snd withMessages g_messages].
  destruct (1000 <? List.length (g_messages g ++ _))%nat.
  - exists (slice_last 999 (g_messages g)). apply slice_last_snoc.
  - exists (g_messages g). reflexivity.
Qed.

(** The message an active member sends is the one answered: it carries
    the sender's id, the content as sent, the type sent or ['text'], and
    the time of the server's clock, however long the stored history is. *)
Theorem sendChatMessage_echo (w : World) (req : Request) (g : Group) :
  findById w [] (params_id req) = Return (Some g) ->
  isMember g (idString (userId req)) = true ->
  (forall d, save w d = Return tt) ->
  (forall d path, populate w d path = Return d) ->
  (forall room event, ioEmit w room event = Return tt) ->
  handle SendChatMessage w req
  = (Responded
       (mkResponse 200 true None
          (DChat (Some (mkChatMessage (idString (userId req)) (body_content req)
                          (match body_type req with
                           | Some t => t
                           | None => "text"%string
                           end)
                          (clock w))))), []).
Proof.
  intros Hf Hm Hs Hpop Hio. unfold handle, sendChatMessage, lookup, invoke.
  rewrite Hf. cbn [bind call ret]. rewrite Hm. cbn [negb unless bind ret].
  destruct (addChatMessage_last (save w) (idString (userId req)) (body_content req)
              (Some (match body_type req with Some t => t | None => "text"%string end))
              (clock w) g) as [earlier He].
  assert (Hfst : forall c t,
            fst (addChatMessage (save w) (idString (userId req)) c t (clock w) g)
                             = Return tt).
  { intros c t. unfold addChatMessage. cbn [fst]. apply Hs. }
  rewrite Hfst. cbn [bind call ret]. rewrite Hpop. cbn [bind call ret].
  rewrite Hio. cbn [bind call ret]. rewrite He, map_app. cbn [map].
  rewrite last_last. reflexivity.
Qed.

Lemma sendChatMessage_echo_witness :
  handle SendChatMessage (holding chattyGroup)
    (withContent (requestOn "u1" "g1") "any questions?")
  = (Responded
       (mkResponse 200 true None
          (DChat (Some (mkChatMessage "u1"%string (Some "any questions?"%string)
                          "text" 0%Z)))), []).
Proof.
  apply (sendChatMessage_echo (holding chattyGroup)
           (withContent (requestOn "u1" "g1") "any questions?")
           chattyGroup eq_refl eq_refl (fun _ => eq_refl) (fun _ _ => eq_refl)
           (fun _ _ => eq_refl)).
Defined.

(** *** Joining a session by its code *)

Lemma joinSession_writes (save : Group -> Exc unit) (sessionId userId : ObjectId)
  (joinedAt now : Date) (g : Group) (x : Session) :
  sessionById sessionId (g_sessions g) = Some x ->
  exists x',
    StudyGroup.joinSession save sessionId userId joinedAt now g
    = (save (withSessions g (writeSession sessionId x' (g_sessions g))),
       withSessions g (writeSession sessionId x' (g_sessions g)))
    /\ s_id x' = s_id x
    /\ s_joinCode x' = s_joinCode x
    /\ s_meetingLink x' = s_meetingLink x
    /\ s_attendees x' = joined userId joinedAt x.
Proof.
  intros Hx. unfold StudyGroup.joinSession. rewrite Hx.
  match goal with |- context [writeSession sessionId ?y _] => set (x' := y) end.
  exists x'. split; [reflexivity|].
  subst x'. unfold joined.
  destruct (List.find _ (s_attendees x)); cbn [s_scheduledAt s_status withAttendees];
    destruct (notAfter (s_scheduledAt x) now && isScheduled (s_status x));
    simpl; auto.
Qed.

Lemma find_code_write (code : string) (sessionId : ObjectId) (x x' : Session)
  (ss : list Session) :
  sessionById sessionId ss = Some x ->
  List.find (fun y => (s_joinCode y =? code)%string) ss = Some x ->
  s_joinCode x' = code ->
  List.find (fun y => (s_joinCode y =? code)%string) (writeSession sessionId x' ss)
  = Some x'.
Proof.
  intros Hid Hcode E.
  induction ss as [|y ss IH]; simpl in *; [discriminate|].
  destruct (String.eqb_spec (s_id y) sessionId) as [Ey|Ny]; simpl.
  - rewrite E, String.eqb_refl. reflexivity.
  - destruct (String.eqb_spec (s_joinCode y) code) as [Ec|Nc].
    + inversion Hcode; subst y.
      exfalso. destruct (String.eqb_spec (s_id x) sessionId) as [|_]; [contradiction|].
      apply sessionById_In in Hid. destruct Hid as [_ Hid]. contradiction.
    + apply IH; assumption.
Qed.

(** A request without a non-empty string as [code] is answered 400 before
    the store is asked.  With the code of a stored session the user is
    entered in that session and answered 200, and no membership of the
    group is asked for: the code alone admits the user. *)
Theorem joinSessionByCode_admits (w : World) (req : Request) :
  ((forall code, body_code req = Some (VStr code) -> code = ""%string) ->
   handle JoinSessionByCode w req
   = (Responded (refuse 400 "Join code is required"), []))
  /\ (forall code g x,
        body_code req = Some (VStr code) -> code <> ""%string ->
        findByJoinCode w code = Return (Some g) ->
        List.find (fun y => (s_joinCode y =? code)%string) (g_sessions g) = Some x ->
        sessionById (s_id x) (g_sessions g) = Some x ->
        (forall d, save w d = Return tt) ->
        exists x',
          handle JoinSessionByCode w req
          = (Responded
               (ok None (DJoinedByCode (g_id g) (s_id x) (s_meetingLink x) x')), [])
          /\ In (idString (userId req)) (map a_user (s_attendees x'))).
Proof.
  unfold handle, joinSessionByCode. split.
  - intros Hc. destruct (body_code req) as [[ | n | code]|]; try reflexivity.
    rewrite (Hc code eq_refl). reflexivity.
  - intros code g x Hb Hne Hg Hx Hid Hs. rewrite Hb.
    rewrite (proj2 (String.eqb_neq _ _) Hne). simpl. rewrite Hg. simpl.
    rewrite Hx. unfold invoke.
    destruct (joinSession_writes (save w) (s_id x) (idString (userId req)) (clock w)
                (clock w)
                g x Hid) as (x' & -> & Ei & Ec & El & Ea).
    cbn [fst snd]. rewrite Hs. simpl.
    assert (Ecode : s_joinCode x' = code).
    { rewrite Ec. apply find_some in Hx. destruct Hx as [_ Hx].
      apply String.eqb_eq. exact Hx. }
    rewrite (find_code_write code (s_id x) x x' (g_sessions g) Hid Hx Ecode).
    exists x'. split.
    + rewrite Ei, El. reflexivity.
    + rewrite Ea. apply joined_lists_user.
Qed.

Lemma joinSessionByCode_admits_witness :
  isMember withOneSession "u7"%string = false
  /\ exists x',
       response (handle JoinSessionByCode (holdingCodes withOneSession)
                   (withCode (requestOn "u7" "g1") (VStr "ABCDEF")))
       = Some (ok None (DJoinedByCode "g1"%string "s1"%string
                          "https://meet.studyai.com/room/room" x'))
       /\ In "u7"%string (map a_user (s_attendees x')).
Proof.
  split; [reflexivity|].
  destruct (proj2 (joinSessionByCode_admits (holdingCodes withOneSession)
                     (withCode (requestOn "u7" "g1") (VStr "ABCDEF")))
              "ABCDEF"%string withOneSession
              (hd (mkSession ""%string None None None 0%Z ""%string ""%string
                     Scheduled None None [] ""%string)
                  (g_sessions withOneSession))
              eq_refl ltac:(discriminate) eq_refl eq_refl eq_refl (fun _ => eq_refl))
    as (x' & Hr & Hin).
  exists x'. split; [|exact Hin].
  unfold response. rewrite Hr. reflexivity.
Defined.

End StudyGroupControllerMore.

(** ** Properties of the authentication middleware *)

Module AuthFacts.
Import Auth.

Lemma replace_scheme (token : string) :
  replace "Bearer " "" ("Bearer " ++ token) = token.
Proof. destruct token; reflexivity. Qed.

Lemma replace_absent (pattern replacement s : string) :
  includes s pattern = false -> replace pattern replacement s = s.
Proof.
  induction s as [|c rest IH]; intros H.
  - simpl in *. rewrite orb_false_r in H. rewrite H. reflexivity.
  - cbn [includes] in H. apply orb_false_elim in H. destruct H as [Hp Hr].
    cbn [replace]. rewrite Hp. rewrite (IH Hr). reflexivity.
Qed.

(** [authenticate] lets a request through only when its header, with the
    first ['Bearer '] taken out, is a non-empty token that [jwt.verify]
    accepts under the configured secret (the built-in fallback key when
    [JWT_SECRET] is missing or empty) and whose user the store holds; the
    request then carries that stored user and nothing is logged.  Every
    other request is answered 401: the middleware never throws and never
    answers another status. *)
Theorem authenticate_sound (w : World) (authorization : option string) :
  match authenticate w authorization with
  | (Next u, log) =>
      log = []
      /\ exists header secret userId,
           authorization = Some header
           /\ replace "Bearer " "" header <> ""%string
           /\ ((JWT_SECRET w = Some secret /\ secret <> ""%string)
               \/ (truthy (JWT_SECRET w) = false
                   /\ secret = "fallbacksecretkey"%string))
           /\ verify w (replace "Bearer " "" header) secret = Done userId
           /\ findById w userId = Done (Some u)
  | (Answered r, _) => status r = 401%Z
  end.
Proof.
  unfold authenticate. destruct authorization as [header|]; [|reflexivity].
  cbn [option_map].
  destruct (String.eqb_spec (replace "Bearer " "" header) "") as [E|N];
    [reflexivity|].
  match goal with |- context [verify w _ ?k] => set (secret := k) end.
  assert (Hk : (JWT_SECRET w = Some secret /\ secret <> ""%string)
               \/ (truthy (JWT_SECRET w) = false
                   /\ secret = "fallbacksecretkey"%string)).
  { subst secret. unfold or_else.
    destruct (truthy (JWT_SECRET w)) eqn:T.
    - left. destruct (JWT_SECRET w) as [k|]; [|discriminate]. split; [reflexivity|].
      simpl in T. intros ->. discriminate.
    - right. split; reflexivity. }
  destruct (verify w _ secret) as [userId|e] eqn:V; [|reflexivity].
  destruct (findById w userId) as [[u|]|e] eqn:F; try reflexivity.
  split; [reflexivity|]. exists header, secret, userId. auto.
Qed.

(** A token sent bare, without the ['Bearer '] scheme, is treated exactly
    as the same token sent with it. *)
Theorem bearer_scheme_optional (w : World) (token : string) :
  includes token "Bearer " = false ->
  authenticate w (Some token) = authenticate w (Some ("Bearer " ++ token)%string).
Proof.
  intros H. unfold authenticate. cbn [option_map].
  rewrite replace_scheme, (replace_absent _ _ _ H). reflexivity.
Qed.

Lemma bearer_scheme_optional_witness :
  authenticate sampleAuth (Some "t1"%string)
  = authenticate sampleAuth (Some "Bearer t1"%string).
Proof. apply (bearer_scheme_optional sampleAuth "t1"). reflexivity. Defined.

(** [authorize(...roles)] calls [next] exactly for a request that carries
    a user whose role is a non-empty string among [roles]; a request
    without a user is answered 401 and any other one 403.  With no role
    listed, nothing passes. *)
Theorem authorize_passes (roles : list string) (user : option User) :
  (forall u, authorize roles user = Next u
             <-> user = Some u
                 /\ exists role, u_role u = Some role /\ role <> ""%string
                                 /\ In role roles)
  /\ (forall r, authorize roles user = Answered r ->
        (user = None /\ status r = 401%Z) \/ (user <> None /\ status r = 403%Z))
  /\ (roles = [] -> forall u, authorize roles user <> Next u).
Proof.
  assert (Hin : forall role, existsb (String.eqb role) roles = true <-> In role roles).
  { intros role. rewrite existsb_exists. split.
    - intros (x & Hx & E). apply String.eqb_eq in E. subst x. exact Hx.
    - intros Hx. exists role. split; [exact Hx|apply String.eqb_refl]. }
  unfold authorize. split; [|split].
  - intros u. destruct user as [v|].
    + destruct (u_role v) as [role|] eqn:R.
      * destruct (String.eqb_spec role "") as [E|N].
        { split; [discriminate|]. intros (Ev & role' & R' & N' & _).
          inversion Ev; subst v. rewrite R in R'. inversion R'. subst. contradiction. }
        destruct (existsb (String.eqb role) roles) eqn:X; simpl.
        { split.
          - intros Ev. inversion Ev; subst v. split; [reflexivity|].
            exists role. split; [exact R|]. split; [exact N|]. apply Hin. exact X.
          - intros (Ev & _). inversion Ev. reflexivity. }
        { split; [discriminate|]. intros (Ev & role' & R' & _ & I').
          inversion Ev; subst v. rewrite R in R'. inversion R'; subst role'.
          apply Hin in I'. rewrite X in I'. discriminate. }
      * split; [discriminate|]. intros (Ev & role' & R' & _).
        inversion Ev; subst v. rewrite R in R'. discriminate.
    + split; [discriminate|]. intros (Ev & _). discriminate.
  - intros r. destruct user as [v|].
    + intros H. right. split; [discriminate|].
      destruct (u_role v) as [role|].
      * destruct (role =? "")%string; [inversion H; reflexivity|].
        destruct (existsb (String.eqb role) roles); simpl in H;
          [discriminate|inversion H; reflexivity].
      * inversion H. reflexivity.
    + intros H. left. split; [reflexivity|]. inversion H. reflexivity.
  - intros -> u. destruct user as [v|]; [|discriminate].
    destruct (u_role v) as [role|]; [|discriminate].
    destruct (role =? "")%string; discriminate.
Qed.

Lemma authorize_passes_witness :
  authorize ["admin"; "student"]%string (Some (mkUser "u1" (Some "student"%string)))
  = Next (mkUser "u1" (Some "student"%string)).
Proof.
  apply (proj1 (authorize_passes ["admin"; "student"]%string
                  (Some (mkUser "u1" (Some "student"%string))))).
  split; [reflexivity|]. exists "student"%string.
  split; [reflexivity|]. split; [discriminate|]. simpl. auto.
Defined.

End AuthFacts.

(** ** Properties of the study-group routes *)

Module StudyGroupRoutesFacts.
Import StudyGroup Http StudyGroupController StudyGroupRoutes.

(** Reading the fields of [asUser req who]. *)
Ltac reduce_request :=
  cbn [asUser userId params_id params_sessionId body_name body_description
       body_subject body_privacy body_maxMembers body_tags body_title
       body_scheduledAt body_duration body_code body_content body_type
       query_subject query_privacy query_search query_limit query_before].

Lemma existsb_never {A : Type} (l : list A) : existsb (fun _ => false) l = false.
Proof. induction l as [|a l IH]; simpl; auto. Qed.

Lemma strictEq_false (s : string) (u : UserRef) :
  s <> idString u -> strictEq s u = false.
Proof.
  destruct u as [t|hex]; simpl; [|reflexivity].
  intros N. apply String.eqb_neq. exact N.
Qed.

(** *** Who may do what *)

(** Deleting a group, scheduling a session and ending a session are
    reserved to the group's creator: anyone else is answered 403 at once,
    before the store is written to and whatever it would answer. *)
Theorem creator_only_operations (op : Operation) (w : World) (req : Request)
  (who : UserRef) (g : Group) (msg : string) :
  creatorOnlyMessage op = Some msg ->
  findById w [] (params_id req) = Return (Some g) ->
  g_creator g <> idString who ->
  handleAs w req who op = (Responded (refuse 403 msg), []).
Proof.
  intros Hm Hf Hc.
  assert (E : (g_creator g =? idString who)%string = false)
    by (apply String.eqb_neq; exact Hc).
  pose proof (strictEq_false _ _ Hc) as E'.
  destruct op; simpl in Hm; inversion Hm; subst; clear Hm;
    unfold handleAs, handle;
    [ unfold deleteStudyGroup | unfold StudyGroupController.scheduleSession
    | unfold StudyGroupController.endSession ];
    unfold lookup; reduce_request; rewrite Hf; simpl;
    rewrite ?E, ?E'; reflexivity.
Qed.

Lemma creator_only_operations_witness :
  handleAs (holding sampleGroup) (requestOn "" "g1") (IdObject "u2"%string) EndSession
  = (Responded (refuse 403 "Only the group creator can end sessions"), []).
Proof.
  apply (creator_only_operations EndSession (holding sampleGroup)
           (requestOn "" "g1") (IdObject "u2"%string) sampleGroup);
    [reflexivity|reflexivity|discriminate].
Defined.

(** Behind the authentication middleware [req.userId] is the user
    document's [_id], an object, and the handlers that delete, update and
    leave a group compare it with strings by [===]: for a stored group
    they refuse every authenticated request, the creator's and an admin's
    included, and write nothing. *)
Theorem routed_owner_operations_refused (op : Operation) (aw : Auth.World)
  (w : World) (authorization : option string) (req : Request) (g : Group)
  (r : Response) (h : H Empty_set) :
  ownerRefusal op = Some r ->
  findById w [] (params_id req) = Return (Some g) ->
  route op aw w authorization req = inr h ->
  h = (Responded r, []).
Proof.
  intros Hr Hf Hh. unfold route in Hh.
  destruct (fst (Auth.authenticate aw authorization)) as [u|a]; [|discriminate].
  inversion Hh; subst h; clear Hh.
  destruct op; simpl in Hr; inversion Hr; subst r; clear Hr;
    unfold handleAs, handle;
    [ unfold leaveStudyGroup | unfold updateStudyGroup | unfold deleteStudyGroup ];
    unfold lookup, isUser; reduce_request; rewrite Hf; simpl.
  - rewrite existsb_never. reflexivity.
  - rewrite existsb_never. reflexivity.
  - reflexivity.
Qed.

Lemma routed_owner_operations_refused_witness :
  g_creator sampleGroup = "u1"%string
  /\ fst (Auth.authenticate Auth.sampleAuth (Some "Bearer t1"%string))
     = Auth.Next (Auth.mkUser "u1" (Some "student"%string))
  /\ route DeleteStudyGroup Auth.sampleAuth (holding sampleGroup)
       (Some "Bearer t1"%string) (requestOn "" "g1")
     = inr (Responded (refuse 403 "Only the creator can delete the group"), []).
Proof.
  split; [reflexivity|]. split; [reflexivity|].
  exact (f_equal (@inr Auth.Response (H Empty_set))
           (routed_owner_operations_refused DeleteStudyGroup Auth.sampleAuth
              (holding sampleGroup) (Some "Bearer t1"%string) (requestOn "" "g1")
              sampleGroup (refuse 403 "Only the creator can delete the group")
              (handleAs (holding sampleGroup) (requestOn "" "g1")
                 (IdObject "u1"%string) DeleteStudyGroup)
              eq_refl eq_refl eq_refl)).
Defined.

(** *** Joining and leaving a group *)

(** C7 (the code departs from it). User ["u1"], already a member of the
    stored group, is authenticated by the middleware and asks to join the
    group again.  [joinStudyGroup] compares each [member.user.toString()]
    with [req.userId] by [===], and [req.userId] is the user document's
    [_id], an object: the membership check does not fire, the answer is
    200 instead of 400 ['Already a member of this group'], and the saved
    group lists the user twice.  (The error boundary and the other
    validation answers of the controller hold: see
    [controller_error_boundary].) *)
Theorem listed_member_joins_again :
  In "u1"%string (map m_user (g_members sampleGroup))
  /\ fst (Auth.authenticate Auth.sampleAuth (Some "Bearer t1"%string))
     = Auth.Next (Auth.mkUser "u1" (Some "student"%string))
  /\ route JoinStudyGroup Auth.sampleAuth (holding sampleGroup)
       (Some "Bearer t1"%string) (requestOn "u1" "g1")
     = inr (Responded
              (ok (Some "Successfully joined the study group"%string)
                 (DGroup
                    (withMembers sampleGroup
                       [mkMember "u1"%string "admin" (Some 0%Z) true;
                        mkMember "u1"%string "member" (Some 0%Z) true]))),
            [Logged false "User u1 joined study group g1"])
  /\ handle JoinStudyGroup (holding sampleGroup) (requestOn "u1" "g1")
     = (Responded
          (ok (Some "Successfully joined the study group"%string)
             (DGroup
                (withMembers sampleGroup
                   [mkMember "u1"%string "admin" (Some 0%Z) true;
                    mkMember "u1"%string "member" (Some 0%Z) true]))),
        [Logged false "User u1 joined study group g1"]).
Proof.
  split; [simpl; auto|]. split; [reflexivity|]. split; reflexivity.
Qed.

Lemma not_listed (s : string) (ms : list Member) :
  ~ In s (map m_user ms) -> existsb (fun m => (m_user m =? s)%string) ms = false.
Proof.
  induction ms as [|m ms IH]; simpl; [reflexivity|]. intros H.
  rewrite IH by tauto. rewrite orb_false_r. apply String.eqb_neq. tauto.
Qed.

Lemma listed (s : string) (ms : list Member) :
  In s (map m_user ms) -> existsb (fun m => (m_user m =? s)%string) ms = true.
Proof.
  intros H. apply in_map_iff in H. destruct H as (m & E & Hin).
  apply existsb_exists. exists m. split; [exact Hin|]. apply String.eqb_eq. exact E.
Qed.

Lemma snoc_repeats {A : Type} (l : list A) (a : A) : In a l -> ~ NoDup (l ++ [a]).
Proof.
  intros Hin Hnd. apply NoDup_remove_2 with (l' := []) in Hnd.
  rewrite app_nil_r in Hnd. contradiction.
Qed.

(** The answer of a join that passes every check. *)
Lemma join_appends (w : World) (req : Request) (who : UserRef) (g : Group) :
  findById w [] (params_id req) = Return (Some g) ->
  existsb (fun m => strictEq (m_user m) who) (g_members g) = false ->
  (Z.of_nat (List.length (g_members g)) < maxMembers (g_settings g))%Z ->
  isPrivate (g_settings g) = false ->
  (forall d, save w d = Return tt) ->
  (forall d path, populate w d path = Return d) ->
  response (handleAs w req who JoinStudyGroup)
  = Some (ok (Some "Successfully joined the study group"%string)
            (DGroup (withMembers g
                       (g_members g
                        ++ [mkMember (idString who) "member" (Some (clock w)) true])))).
Proof.
  intros Hf Hno Hroom Hp Hs Hpop.
  unfold handleAs, handle, joinStudyGroup, lookup, isUser, populated.
  reduce_request. rewrite Hf. cbn [bind call ret].
  rewrite Hno. cbn [unless bind ret].
  rewrite (proj2 (Z.leb_gt _ _) Hroom). cbn [unless bind ret].
  rewrite Hp. rewrite Hs. cbn [unless bind ret call]. rewrite Hpop.
  cbn [bind ret call]. rewrite Hpop. reflexivity.
Qed.

(** A private group refuses a join with 403.  A join that goes through
    answers 200 with the group as saved: the user appended with role
    ['member'] and the member count still within [maxMembers]; when
    [req.userId] is a string that was not listed, no user is listed twice
    afterwards. *)
Theorem joinStudyGroup_within_capacity (w : World) (req : Request) (who : UserRef)
  (g : Group) :
  findById w [] (params_id req) = Return (Some g) ->
  (forall s, who = IdString s -> ~ In s (map m_user (g_members g))) ->
  (Z.of_nat (List.length (g_members g)) < maxMembers (g_settings g))%Z ->
  (isPrivate (g_settings g) = true ->
   handleAs w req who JoinStudyGroup
   = (Responded
        (refuse 403 "This is a private group. You need an invitation to join."), []))
  /\ (isPrivate (g_settings g) = false ->
      (forall d, save w d = Return tt) ->
      (forall d path, populate w d path = Return d) ->
      exists g',
        response (handleAs w req who JoinStudyGroup)
        = Some (ok (Some "Successfully joined the study group"%string) (DGroup g'))
        /\ g_members g'
           = g_members g ++ [mkMember (idString who) "member" (Some (clock w)) true]
        /\ withinCapacity g'
        /\ (forall s, who = IdString s -> distinctMembers g -> distinctMembers g')).
Proof.
  intros Hf Hm Hroom.
  assert (Hfull : (maxMembers (g_settings g) <=? Z.of_nat (List.length (g_members g)))%Z
                  = false) by (apply Z.leb_gt; exact Hroom).
  assert (Hno : existsb (fun m => strictEq (m_user m) who) (g_members g) = false).
  { destruct who as [s|hex]; simpl.
    - apply not_listed. apply Hm. reflexivity.
    - apply existsb_never. }
  unfold handleAs, handle, joinStudyGroup, lookup, isUser.
  reduce_request. rewrite Hf. cbn [bind call ret].
  rewrite Hno. cbn [unless bind ret]. rewrite Hfull. cbn [unless bind ret].
  split.
  - intros Hp. rewrite Hp. reflexivity.
  - intros Hp Hs Hpop. rewrite Hp. unfold populated.
    rewrite Hs. cbn [unless bind ret call]. rewrite Hpop. cbn [bind ret call].
    rewrite Hpop.
    exists (withMembers g
              (g_members g ++ [mkMember (idString who) "member" (Some (clock w)) true])).
    split; [reflexivity|]. split; [reflexivity|]. split.
    + unfold withinCapacity, withMembers. cbn [g_members g_settings].
      rewrite length_app. simpl. lia.
    + intros s -> Hd. unfold distinctMembers, withMembers in *. cbn [g_members].
      rewrite map_app. simpl. apply StudyGroupFacts.NoDup_snoc; [exact Hd|].
      apply Hm. reflexivity.
Qed.

Lemma joinStudyGroup_within_capacity_witness :
  handleAs (holding privateGroup) (requestOn "" "g1") (IdString "u2") JoinStudyGroup
  = (Responded
       (refuse 403 "This is a private group. You need an invitation to join."), [])
  /\ exists g',
       response (handleAs (holding sampleGroup) (requestOn "" "g1") (IdString "u2")
                   JoinStudyGroup)
       = Some (ok (Some "Successfully joined the study group"%string) (DGroup g'))
       /\ withinCapacity g' /\ distinctMembers g'.
Proof.
  assert (Hn : forall s, IdString "u2" = IdString s
                         -> ~ In s (map m_user (g_members sampleGroup))).
  { intros s E. inversion E; subst s. simpl. intros [H | []]. discriminate. }
  split.
  - apply (proj1 (joinStudyGroup_within_capacity (holding privateGroup)
                    (requestOn "" "g1") (IdString "u2") privateGroup eq_refl Hn
                    ltac:(simpl; lia))). reflexivity.
  - destruct (proj2 (joinStudyGroup_within_capacity (holding sampleGroup)
                       (requestOn "" "g1") (IdString "u2") sampleGroup eq_refl Hn
                       ltac:(simpl; lia))
                eq_refl (fun _ => eq_refl) (fun _ _ => eq_refl))
      as (g' & Hr & _ & Hc & Hd).
    exists g'. split; [exact Hr|]. split; [exact Hc|].
    apply (Hd "u2"%string eq_refl). unfold distinctMembers. simpl.
    constructor; [intros []|constructor].
Defined.

(** Behind the authentication middleware the check for an existing
    membership never fires: a join that goes through appends the user
    whether listed or not, so a member who joins again is listed twice. *)
Theorem routed_join_repeats (aw : Auth.World) (w : World)
  (authorization : option string) (req : Request) (g : Group) (h : H Empty_set) :
  findById w [] (params_id req) = Return (Some g) ->
  (Z.of_nat (List.length (g_members g)) < maxMembers (g_settings g))%Z ->
  isPrivate (g_settings g) = false ->
  (forall d, save w d = Return tt) ->
  (forall d path, populate w d path = Return d) ->
  route JoinStudyGroup aw w authorization req = inr h ->
  exists u g',
    fst (Auth.authenticate aw authorization) = Auth.Next u
    /\ response h
       = Some (ok (Some "Successfully joined the study group"%string) (DGroup g'))
    /\ g_members g'
       = g_members g ++ [mkMember (Auth.u_id u) "member" (Some (clock w)) true]
    /\ (In (Auth.u_id u) (map m_user (g_members g)) -> ~ distinctMembers g').
Proof.
  intros Hf Hroom Hp Hs Hpop Hh. unfold route in Hh.
  destruct (fst (Auth.authenticate aw authorization)) as [u|a] eqn:A; [|discriminate].
  inversion Hh; subst h; clear Hh.
  pose proof (join_appends w req (IdObject (Auth.u_id u)) g Hf
                (existsb_never (g_members g)) Hroom Hp Hs Hpop) as Hr.
  exists u. eexists. split; [reflexivity|]. split; [exact Hr|].
  split; [reflexivity|].
  intros Hin. unfold distinctMembers, withMembers. cbn [g_members].
  rewrite map_app. simpl. apply snoc_repeats. exact Hin.
Qed.

Lemma routed_join_repeats_witness :
  exists u g',
    fst (Auth.authenticate Auth.sampleAuth (Some "Bearer t1"%string)) = Auth.Next u
    /\ response (handleAs (holding sampleGroup) (requestOn "" "g1")
                   (IdObject "u1"%string) JoinStudyGroup)
       = Some (ok (Some "Successfully joined the study group"%string) (DGroup g'))
    /\ ~ distinctMembers g'.
Proof.
  destruct (routed_join_repeats Auth.sampleAuth (holding sampleGroup)
              (Some "Bearer t1"%string) (requestOn "" "g1") sampleGroup
              (handleAs (holding sampleGroup) (requestOn "" "g1")
                 (IdObject "u1"%string) JoinStudyGroup)
              eq_refl ltac:(simpl; lia) eq_refl (fun _ => eq_refl)
              (fun _ _ => eq_refl) eq_refl)
    as (u & g' & Hu & Hr & _ & Hrep).
  exists u, g'. split; [exact Hu|]. split; [exact Hr|].
  apply Hrep. inversion Hu. simpl. auto.
Defined.

(** When [req.userId] is a string: the creator of a group cannot leave it
    and a user who is not listed cannot leave either, both are answered
    400; any other member leaves exactly when the group without that
    member is saved. *)
Theorem leaveStudyGroup_rules (w : World) (req : Request) (s : string) (g : Group) :
  findById w [] (params_id req) = Return (Some g) ->
  (~ In s (map m_user (g_members g)) ->
   handleAs w req (IdString s) LeaveStudyGroup
   = (Responded (refuse 400 "You are not a member of this group"), []))
  /\ (In s (map m_user (g_members g)) ->
      g_creator g = s ->
      handleAs w req (IdString s) LeaveStudyGroup
      = (Responded
           (refuse 400
              "Group creator cannot leave. Transfer ownership or delete the group."),
         []))
  /\ (In s (map m_user (g_members g)) ->
      g_creator g <> s ->
      exists left,
        ~ In s (map m_user (g_members left))
        /\ (forall m, In m (g_members g) -> m_user m <> s -> In m (g_members left))
        /\ g_sessions left = g_sessions g
        /\ fst (handleAs w req (IdString s) LeaveStudyGroup)
           = match save w left with
             | Return _ =>
                 Responded
                   (ok (Some "Successfully left the study group"%string) NoData)
             | Throw _ => Responded internalError
             end).
Proof.
  intros Hf. unfold handleAs, handle, leaveStudyGroup, lookup, isUser.
  reduce_request. rewrite Hf. cbn [bind call ret strictEq].
  split; [|split].
  - intros Hm. rewrite (not_listed _ _ Hm). reflexivity.
  - intros Hm Hc. rewrite (listed _ _ Hm). cbn [negb unless bind ret].
    rewrite (proj2 (String.eqb_eq _ _) Hc). reflexivity.
  - intros Hm Hc. rewrite (listed _ _ Hm). cbn [negb unless bind ret].
    rewrite (proj2 (String.eqb_neq _ _) Hc). cbn [unless bind ret].
    exists (withMembers g
              (filter (fun m => negb (m_user m =? s)%string) (g_members g))).
    split; [|split; [|split]].
    + unfold withMembers. cbn [g_members]. rewrite in_map_iff.
      intros (m & E & Hin). apply filter_In in Hin. destruct Hin as [_ Hin].
      rewrite (proj2 (String.eqb_eq _ _) E) in Hin. discriminate.
    + intros m Hin Hne. unfold withMembers. cbn [g_members]. apply filter_In.
      split; [exact Hin|]. rewrite (proj2 (String.eqb_neq _ _) Hne). reflexivity.
    + reflexivity.
    + destruct (save w _); reflexivity.
Qed.

Lemma leaveStudyGroup_rules_witness :
  handleAs (holding sampleGroup) (requestOn "" "g1") (IdString "u1") LeaveStudyGroup
  = (Responded
       (refuse 400 "Group creator cannot leave. Transfer ownership or delete the group."),
     []).
Proof.
  apply (proj1 (proj2 (leaveStudyGroup_rules (holding sampleGroup)
                         (requestOn "" "g1") "u1" sampleGroup eq_refl)));
    [simpl; auto|reflexivity].
Defined.

(** *** Updating a group *)

(** Only the creator and the members listed as admin or moderator may
    update a group; anyone else is answered 403.  Whatever the body holds,
    an update changes the name, description, subject, tags, privacy and
    member limit only: the id, the creator, the members, the sessions, the
    chat and the statistics of the answered group are those of the stored
    one, and the member limit is set to the number sent, be it below the
    number of members. *)
Theorem updateStudyGroup_allowed_fields (w : World) (req : Request) (s : string)
  (g : Group) :
  findById w [] (params_id req) = Return (Some g) ->
  ((forall m, In m (g_members g) -> m_user m = s ->
      m_role m <> "admin"%string /\ m_role m <> "moderator"%string) ->
   g_creator g <> s ->
   handleAs w req (IdString s) UpdateStudyGroup
   = (Responded (refuse 403 "Only admins can update the group"), []))
  /\ (g_creator g = s
      \/ (exists m, In m (g_members g) /\ m_user m = s
                    /\ (m_role m = "admin"%string \/ m_role m = "moderator"%string)) ->
      (forall d, save w d = Return tt) ->
      (forall d path, populate w d path = Return d) ->
      exists g',
        response (handleAs w req (IdString s) UpdateStudyGroup)
        = Some (ok None (DGroup g'))
        /\ g_id g' = g_id g /\ g_creator g' = g_creator g
        /\ g_members g' = g_members g /\ g_sessions g' = g_sessions g
        /\ g_messages g' = g_messages g /\ g_stats g' = g_stats g
        /\ requireApproval (g_settings g') = requireApproval (g_settings g)
        /\ (body_name req = None -> g_name g' = g_name g)
        /\ (forall n, body_maxMembers req = Some n -> maxMembers (g_settings g') = n)).
Proof.
  intros Hf. unfold handleAs, handle, updateStudyGroup, lookup, isUser.
  reduce_request. rewrite Hf. cbn [bind call ret strictEq].
  split.
  - intros Hrole Hc.
    assert (E : existsb
                  (fun m => (m_user m =? s)%string
                            && ((m_role m =? "admin")%string
                                || (m_role m =? "moderator")%string))
                  (g_members g) = false).
    { clear -Hrole. induction (g_members g) as [|m ms IH]; simpl; [reflexivity|].
      rewrite IH by (intros m' Hin; apply Hrole; right; exact Hin).
      rewrite orb_false_r.
      destruct (String.eqb_spec (m_user m) s) as [Eu|Nu]; [|reflexivity].
      destruct (Hrole m (or_introl eq_refl) Eu) as [Ha Hmod].
      apply String.eqb_neq in Ha, Hmod. rewrite Ha, Hmod. reflexivity. }
    rewrite E. rewrite (proj2 (String.eqb_neq _ _) Hc). reflexivity.
  - intros Hway Hs Hpop.
    assert (E : negb (existsb
                  (fun m => (m_user m =? s)%string
                            && ((m_role m =? "admin")%string
                                || (m_role m =? "moderator")%string))
                  (g_members g))
                && negb (g_creator g =? s)%string = false).
    { destruct Hway as [Hc | (m & Hin & Eu & Hr)].
      - rewrite (proj2 (String.eqb_eq _ _) Hc). apply andb_false_r.
      - apply andb_false_intro1. apply negb_false_iff. apply existsb_exists.
        exists m. split; [exact Hin|].
        rewrite (proj2 (String.eqb_eq _ _) Eu). simpl.
        destruct Hr as [-> | ->]; [reflexivity|apply orb_true_r]. }
    rewrite E. cbn [unless bind ret]. unfold populated. rewrite Hs.
    cbn [bind ret call]. rewrite Hpop. cbn [bind ret call]. rewrite Hpop.
    eexists. split; [reflexivity|].
    destruct (body_privacy req), (body_maxMembers req); simpl;
      repeat split; try reflexivity; try congruence;
      intros Hn; rewrite Hn; reflexivity.
Qed.

Lemma updateStudyGroup_allowed_fields_witness :
  exists g',
    response (handleAs (holding chattyGroup) (withName (requestOn "" "g1") "Geometry")
                (IdString "u1") UpdateStudyGroup)
    = Some (ok None (DGroup g'))
    /\ g_members g' = g_members chattyGroup
    /\ g_messages g' = g_messages chattyGroup.
Proof.
  destruct (proj2 (updateStudyGroup_allowed_fields (holding chattyGroup)
                     (withName (requestOn "" "g1") "Geometry") "u1" chattyGroup
                     eq_refl)
              (or_introl eq_refl) (fun _ => eq_refl) (fun _ _ => eq_refl))
    as (g' & Hr & _ & _ & Hm & _ & Hc & _).
  exists g'. split; [exact Hr|]. split; [exact Hm|exact Hc].
Defined.

End StudyGroupRoutesFacts.
